(** * Graph RAG over the Indian-unicorn knowledge graph: retrieval pipeline

    A shallow embedding of the retrieval pipeline of the repository
    ([src/rag/retriever.py], [src/rag/context_builder.py],
    [src/database/queries.py], [src/llm/ollama_client.py]) together with
    the properties its specification states about it.

    Conventions of the embedding.
    - A Python [str] is a [string]; each [ascii] stands for one code point
      below 256 (Latin-1), which is where [str.lower], [str.isupper] and
      [str.isspace] are written out here.
    - A Python [list] is a [list], a [set] of [EntityType] is a [gset].
    - An object mutated in place ([entities], [context_parts], [count]) is
      threaded through the statements that mutate it; the extractor is also
      written on a heap of objects ([Objects]), where its writes are
      explicit.
    - A call that can raise returns a sum whose left side is the exception. *)

From Stdlib Require Import String Ascii NArith ZArith QArith Lia DecimalString.
From stdpp Require Import base decidable countable list gmap strings sorting.

Local Open Scope string_scope.
Local Open Scope list_scope.

(** * The program *)

(** ** Python string operations *)

Module PyStr.

Definition code (c : ascii) : N := N_of_ascii c.

(** [c.isspace()] for one code point below 256. *)
Definition isspace (c : ascii) : bool :=
  let n := code c in
  ((9 <=? n) && (n <=? 13) || (28 <=? n) && (n <=? 32)
   || (n =? 133) || (n =? 160))%N.

(** [c.isupper()] for one code point below 256: A-Z and the upper-case
    letters of Latin-1 (U+00C0..U+00DE without the sign U+00D7). *)
Definition isupper (c : ascii) : bool :=
  let n := code c in
  ((65 <=? n) && (n <=? 90)
   || (192 <=? n) && (n <=? 222) && negb (n =? 215))%N.

(** The lower-case letters whose upper-case form is again below 256
    (so not U+00B5, U+00DF, U+00FF). *)
Definition islower_closed (c : ascii) : bool :=
  let n := code c in
  ((97 <=? n) && (n <=? 122)
   || (224 <=? n) && (n <=? 254) && negb (n =? 247))%N.

Definition lower_char (c : ascii) : ascii :=
  if isupper c then ascii_of_N (code c + 32) else c.

Definition upper_char (c : ascii) : ascii :=
  if islower_closed c then ascii_of_N (code c - 32) else c.

(** [c] has a case: letters, and the ordinal indicators and the three
    lower-case letters left out of [islower_closed]. *)
Definition iscased (c : ascii) : bool :=
  let n := code c in
  (isupper c || islower_closed c
   || (n =? 170) || (n =? 181) || (n =? 186) || (n =? 223) || (n =? 255))%N.

(** [s.lower()] *)
Fixpoint lower (s : string) : string :=
  match s with
  | EmptyString => EmptyString
  | String c s' => String (lower_char c) (lower s')
  end.

(** [s.title()]: a cased character is upper-cased after an uncased one and
    lower-cased after a cased one.  (Python maps U+00B5, U+00DF and U+00FF
    outside Latin-1; the tables of the retriever are ASCII.) *)
Fixpoint title_from (previous_is_cased : bool) (s : string) : string :=
  match s with
  | EmptyString => EmptyString
  | String c s' =>
      String (if previous_is_cased then lower_char c else upper_char c)
             (title_from (iscased c) s')
  end.

Definition title (s : string) : string := title_from false s.

(** [len(s)] *)
Definition len (s : string) : nat := String.length s.

(** [s.startswith(p)] *)
Fixpoint startswith (p s : string) : bool :=
  match p, s with
  | EmptyString, _ => true
  | String a p', String b s' => if Ascii.eqb a b then startswith p' s' else false
  | String _ _, EmptyString => false
  end.

(** [needle in hay] *)
Fixpoint str_in (needle hay : string) : bool :=
  startswith needle hay
  || match hay with
     | EmptyString => false
     | String _ hay' => str_in needle hay'
     end.

(** [c in chars] for one character *)
Fixpoint char_in (c : ascii) (chars : string) : bool :=
  match chars with
  | EmptyString => false
  | String d chars' => Ascii.eqb c d || char_in c chars'
  end.

(** [s.lstrip(chars)] *)
Fixpoint lstrip (chars s : string) : string :=
  match s with
  | EmptyString => EmptyString
  | String c s' => if char_in c chars then lstrip chars s' else s
  end.

(** [s.rstrip(chars)] *)
Fixpoint rstrip (chars s : string) : string :=
  match s with
  | EmptyString => EmptyString
  | String c s' =>
      match rstrip chars s' with
      | EmptyString => if char_in c chars then EmptyString else String c EmptyString
      | r => String c r
      end
  end.

(** [s.strip(chars)] *)
Definition strip (chars s : string) : string := rstrip chars (lstrip chars s).

(** [s.split()]: the maximal runs of characters that are not white space.
    [cur] is the run being read, last character first. *)
Fixpoint split_go (cur : option string) (s : string) : list string :=
  match s with
  | EmptyString =>
      match cur with
      | None => []
      | Some w => [String.rev w]
      end
  | String c s' =>
      if isspace c then
        match cur with
        | None => split_go None s'
        | Some w => String.rev w :: split_go None s'
        end
      else
        split_go (Some (String c (default EmptyString cur))) s'
  end.

Definition split (s : string) : list string := split_go None s.

(** [sep.join(parts)] *)
Fixpoint join (sep : string) (parts : list string) : string :=
  match parts with
  | [] => EmptyString
  | [p] => p
  | p :: rest => p +:+ sep +:+ join sep rest
  end.

(** [str(n)] for a non-negative [int]. *)
Definition str_of_nat (n : nat) : string :=
  NilZero.string_of_uint (Nat.to_uint n).

(** [str(z)] for an [int]. *)
Definition str_of_Z (z : Z) : string :=
  NilZero.string_of_int (Z.to_int z).

(** [any(kw in s for kw in kws)] *)
Definition any_in (kws : list string) (s : string) : bool :=
  existsb (fun kw => str_in kw s) kws.

(** [w in table], for a table of strings *)
Definition member (w : string) (table : list string) : bool :=
  bool_decide (w ∈ table).

End PyStr.

(** ** Entity Extractor and Intent Classifier ([src/rag/retriever.py]) *)

Inductive EntityType : Set :=
  | COMPANY | INVESTOR | SECTOR | LOCATION | VALUATION | COMPARISON.

#[global] Instance EntityType_eq_dec : EqDecision EntityType.
Proof. solve_decision. Defined.

Definition EntityType_value (t : EntityType) : nat :=
  match t with
  | COMPANY => 1 | INVESTOR => 2 | SECTOR => 3
  | LOCATION => 4 | VALUATION => 5 | COMPARISON => 6
  end.

Definition EntityType_of_value (n : nat) : option EntityType :=
  match n with
  | 1 => Some COMPANY | 2 => Some INVESTOR | 3 => Some SECTOR
  | 4 => Some LOCATION | 5 => Some VALUATION | 6 => Some COMPARISON
  | _ => None
  end.

#[global] Instance EntityType_countable : Countable EntityType.
Proof.
  apply (inj_countable EntityType_value EntityType_of_value).
  intros []; reflexivity.
Defined.

Record ExtractedEntities : Type := mkExtractedEntities {
  companies : list string;
  investors : list string;
  sectors : list string;
  locations : list string;
  query_types : gset EntityType;
  is_comparison : bool;
  is_aggregation : bool;
  is_top_query : bool;
}.

(** The class-level tables of [GraphRetriever] that the extractor iterates
    over.  Python enumerates a [set] in an order that is fixed for the life of
    a process but not by the program text, so each gazetteer is held as the
    list of its members in the order this process enumerates them. *)
Record GraphRetriever : Type := mkGraphRetriever {
  KNOWN_INVESTORS : list string;
  KNOWN_SECTORS : list string;
  KNOWN_LOCATIONS : list string;
}.

(** The tables as the class body writes them. *)
Definition GraphRetriever_class : GraphRetriever := {|
  KNOWN_INVESTORS :=
    ["tiger global"; "softbank"; "sequoia"; "accel"; "matrix";
     "temasek"; "tencent"; "alibaba"; "lightspeed"; "elevation";
     "nexus"; "kalaari"; "chiratae"; "bessemer"; "general atlantic"];
  KNOWN_SECTORS :=
    ["fintech"; "edtech"; "e-commerce"; "ecommerce"; "saas";
     "foodtech"; "healthtech"; "proptech"; "logistics"; "gaming";
     "d2c"; "b2b"; "marketplace"; "mobility"; "adtech"];
  KNOWN_LOCATIONS :=
    ["bangalore"; "bengaluru"; "mumbai"; "delhi"; "gurgaon";
     "gurugram"; "noida"; "pune"; "chennai"; "hyderabad";
     "jaipur"; "thane"; "goa"; "kolkata"];
|}.

Definition COMPARISON_KEYWORDS : list string :=
  ["compare"; "vs"; "versus"; "difference"; "between"].
Definition AGGREGATION_KEYWORDS : list string :=
  ["total"; "sum"; "average"; "count"; "how many"].
Definition TOP_KEYWORDS : list string :=
  ["top"; "best"; "highest"; "largest"; "biggest"; "most"].

Definition INVESTOR_KEYWORDS : list string :=
  ["investor"; "invested"; "portfolio"; "fund"; "vc"; "capital"; "backed"].
Definition SECTOR_KEYWORDS : list string :=
  ["sector"; "industry"; "segment"; "vertical"].
Definition LOCATION_KEYWORDS : list string :=
  ["located"; "based"; "city"; "where"].

(** The characters that [w.strip] removes from both ends of a token:
    question mark, comma, full stop, apostrophe, double quote (code 34),
    exclamation mark and the two round brackets. *)
Definition STRIP_CHARS : string :=
  "?,.'" +:+ String "034"%char "!()".

Section Extractor.

(** [ExtractedEntities()]: every list and the set start empty and fresh. *)
Definition ExtractedEntities_new : ExtractedEntities := {|
  companies := []; investors := []; sectors := []; locations := [];
  query_types := ∅;
  is_comparison := false; is_aggregation := false; is_top_query := false;
|}.

(** [entities.query_types.add(t)] *)
Definition add_query_type (t : EntityType) (e : ExtractedEntities) : ExtractedEntities :=
  {| companies := companies e; investors := investors e;
     sectors := sectors e; locations := locations e;
     query_types := query_types e ∪ {[ t ]};
     is_comparison := is_comparison e; is_aggregation := is_aggregation e;
     is_top_query := is_top_query e |}.

(** [entities.companies.append(w)] and its three siblings *)
Definition append_company (w : string) (e : ExtractedEntities) : ExtractedEntities :=
  {| companies := companies e ++ [w]; investors := investors e;
     sectors := sectors e; locations := locations e;
     query_types := query_types e;
     is_comparison := is_comparison e; is_aggregation := is_aggregation e;
     is_top_query := is_top_query e |}.

Definition append_investor (w : string) (e : ExtractedEntities) : ExtractedEntities :=
  {| companies := companies e; investors := investors e ++ [w];
     sectors := sectors e; locations := locations e;
     query_types := query_types e;
     is_comparison := is_comparison e; is_aggregation := is_aggregation e;
     is_top_query := is_top_query e |}.

Definition append_sector (w : string) (e : ExtractedEntities) : ExtractedEntities :=
  {| companies := companies e; investors := investors e;
     sectors := sectors e ++ [w]; locations := locations e;
     query_types := query_types e;
     is_comparison := is_comparison e; is_aggregation := is_aggregation e;
     is_top_query := is_top_query e |}.

Definition append_location (w : string) (e : ExtractedEntities) : ExtractedEntities :=
  {| companies := companies e; investors := investors e;
     sectors := sectors e; locations := locations e ++ [w];
     query_types := query_types e;
     is_comparison := is_comparison e; is_aggregation := is_aggregation e;
     is_top_query := is_top_query e |}.

(** The three assignments to the shape flags. *)
Definition set_flags (c a t : bool) (e : ExtractedEntities) : ExtractedEntities :=
  {| companies := companies e; investors := investors e;
     sectors := sectors e; locations := locations e;
     query_types := query_types e;
     is_comparison := c; is_aggregation := a; is_top_query := t |}.

(** [words = [w.strip(...) for w in query.split()]] *)
Definition words_of (query : string) : list string :=
  map (PyStr.strip STRIP_CHARS) (PyStr.split query).

(** [keywords = [w for w in words if len(w) > 2]] *)
Definition keywords_of (query : string) : list string :=
  filter (fun w => 2 < PyStr.len w) (words_of query).

(** [word[0].isupper()].  Indexing the empty string raises [IndexError] in
    Python; the loop below only reads words of [keywords_of], which have
    more than two characters ([keywords_of_nonempty]). *)
Definition first_isupper (word : string) : bool :=
  match word with
  | EmptyString => false
  | String c _ => PyStr.isupper c
  end.

Variable self : GraphRetriever.

(** One turn of [if any(kw in query_lower for kw in KEYWORDS): add(t)]. *)
Definition context_step (keywords : list string) (t : EntityType)
    (query_lower : string) (e : ExtractedEntities) : ExtractedEntities :=
  if PyStr.any_in keywords query_lower then add_query_type t e else e.

(** The body of [for term in TABLE: if term in query_lower: ...]. *)
Definition gazetteer_step (append : string → ExtractedEntities → ExtractedEntities)
    (t : EntityType) (query_lower : string)
    (e : ExtractedEntities) (term : string) : ExtractedEntities :=
  if PyStr.str_in term query_lower
  then add_query_type t (append (PyStr.title term) e)
  else e.

(** The condition of the company loop, in the order Python evaluates it. *)
Definition is_company_candidate (word : string) : bool :=
  let word_lower := PyStr.lower word in
  first_isupper word
  && negb (PyStr.member word_lower (KNOWN_INVESTORS self))
  && negb (PyStr.member word_lower (KNOWN_SECTORS self))
  && negb (PyStr.member word_lower (KNOWN_LOCATIONS self))
  && bool_decide (3 < PyStr.len word).

Definition company_step (e : ExtractedEntities) (word : string) : ExtractedEntities :=
  if is_company_candidate word
  then add_query_type COMPANY (append_company word e)
  else e.

Definition extract_entities (query : string) : ExtractedEntities :=
  let query_lower := PyStr.lower query in
  let entities := ExtractedEntities_new in
  let entities :=
    set_flags (PyStr.any_in COMPARISON_KEYWORDS query_lower)
              (PyStr.any_in AGGREGATION_KEYWORDS query_lower)
              (PyStr.any_in TOP_KEYWORDS query_lower) entities in
  let keywords := keywords_of query in
  let entities := context_step INVESTOR_KEYWORDS INVESTOR query_lower entities in
  let entities := context_step SECTOR_KEYWORDS SECTOR query_lower entities in
  let entities := context_step LOCATION_KEYWORDS LOCATION query_lower entities in
  let entities :=
    fold_left (gazetteer_step append_investor INVESTOR query_lower)
              (KNOWN_INVESTORS self) entities in
  let entities :=
    fold_left (gazetteer_step append_sector SECTOR query_lower)
              (KNOWN_SECTORS self) entities in
  let entities :=
    fold_left (gazetteer_step append_location LOCATION query_lower)
              (KNOWN_LOCATIONS self) entities in
  let entities := fold_left company_step keywords entities in
  entities.

Definition get_query_intent (entities : ExtractedEntities) : string :=
  if is_comparison entities then "comparison"
  else if is_aggregation entities then "aggregation"
  else if is_top_query entities then "top_ranking"
  else if bool_decide (INVESTOR ∈ query_types entities) then "investor_info"
  else if bool_decide (SECTOR ∈ query_types entities) then "sector_info"
  else if bool_decide (LOCATION ∈ query_types entities) then "location_info"
  else if bool_decide (COMPANY ∈ query_types entities) then "company_info"
  else "general".

End Extractor.

(** ** Records returned by the Graph Query Layer ([src/database/queries.py])

    Each lookup returns the rows of one Cypher [RETURN] clause, so a row is a
    record with that clause's columns.  A string column is [None] when the
    store holds null.  A numeric column is carried by its value, which the
    store orders by, and by the text Python's [str] gives for it: the
    formatting of floats is outside the model. *)

Record Number : Type := mkNumber { number_value : Q; number_text : string }.

(** [str(x)] as an f-string field renders it. *)
Definition str_text (x : option string) : string :=
  match x with
  | None => "None"
  | Some s => s
  end.

Definition str_number (x : option Number) : string :=
  match x with
  | None => "None"
  | Some n => number_text n
  end.

Record CompanyDetails : Type := mkCompanyDetails {
  cd_company : option string;
  cd_valuation : option Number;
  cd_entryValuation : option Number;
  cd_entryDate : option string;
  cd_rank : option Z;
  cd_sector : option string;
  cd_subsector : option string;
  cd_locations : list string;
  cd_investors : list string;
}.

(** Rows of [get_top_companies] and [get_city_companies]. *)
Record CompanyRow : Type := mkCompanyRow {
  cr_company : option string;
  cr_valuation : option Number;
  cr_sector : option string;
}.

Record SectorCompanyRow : Type := mkSectorCompanyRow {
  sc_company : option string;
  sc_valuation : option Number;
  sc_subsector : option string;
}.

Record PortfolioRow : Type := mkPortfolioRow {
  pf_investor : option string;
  pf_company : option string;
  pf_valuation : option Number;
  pf_sector : option string;
}.

Record InvestorRow : Type := mkInvestorRow {
  iv_investor : option string;
  iv_investments : nat;
  iv_portfolioValue : option Number;
}.

Record CoInvestorRow : Type := mkCoInvestorRow {
  ci_coInvestor : option string;
  ci_sharedInvestments : nat;
  ci_sampleCompanies : list string;
}.

Record SectorStatRow : Type := mkSectorStatRow {
  ss_sector : option string;
  ss_companyCount : nat;
  ss_totalValuation : option Number;
  ss_avgValuation : option Number;
}.

Record LocationStatRow : Type := mkLocationStatRow {
  ls_city : option string;
  ls_companyCount : nat;
  ls_totalValuation : option Number;
}.

Record GraphStats : Type := mkGraphStats {
  gs_companies : nat;
  gs_investors : nat;
  gs_sectors : nat;
  gs_locations : nat;
  gs_relationships : nat;
}.

(** The answers of the store to the lookups of [GraphQueries], fixed for the
    time of one [build_context].  [get_company_details] answers [None] when no
    row matches; [get_graph_stats] answers [None] where Python gets the empty
    dict. *)
Record GraphQueries : Type := mkGraphQueries {
  get_company_details : string → option CompanyDetails;
  get_top_companies : Z → list CompanyRow;
  get_investor_portfolio : string → Z → list PortfolioRow;
  get_top_investors : Z → list InvestorRow;
  get_co_investors : string → Z → list CoInvestorRow;
  get_sector_companies : string → Z → list SectorCompanyRow;
  get_sector_stats : list SectorStatRow;
  get_city_companies : string → Z → list CompanyRow;
  get_location_stats : list LocationStatRow;
  get_graph_stats : option GraphStats;
}.

(** ** Formatting ([ContextBuilder._format_*]) *)

Module Format.
Import PyStr.

Definition nl : string := String "010"%char EmptyString.

(** [', '.join(xs)] *)
Definition comma_join (xs : list string) : string := join ", " xs.

(** [enumerate(xs, 1)] *)
Definition enumerate1 {A : Type} (xs : list A) : list (nat * A) :=
  zip (seq 1 (length xs)) xs.

Definition _format_company_details (details : CompanyDetails) : string :=
  let investors := cd_investors details in
  let investor_str :=
    match investors with
    | [] => "N/A"
    | _ => comma_join (take 7 investors)
    end in
  let investor_str :=
    if bool_decide (7 < length investors)
    then investor_str +:+ " (+" +:+ str_of_nat (length investors - 7) +:+ " more)"
    else investor_str in
  let subsector :=
    match cd_subsector details with
    | Some (String c s) => "(" +:+ String c s +:+ ")"
    | _ => ""
    end in
  let locations :=
    match comma_join (cd_locations details) with
    | EmptyString => "N/A"
    | s => s
    end in
  "**Company: " +:+ str_text (cd_company details) +:+ "**" +:+ nl +:+
  "- Sector: " +:+ str_text (cd_sector details) +:+ " " +:+ subsector +:+ nl +:+
  "- Current Valuation: $" +:+ str_number (cd_valuation details) +:+ "B" +:+ nl +:+
  "- Entry Valuation: $" +:+ str_number (cd_entryValuation details) +:+ "B" +:+ nl +:+
  "- Entry Date: " +:+ str_text (cd_entryDate details) +:+ nl +:+
  "- Locations: " +:+ locations +:+ nl +:+
  "- Key Investors: " +:+ investor_str.

Definition _format_investor_portfolio (portfolio : list PortfolioRow) : string :=
  match portfolio with
  | [] => ""
  | first :: _ =>
      let investor_name := str_text (pf_investor first) in
      let companies :=
        map (λ p, str_text (pf_company p) +:+ " ($" +:+ str_number (pf_valuation p)
                  +:+ "B - " +:+ str_text (pf_sector p) +:+ ")") portfolio in
      "**Investor: " +:+ investor_name +:+ "**" +:+ nl +:+
      "- Portfolio (" +:+ str_of_nat (length portfolio) +:+ " companies): "
      +:+ comma_join companies
  end.

Definition _format_co_investors (investor : string) (co_investors : list CoInvestorRow) : string :=
  let lines :=
    ["**Co-investors of " +:+ investor +:+ ":**"]
    ++ map (λ ci, "- " +:+ str_text (ci_coInvestor ci) +:+ ": "
                  +:+ str_of_nat (ci_sharedInvestments ci) +:+ " shared investments")
           co_investors in
  join nl lines.

Definition _format_sector_companies (sector : string) (companies : list SectorCompanyRow) : string :=
  let company_lines :=
    map (λ c, str_text (sc_company c) +:+ " ($" +:+ str_number (sc_valuation c) +:+ "B)")
        companies in
  "**" +:+ sector +:+ " Sector Companies:**" +:+ nl +:+ comma_join company_lines.

Definition _format_city_companies (city : string) (companies : list CompanyRow) : string :=
  let company_lines :=
    map (λ c, str_text (cr_company c) +:+ " (" +:+ str_text (cr_sector c) +:+ ", $"
              +:+ str_number (cr_valuation c) +:+ "B)")
        companies in
  "**Companies in " +:+ city +:+ ":**" +:+ nl +:+ comma_join company_lines.

Definition _format_top_companies (companies : list CompanyRow) : string :=
  let lines :=
    ["**Top Unicorns by Valuation:**"]
    ++ map (λ ic, str_of_nat ic.1 +:+ ". " +:+ str_text (cr_company ic.2) +:+ " - $"
                  +:+ str_number (cr_valuation ic.2) +:+ "B ("
                  +:+ str_text (cr_sector ic.2) +:+ ")")
           (enumerate1 companies) in
  join nl lines.

Definition _format_top_investors (investors : list InvestorRow) : string :=
  let lines :=
    ["**Most Active Investors:**"]
    ++ map (λ ii, str_of_nat ii.1 +:+ ". " +:+ str_text (iv_investor ii.2) +:+ " - "
                  +:+ str_of_nat (iv_investments ii.2) +:+ " investments ($"
                  +:+ str_number (iv_portfolioValue ii.2) +:+ "B total)")
           (enumerate1 investors) in
  join nl lines.

Definition _format_sector_stats (stats : list SectorStatRow) : string :=
  let lines :=
    ["**Sector Statistics:**"]
    ++ map (λ s, "- " +:+ str_text (ss_sector s) +:+ ": "
                 +:+ str_of_nat (ss_companyCount s) +:+ " companies, $"
                 +:+ str_number (ss_totalValuation s) +:+ "B total")
           (take 8 stats) in
  join nl lines.

Definition _format_location_stats (stats : list LocationStatRow) : string :=
  let lines :=
    ["**Location Statistics:**"]
    ++ map (λ s, "- " +:+ str_text (ls_city s) +:+ ": "
                 +:+ str_of_nat (ls_companyCount s) +:+ " companies, $"
                 +:+ str_number (ls_totalValuation s) +:+ "B total")
           (take 8 stats) in
  join nl lines.

Definition _format_graph_stats (stats : GraphStats) : string :=
  "**Indian Unicorn Startups Database:**" +:+ nl +:+
  "- Total Companies: " +:+ str_of_nat (gs_companies stats) +:+ nl +:+
  "- Total Investors: " +:+ str_of_nat (gs_investors stats) +:+ nl +:+
  "- Sectors: " +:+ str_of_nat (gs_sectors stats) +:+ nl +:+
  "- Locations: " +:+ str_of_nat (gs_locations stats) +:+ nl +:+
  "- Total Relationships: " +:+ str_of_nat (gs_relationships stats).

End Format.

(** ** Context Builder ([src/rag/context_builder.py]) *)

(** The three values every [_build_*_context] returns, and the three locals
    it mutates on the way. *)
Record Plan : Type := mkPlan {
  context_parts : list string;
  plan_sources : list string;
  plan_count : nat;
}.

Record RetrievalResult : Type := mkRetrievalResult {
  context : string;
  entities_found : nat;
  retrieval_time_ms : Q;
  sources : list string;
}.

Definition Plan_new : Plan :=
  {| context_parts := []; plan_sources := []; plan_count := 0 |}.

(** [context_parts.append(block); sources.append(tag); count += n] *)
Definition add_block (block tag : string) (n : nat) (p : Plan) : Plan :=
  {| context_parts := context_parts p ++ [block];
     plan_sources := plan_sources p ++ [tag];
     plan_count := plan_count p + n |}.

(** [context_parts.append(block)] alone, as for the co-investors. *)
Definition add_part (block : string) (p : Plan) : Plan :=
  {| context_parts := context_parts p ++ [block];
     plan_sources := plan_sources p;
     plan_count := plan_count p |}.

Section Builder.

Variable queries : GraphQueries.
Variable retriever : GraphRetriever.

Import Format.

(** Turn of the loop over company names: one detail lookup, counted 1. *)
Definition company_details_step (p : Plan) (company_name : string) : Plan :=
  match get_company_details queries company_name with
  | Some details =>
      add_block (_format_company_details details)
                ("company:" +:+ str_text (cd_company details)) 1 p
  | None => p
  end.

(** Turn of a loop over investor names in [_build_company_context]. *)
Definition portfolio_step (limit : Z) (p : Plan) (investor : string) : Plan :=
  match get_investor_portfolio queries investor limit with
  | [] => p
  | portfolio =>
      add_block (_format_investor_portfolio portfolio)
                ("investor:" +:+ investor) (length portfolio) p
  end.

(** Turn of the loop of [_build_investor_context]: the portfolio, and the
    co-investors when there is a portfolio. *)
Definition investor_step (p : Plan) (investor : string) : Plan :=
  match get_investor_portfolio queries investor 10 with
  | [] => p
  | portfolio =>
      let p := add_block (_format_investor_portfolio portfolio)
                         ("investor:" +:+ investor) (length portfolio) p in
      match get_co_investors queries investor 5 with
      | [] => p
      | co_investors => add_part (_format_co_investors investor co_investors) p
      end
  end.

(** Turn of a loop over sector names; [counted] tells whether the loop has
    the statement [count += len(companies)]. *)
Definition sector_step (limit : Z) (counted : bool) (p : Plan) (sector : string) : Plan :=
  match get_sector_companies queries sector limit with
  | [] => p
  | companies =>
      add_block (_format_sector_companies sector companies)
                ("sector:" +:+ sector)
                (if counted then length companies else 0) p
  end.

(** Turn of a loop over city names. *)
Definition city_step (limit : Z) (p : Plan) (location : string) : Plan :=
  match get_city_companies queries location limit with
  | [] => p
  | companies =>
      add_block (_format_city_companies location companies)
                ("city:" +:+ location) (length companies) p
  end.

Definition _build_company_context (entities : ExtractedEntities) : Plan :=
  let p := Plan_new in
  let p := fold_left company_details_step (take 3 (companies entities)) p in
  let p := fold_left (portfolio_step 5) (investors entities) p in
  p.

Definition _build_investor_context (entities : ExtractedEntities) : Plan :=
  let p := Plan_new in
  let p := fold_left investor_step (take 3 (investors entities)) p in
  let p :=
    match investors entities with
    | [] =>
        match get_top_investors queries 10 with
        | [] => p
        | top_investors =>
            add_block (_format_top_investors top_investors) "top_investors"
                      (length top_investors) p
        end
    | _ => p
    end in
  p.

Definition _build_sector_context (entities : ExtractedEntities) : Plan :=
  let p := Plan_new in
  let p := fold_left (sector_step 10 true) (take 3 (sectors entities)) p in
  let p :=
    match get_sector_stats queries with
    | [] => p
    | sector_stats => add_block (_format_sector_stats sector_stats) "sector_stats" 0 p
    end in
  p.

Definition _build_location_context (entities : ExtractedEntities) : Plan :=
  let p := Plan_new in
  let p := fold_left (city_step 10) (take 3 (locations entities)) p in
  let p :=
    match get_location_stats queries with
    | [] => p
    | location_stats =>
        add_block (_format_location_stats (take 10 location_stats)) "location_stats" 0 p
    end in
  p.

Definition _build_comparison_context (entities : ExtractedEntities) : Plan :=
  let p := Plan_new in
  let p := fold_left company_details_step (take 5 (companies entities)) p in
  let p := fold_left (sector_step 5 true) (take 3 (sectors entities)) p in
  let p := fold_left (city_step 5) (take 3 (locations entities)) p in
  p.

Definition _build_top_ranking_context (entities : ExtractedEntities) : Plan :=
  let p := Plan_new in
  let p :=
    match get_top_companies queries 10 with
    | [] => p
    | top_companies =>
        add_block (_format_top_companies top_companies) "top_companies"
                  (length top_companies) p
    end in
  let p :=
    match get_top_investors queries 10 with
    | [] => p
    | top_investors =>
        add_block (_format_top_investors top_investors) "top_investors"
                  (length top_investors) p
    end in
  let p := fold_left (sector_step 5 false) (take 2 (sectors entities)) p in
  p.

Definition _build_aggregation_context (entities : ExtractedEntities) : Plan :=
  let p := Plan_new in
  let p :=
    match get_graph_stats queries with
    | Some stats => add_block (_format_graph_stats stats) "graph_stats" 1 p
    | None => p
    end in
  let p :=
    match get_sector_stats queries with
    | [] => p
    | sector_stats =>
        add_block (_format_sector_stats sector_stats) "sector_stats"
                  (length sector_stats) p
    end in
  let p :=
    match get_location_stats queries with
    | [] => p
    | location_stats =>
        add_block (_format_location_stats (take 10 location_stats)) "location_stats" 0 p
    end in
  p.

(** [_build_general_context]: its count is not accumulated but computed at
    the [return], as the number of top companies. *)
Definition _build_general_context : Plan :=
  let p := Plan_new in
  let p :=
    match get_graph_stats queries with
    | Some stats => add_block (_format_graph_stats stats) "graph_stats" 0 p
    | None => p
    end in
  let top_companies := get_top_companies queries 5 in
  let p :=
    match top_companies with
    | [] => p
    | _ => add_block (_format_top_companies top_companies) "top_companies" 0 p
    end in
  {| context_parts := context_parts p;
     plan_sources := plan_sources p;
     plan_count := match top_companies with [] => 0 | _ => length top_companies end |}.

(** The [if intent == ... elif ...] chain of [build_context]. *)
Definition intent_plan (intent : string) (entities : ExtractedEntities) : Plan :=
  if String.eqb intent "comparison" then _build_comparison_context entities
  else if String.eqb intent "top_ranking" then _build_top_ranking_context entities
  else if String.eqb intent "aggregation" then _build_aggregation_context entities
  else if String.eqb intent "investor_info" then _build_investor_context entities
  else if String.eqb intent "sector_info" then _build_sector_context entities
  else if String.eqb intent "location_info" then _build_location_context entities
  else if String.eqb intent "company_info" then _build_company_context entities
  else _build_general_context.

(** [build_context].  [start_time] and [end_time] are the two readings of
    [time.time()], in seconds. *)
Definition build_context (start_time end_time : Q) (user_query : string) : RetrievalResult :=
  let entities := extract_entities retriever user_query in
  let intent := get_query_intent entities in
  let p := intent_plan intent entities in
  let p :=
    match context_parts p with
    | [] => _build_general_context
    | _ => p
    end in
  let retrieval_time := ((end_time - start_time) * 1000)%Q in
  {| context := PyStr.join (nl +:+ nl) (context_parts p);
     entities_found := plan_count p;
     retrieval_time_ms := retrieval_time;
     sources := plan_sources p |}.

End Builder.

(** ** The extractor on the objects of a process

    [extract_entities] above threads the value of [entities] through the
    statements of the method.  Here the method is written on the objects
    themselves: the nine sets of the class [GraphRetriever], the four lists
    and the set that [ExtractedEntities()] creates, and the instance that
    refers to them.  All of them are mutable and live on one heap, so a
    write to a set of the class, or a list shared between two results, can
    be expressed; whether the method does either is a property to prove. *)

Module Objects.

Definition Address : Type := nat.

(** The objects the method meets.  A [set] of [str] is held with its
    members in the order in which this process enumerates it: Python fixes
    that order by the hashes of the members, which change from one process
    to the next. *)
Inductive Object : Type :=
  | StrSetObject (enumeration : list string)
  | ListObject (items : list string)
  | TypeSetObject (members : gset EntityType)
  | EntitiesObject (companies investors sectors locations query_types : Address)
                   (is_comparison is_aggregation is_top_query : bool).

(** The heap: the object at address [a] is the [a]-th entry. *)
Definition Heap : Type := list Object.

(** The class [GraphRetriever]: where each of its nine sets lives. *)
Record GraphRetrieverObject : Type := mkGraphRetrieverObject {
  KNOWN_INVESTORS_ref : Address;
  KNOWN_SECTORS_ref : Address;
  KNOWN_LOCATIONS_ref : Address;
  COMPARISON_KEYWORDS_ref : Address;
  AGGREGATION_KEYWORDS_ref : Address;
  TOP_KEYWORDS_ref : Address;
  INVESTOR_KEYWORDS_ref : Address;
  SECTOR_KEYWORDS_ref : Address;
  LOCATION_KEYWORDS_ref : Address;
}.

(** A statement runs on a heap and gives a value and the heap it leaves, or
    nothing where the interpreter would raise (an address without an object,
    an operation on an object of another type). *)
Definition Run (A : Type) : Type := Heap → option (A * Heap).

Definition ret {A : Type} (a : A) : Run A := λ h, Some (a, h).

Definition fail {A : Type} : Run A := λ _, None.

#[export] Instance Run_bind : MBind Run :=
  λ A B (k : A → Run B) (c : Run A) h,
    match c h with
    | Some (a, h') => k a h'
    | None => None
    end.

(** A new object; its address is the next free one. *)
Definition allocate (o : Object) : Run Address :=
  λ h, Some (length h, h ++ [o]).

Definition load (a : Address) : Run Object :=
  λ h, match h !! a with
       | Some o => Some (o, h)
       | None => None
       end.

(** The object at [a] changes in place. *)
Definition store (a : Address) (o : Object) : Run unit :=
  λ h, match h !! a with
       | Some _ => Some (tt, <[a := o]> h)
       | None => None
       end.

(** [for x in items: body] *)
Fixpoint for_each {A : Type} (items : list A) (body : A → Run unit) : Run unit :=
  match items with
  | [] => ret tt
  | x :: rest => _ ← body x; for_each rest body
  end.

(** [iter(table)] on a set of strings. *)
Definition enumerate (table : Address) : Run (list string) :=
  o ← load table;
  match o with
  | StrSetObject enumeration => ret enumeration
  | _ => fail
  end.

(** [any(kw in query_lower for kw in table)] *)
Definition any_keyword (table : Address) (query_lower : string) : Run bool :=
  keywords ← enumerate table;
  ret (PyStr.any_in keywords query_lower).

(** [x in table] *)
Definition contains (table : Address) (x : string) : Run bool :=
  members ← enumerate table;
  ret (PyStr.member x members).

(** [target.append(x)] *)
Definition list_append (target : Address) (x : string) : Run unit :=
  o ← load target;
  match o with
  | ListObject items => store target (ListObject (items ++ [x]))
  | _ => fail
  end.

(** [target.add(t)] *)
Definition set_add (target : Address) (t : EntityType) : Run unit :=
  o ← load target;
  match o with
  | TypeSetObject members => store target (TypeSetObject (members ∪ {[ t ]}))
  | _ => fail
  end.

Inductive ListAttribute : Set :=
  | companies_attr | investors_attr | sectors_attr | locations_attr.

Inductive FlagAttribute : Set :=
  | is_comparison_attr | is_aggregation_attr | is_top_query_attr.

(** [entities.companies] and its three siblings: the list the attribute
    refers to. *)
Definition getattr_list (entities : Address) (attribute : ListAttribute) : Run Address :=
  o ← load entities;
  match o with
  | EntitiesObject c i s l _ _ _ _ =>
      ret (match attribute with
           | companies_attr => c
           | investors_attr => i
           | sectors_attr => s
           | locations_attr => l
           end)
  | _ => fail
  end.

(** [entities.query_types] *)
Definition getattr_query_types (entities : Address) : Run Address :=
  o ← load entities;
  match o with
  | EntitiesObject _ _ _ _ q _ _ _ => ret q
  | _ => fail
  end.

(** [entities.is_comparison = b] and its two siblings. *)
Definition setattr_flag (entities : Address) (flag : FlagAttribute) (b : bool) : Run unit :=
  o ← load entities;
  match o with
  | EntitiesObject c i s l q f1 f2 f3 =>
      store entities
        (match flag with
         | is_comparison_attr => EntitiesObject c i s l q b f2 f3
         | is_aggregation_attr => EntitiesObject c i s l q f1 b f3
         | is_top_query_attr => EntitiesObject c i s l q f1 f2 b
         end)
  | _ => fail
  end.

(** [ExtractedEntities()]: each [default_factory] makes a new list or set,
    then the instance refers to them. *)
Definition ExtractedEntities_init : Run Address :=
  companies ← allocate (ListObject []);
  investors ← allocate (ListObject []);
  sectors ← allocate (ListObject []);
  locations ← allocate (ListObject []);
  query_types ← allocate (TypeSetObject ∅);
  allocate (EntitiesObject companies investors sectors locations query_types
                           false false false).

(** [entities.query_types.add(t)] *)
Definition add_query_type (entities : Address) (t : EntityType) : Run unit :=
  query_types ← getattr_query_types entities;
  set_add query_types t.

(** [entities.<attribute>.append(x)] *)
Definition append_to (entities : Address) (attribute : ListAttribute) (x : string)
    : Run unit :=
  target ← getattr_list entities attribute;
  list_append target x.

(** [if any(kw in query_lower for kw in KEYWORDS): entities.query_types.add(t)] *)
Definition context_check (table : Address) (t : EntityType) (query_lower : string)
    (entities : Address) : Run unit :=
  found ← any_keyword table query_lower;
  if (found : bool) then add_query_type entities t else ret tt.

(** [for term in TABLE: if term in query_lower: ...] *)
Definition gazetteer_loop (table : Address) (attribute : ListAttribute) (t : EntityType)
    (query_lower : string) (entities : Address) : Run unit :=
  terms ← enumerate table;
  for_each terms (λ term,
    if PyStr.str_in term query_lower
    then _ ← append_to entities attribute (PyStr.title term);
         add_query_type entities t
    else ret tt).

(** The loop over [keywords]; the condition is evaluated from left to
    right and stops at the first part that is false. *)
Definition company_loop (self : GraphRetrieverObject) (keywords : list string)
    (entities : Address) : Run unit :=
  for_each keywords (λ word,
    let word_lower := PyStr.lower word in
    if first_isupper word then
      in_investors ← contains (KNOWN_INVESTORS_ref self) word_lower;
      if (in_investors : bool) then ret tt else
      in_sectors ← contains (KNOWN_SECTORS_ref self) word_lower;
      if (in_sectors : bool) then ret tt else
      in_locations ← contains (KNOWN_LOCATIONS_ref self) word_lower;
      if (in_locations : bool) then ret tt else
      if bool_decide (3 < PyStr.len word)
      then _ ← append_to entities companies_attr word;
           add_query_type entities COMPANY
      else ret tt
    else ret tt).

(** The method, statement by statement; it returns the address of the
    instance it made. *)
Definition extract_entities (self : GraphRetrieverObject) (query : string) : Run Address :=
  let query_lower := PyStr.lower query in
  entities ← ExtractedEntities_init;
  found ← any_keyword (COMPARISON_KEYWORDS_ref self) query_lower;
  _ ← setattr_flag entities is_comparison_attr found;
  found ← any_keyword (AGGREGATION_KEYWORDS_ref self) query_lower;
  _ ← setattr_flag entities is_aggregation_attr found;
  found ← any_keyword (TOP_KEYWORDS_ref self) query_lower;
  _ ← setattr_flag entities is_top_query_attr found;
  let keywords := keywords_of query in
  _ ← context_check (INVESTOR_KEYWORDS_ref self) INVESTOR query_lower entities;
  _ ← context_check (SECTOR_KEYWORDS_ref self) SECTOR query_lower entities;
  _ ← context_check (LOCATION_KEYWORDS_ref self) LOCATION query_lower entities;
  _ ← gazetteer_loop (KNOWN_INVESTORS_ref self) investors_attr INVESTOR
        query_lower entities;
  _ ← gazetteer_loop (KNOWN_SECTORS_ref self) sectors_attr SECTOR
        query_lower entities;
  _ ← gazetteer_loop (KNOWN_LOCATIONS_ref self) locations_attr LOCATION
        query_lower entities;
  _ ← company_loop self keywords entities;
  ret entities.

(** Any number of calls, one after the other, on the same class. *)
Fixpoint call_all (self : GraphRetrieverObject) (queries : list string)
    : Run (list Address) :=
  match queries with
  | [] => ret []
  | query :: rest =>
      entities ← extract_entities self query;
      others ← call_all self rest;
      ret (entities :: others)
  end.

(** The value of an [ExtractedEntities] instance: what its attributes and
    the objects they refer to hold. *)
Definition read_list (h : Heap) (a : Address) : option (list string) :=
  match h !! a with
  | Some (ListObject items) => Some items
  | _ => None
  end.

Definition read_types (h : Heap) (a : Address) : option (gset EntityType) :=
  match h !! a with
  | Some (TypeSetObject members) => Some members
  | _ => None
  end.

Definition value_of (h : Heap) (entities : Address) : option ExtractedEntities :=
  match h !! entities with
  | Some (EntitiesObject c i s l q f1 f2 f3) =>
      company_list ← read_list h c;
      investor_list ← read_list h i;
      sector_list ← read_list h s;
      location_list ← read_list h l;
      types ← read_types h q;
      Some {| companies := company_list; investors := investor_list;
              sectors := sector_list; locations := location_list;
              query_types := types;
              is_comparison := f1; is_aggregation := f2; is_top_query := f3 |}
  | _ => None
  end.

End Objects.

(** ** Generation Client ([src/llm/ollama_client.py]) *)

Module OllamaClient.

(** A Python float.  The model does not round: a finite float is held as
    the exact rational. *)
Inductive Float : Type :=
  | Finite (q : Q)
  | Infinite (negative : bool)
  | NaN.

(** [OllamaConfig] of [src/config/settings.py]. *)
Module Settings.
Record OllamaConfig : Type := mkOllamaConfig {
  base_url : string;
  model : string;
  temperature : Float;
  max_tokens : Z;
  timeout : Z;
}.
End Settings.

(** What [response.json()] returns: the Python value of a JSON text. *)
#[local] Unset Elimination Schemes.
Inductive Json : Type :=
  | JNone
  | JBool (b : bool)
  | JInt (z : Z)
  | JFloat (f : Float)
  | JStr (s : string)
  | JList (items : list Json)
  | JDict (fields : gmap string Json).
#[local] Set Elimination Schemes.

(** [type(v).__name__] *)
Definition type_name (v : Json) : string :=
  match v with
  | JNone => "NoneType"
  | JBool _ => "bool"
  | JInt _ => "int"
  | JFloat _ => "float"
  | JStr _ => "str"
  | JList _ => "list"
  | JDict _ => "dict"
  end.

(** The exceptions the body of [generate] can meet, all of them subclasses
    of [Exception].  [ConnectTimeout] is both a [ConnectionError] and a
    [Timeout]; [OtherException] stands for any other class, with the text
    [str(e)] gives. *)
Inductive PyException : Type :=
  | ConnectionError (msg : string)
  | ConnectTimeout (msg : string)
  | ReadTimeout (msg : string)
  | JSONDecodeError (msg : string) (lineno colno pos : nat)
  | AttributeError (msg : string)
  | TypeError (msg : string)
  | OverflowError (msg : string)
  | OtherException (msg : string).

(** [isinstance(e, requests.exceptions.ConnectionError)] *)
Definition is_ConnectionError (e : PyException) : bool :=
  match e with
  | ConnectionError _ | ConnectTimeout _ => true
  | _ => false
  end.

(** [isinstance(e, requests.exceptions.Timeout)] *)
Definition is_Timeout (e : PyException) : bool :=
  match e with
  | ConnectTimeout _ | ReadTimeout _ => true
  | _ => false
  end.

(** [isinstance(e, Exception)] *)
Definition is_Exception (e : PyException) : bool := true.

(** [str(e)].  A JSON decoding error prints its message followed by the
    place of the error. *)
Definition str_exception (e : PyException) : string :=
  match e with
  | ConnectionError msg | ConnectTimeout msg | ReadTimeout msg
  | AttributeError msg | TypeError msg | OverflowError msg
  | OtherException msg => msg
  | JSONDecodeError msg lineno colno pos =>
      msg +:+ ": line " +:+ PyStr.str_of_nat lineno
          +:+ " column " +:+ PyStr.str_of_nat colno
          +:+ " (char " +:+ PyStr.str_of_nat pos +:+ ")"
  end.

(** A computation that returns a value or raises. *)
Definition Raises (A : Type) : Type := PyException + A.

Definition raise {A : Type} (e : PyException) : Raises A := inl e.
Definition value {A : Type} (a : A) : Raises A := inr a.

#[export] Instance Raises_bind : MBind Raises :=
  λ A B (k : A → Raises B) (c : Raises A),
    match c with
    | inl e => inl e
    | inr a => k a
    end.

(** [try: body  except C1: h1  except C2 as e: h2 ...]: the first clause
    whose class the exception belongs to handles it; with no such clause the
    exception goes on to the caller. *)
Fixpoint handle {A : Type} (clauses : list ((PyException → bool) * (PyException → Raises A)))
    (e : PyException) : Raises A :=
  match clauses with
  | [] => raise e
  | (is_class, handler) :: rest => if is_class e then handler e else handle rest e
  end.

Definition try_except {A : Type} (body : Raises A)
    (clauses : list ((PyException → bool) * (PyException → Raises A))) : Raises A :=
  match body with
  | inl e => handle clauses e
  | inr a => value a
  end.

Record LLMResponse : Type := mkLLMResponse {
  content : Json;
  model : Json;
  total_duration_ms : Float;
  eval_count : Json;
  success : bool;
  error : option string;
}.

(** [LLMResponse(content="", model=m, success=False, error=msg)], the other
    fields at their defaults. *)
Definition failed (m msg : string) : LLMResponse := {|
  content := JStr ""; model := JStr m; total_duration_ms := Finite 0;
  eval_count := JInt 0; success := false; error := Some msg;
|}.

(** What [requests.post] is called with. *)
Record Request : Type := mkRequest {
  url : string;
  payload_model : string;
  payload_prompt : string;
  payload_system : string;
  payload_stream : bool;
  option_temperature : Float;
  option_num_predict : Z;
  request_timeout : Z;
}.

(** What [requests.post] returned: the status, the body as text, and what
    [response.json()] makes of the body. *)
Record Response : Type := mkResponse {
  status_code : Z;
  text : string;
  json : Raises Json;
}.

Definition SYSTEM_PROMPT : string :=
  "You are an expert analyst for Indian Unicorn Startups. " +:+ Format.nl +:+
  "You have access to a knowledge graph containing information about 102 Indian unicorn companies, " +:+ Format.nl +:+
  "their investors, sectors, locations, and valuations." +:+ Format.nl +:+
  Format.nl +:+
  "Guidelines:" +:+ Format.nl +:+
  "- Use the provided context from the knowledge graph to answer questions accurately" +:+ Format.nl +:+
  "- Be concise and specific in your responses" +:+ Format.nl +:+
  "- Format numbers nicely (e.g., $5.6B for valuation)" +:+ Format.nl +:+
  "- If data is not in the context, clearly state that" +:+ Format.nl +:+
  "- Highlight key insights and patterns when relevant" +:+ Format.nl +:+
  "- Use bullet points for lists".

Definition _build_prompt (user_query context : string) : string :=
  "Context from Knowledge Graph:" +:+ Format.nl +:+
  context +:+ Format.nl +:+
  Format.nl +:+
  "User Question: " +:+ user_query +:+ Format.nl +:+
  Format.nl +:+
  "Based on the context above, provide a helpful and accurate answer:".

(** [x or fallback] on an optional string, float and int. *)
Definition or_string (x : option string) (fallback : string) : string :=
  match x with
  | Some (String c s) => String c s
  | _ => fallback
  end.

Definition or_float (x : option Float) (fallback : Float) : Float :=
  match x with
  | Some (Finite q) => if Qeq_bool q 0 then fallback else Finite q
  | Some f => f
  | None => fallback
  end.

Definition or_int (x : option Z) (fallback : Z) : Z :=
  match x with
  | Some z => if Z.eqb z 0 then fallback else z
  | None => fallback
  end.

(** [data.get(key, fallback)]: an [AttributeError] when [data] is no dict. *)
Definition get (data : Json) (key : string) (fallback : Json) : Raises Json :=
  match data with
  | JDict fields => value (default fallback (fields !! key))
  | v => raise (AttributeError ("'" +:+ type_name v +:+ "' object has no attribute 'get'"))
  end.

(** The least magnitude of an [int] whose quotient by 1000000 no longer
    rounds to a finite float. *)
Definition true_divide_overflow : Z := ((2 ^ 1024 - 2 ^ 970) * 1000000)%Z.

(** [v / 1_000_000] *)
Definition div_million (v : Json) : Raises Float :=
  match v with
  | JInt z =>
      if (true_divide_overflow <=? Z.abs z)%Z
      then raise (OverflowError "integer division result too large for a float")
      else value (Finite (inject_Z z / 1000000))
  | JBool b => value (Finite ((if b then 1 else 0) / 1000000))
  | JFloat (Finite q) => value (Finite (q / 1000000))
  | JFloat f => value f
  | v => raise (TypeError ("unsupported operand type(s) for /: '" +:+ type_name v
                           +:+ "' and 'int'"))
  end.

Section Generate.

Variable settings : Settings.OllamaConfig.

(** The answer of the network to a request: [requests.post] returns a
    response or raises. *)
Variable post : Request → Raises Response.

Definition generate_url : string := Settings.base_url settings +:+ "/api/generate".

(** The request that [generate] builds before its [try]. *)
Definition build_request (prompt context : string)
    (system_prompt : option string) (temperature_arg : option Float)
    (max_tokens_arg : option Z) : Request :=
  let full_prompt := _build_prompt prompt context in
  {| url := generate_url;
     payload_model := Settings.model settings;
     payload_prompt := full_prompt;
     payload_system := or_string system_prompt SYSTEM_PROMPT;
     payload_stream := false;
     option_temperature := or_float temperature_arg (Settings.temperature settings);
     option_num_predict := or_int max_tokens_arg (Settings.max_tokens settings);
     request_timeout := Settings.timeout settings |}.

(** The body of the [try] of [generate]. *)
Definition try_body (payload : Request) : Raises LLMResponse :=
  let self_model := Settings.model settings in
  response ← post payload;
  if (status_code response =? 200)%Z then
    data ← json response;
    content ← get data "response" (JStr "");
    model ← get data "model" (JStr self_model);
    total_duration ← get data "total_duration" (JInt 0);
    total_duration_ms ← div_million total_duration;
    eval_count ← get data "eval_count" (JInt 0);
    value {| content := content; model := model;
             total_duration_ms := total_duration_ms;
             eval_count := eval_count; success := true; error := None |}
  else
    value (failed self_model
             ("HTTP " +:+ PyStr.str_of_Z (status_code response)
              +:+ ": " +:+ text response)).

(** The three [except] clauses of [generate], in their order. *)
Definition except_clauses
    : list ((PyException → bool) * (PyException → Raises LLMResponse)) :=
  let self_model := Settings.model settings in
  [ (is_ConnectionError,
     λ _, value (failed self_model
                   "Cannot connect to Ollama. Make sure it's running: `ollama serve`"));
    (is_Timeout,
     λ _, value (failed self_model
                   "Request timed out. The model may be loading or overloaded."));
    (is_Exception,
     λ e, value (failed self_model (str_exception e))) ].

Definition generate (prompt context : string)
    (system_prompt : option string) (temperature_arg : option Float)
    (max_tokens_arg : option Z) : Raises LLMResponse :=
  let payload :=
    build_request prompt context system_prompt temperature_arg max_tokens_arg in
  try_except (try_body payload) except_clauses.

End Generate.

(** The failures the specification names: the connection is refused, the
    call times out, the status is not 200 (so in particular not 2xx), or the
    body of a 200 response is no JSON text. *)
Inductive Failure : Raises Response → Prop :=
  | connection_refused (e : PyException) :
      is_ConnectionError e = true → Failure (inl e)
  | timed_out (e : PyException) :
      is_Timeout e = true → Failure (inl e)
  | bad_status (r : Response) :
      status_code r ≠ 200%Z → Failure (inr r)
  | malformed_body (r : Response) (msg : string) (lineno colno pos : nat) :
      status_code r = 200%Z →
      json r = inl (JSONDecodeError msg lineno colno pos) →
      Failure (inr r).

(** What a failed call returns: no success, no content, and a reason. *)
Definition reports_failure (r : LLMResponse) : Prop :=
  success r = false ∧ content r = JStr "" ∧ ∃ msg, error r = Some msg ∧ msg ≠ "".

End OllamaClient.

(** ** Graph Query Layer: the sector lookup ([src/database/queries.py])

    The store is a property graph: nodes with their properties, listed by
    label, and relationships between node positions.  A Cypher query is
    written out as the function on rows that it denotes. *)

Module Cypher.

Record CompanyNode : Type := mkCompanyNode {
  name : option string;
  currentValuation : option Number;
  entryValuation : option Number;
  entryDate : option string;
  rank : option Z;
}.

Record Graph : Type := mkGraph {
  Company : list CompanyNode;
  Sector : list (option string);
  SubSector : list (option string);
  Location : list (option string);
  Investor : list (option string);
  OPERATES_IN : list (nat * nat);
  SPECIALIZES_IN : list (nat * nat);
  HAS_SUBSECTOR : list (nat * nat);
  LOCATED_IN : list (nat * nat);
  INVESTED_IN : list (nat * nat);
}.

(** The store refuses a query whose [LIMIT] is negative. *)
Inductive StoreError : Type :=
  | InvalidLimit (limit : Z).

(** [toLower(a) CONTAINS toLower(b)]; null when an operand is null, and a
    [WHERE] keeps a row only when its condition is true. *)
Definition lower_contains (a : option string) (b : string) : bool :=
  match a with
  | Some a => PyStr.str_in (PyStr.lower b) (PyStr.lower a)
  | None => false
  end.

(** [MATCH (c:Company)-[:OPERATES_IN]->(s:Sector)]: one row for each
    relationship, with the position of the company. *)
Definition match_operates_in (g : Graph) : list (nat * CompanyNode * option string) :=
  omap (λ '(ci, si),
          c ← Company g !! ci;
          s ← Sector g !! si;
          Some (ci, c, s))
       (OPERATES_IN g).

(** [OPTIONAL MATCH (c)-[:SPECIALIZES_IN]->(ss:SubSector)]: one row for each
    sub-sector of the company, or one row with null when it has none. *)
Definition optional_match_specializes_in (g : Graph) (ci : nat) : list (option string) :=
  match omap (λ '(cj, k), if decide (cj = ci) then SubSector g !! k else None)
             (SPECIALIZES_IN g) with
  | [] => [None]
  | found => found
  end.

(** [ORDER BY c.currentValuation DESC]: null comes first in a descending
    order. *)
Definition valuation_desc (r1 r2 : SectorCompanyRow) : Prop :=
  match sc_valuation r1, sc_valuation r2 with
  | None, _ => True
  | Some _, None => False
  | Some v1, Some v2 => Is_true (Qle_bool (number_value v2) (number_value v1))
  end.

#[export] Instance valuation_desc_dec (r1 r2 : SectorCompanyRow) :
  Decision (valuation_desc r1 r2).
Proof.
  unfold valuation_desc.
  destruct (sc_valuation r1), (sc_valuation r2); apply _.
Defined.

(** [LIMIT $limit] *)
Definition limit_rows {A : Type} (limit : Z) (rows : list A) : StoreError + list A :=
  if (limit <? 0)%Z then inl (InvalidLimit limit)
  else inr (take (Z.to_nat limit) rows).

(** The query of [get_sector_companies], run on the graph [g]. *)
Definition get_sector_companies (g : Graph) (sector_name : string) (limit : Z)
    : StoreError + list SectorCompanyRow :=
  let matched :=
    filter (λ row, lower_contains row.2 sector_name = true) (match_operates_in g) in
  let rows :=
    matched ≫= (λ '(ci, c, _),
      map (λ ss, {| sc_company := name c;
                    sc_valuation := currentValuation c;
                    sc_subsector := ss |})
          (optional_match_specializes_in g ci)) in
  limit_rows limit (merge_sort valuation_desc rows).

End Cypher.

(** * The health check and the model list of the client

    [is_available] and [get_available_models] of [OllamaClient], the two
    methods that call [requests.get] on the tags endpoint. *)
Module OllamaTags.
Import OllamaClient.

(** [isinstance(e, requests.exceptions.RequestException)]: the connection
    and timeout classes of requests and the decoding error raised by
    [response.json()] derive from it; the built-in classes do not.
    [OtherException] is read here as a class outside requests. *)
Definition is_RequestException (e : PyException) : bool :=
  match e with
  | ConnectionError _ | ConnectTimeout _ | ReadTimeout _
  | JSONDecodeError _ _ _ _ => true
  | AttributeError _ | TypeError _ | OverflowError _ | OtherException _ => false
  end.

(** [[m.get("name") for m in items]] on the items of a list, from left to
    right: the first item that is no dict raises. *)
Fixpoint names_of_items (items : list Json) : Raises (list Json) :=
  match items with
  | [] => value []
  | m :: rest =>
      name ← get m "name" JNone;
      names ← names_of_items rest;
      value (name :: names)
  end.

(** [[m.get("name") for m in models]].  Iterating a dict gives its keys and
    iterating a string its characters, all of them strings, so the first
    [m.get] raises unless there is none; a value of another type is not
    iterable. *)
Definition names_of (models : Json) : Raises (list Json) :=
  match models with
  | JList items => names_of_items items
  | JDict fields =>
      match map_to_list fields with
      | [] => value []
      | _ => raise (AttributeError "'str' object has no attribute 'get'")
      end
  | JStr s =>
      match s with
      | EmptyString => value []
      | _ => raise (AttributeError "'str' object has no attribute 'get'")
      end
  | v => raise (TypeError ("'" +:+ type_name v +:+ "' object is not iterable"))
  end.

Section Tags.

Variable settings : Settings.OllamaConfig.

(** The answer of the network to [requests.get(url, timeout=t)]. *)
Variable http_get : string → Z → Raises Response.

Definition tags_url : string := Settings.base_url settings +:+ "/api/tags".

Definition is_available : Raises bool :=
  try_except
    (response ← http_get tags_url 2;
     value (status_code response =? 200)%Z)
    [ (is_RequestException, λ _, value false) ].

(** A status other than 200 and a caught exception both go on to the
    [return []] that ends the method. *)
Definition get_available_models : Raises (list Json) :=
  try_except
    (response ← http_get tags_url 5;
     if (status_code response =? 200)%Z then
       data ← json response;
       models ← get data "models" (JList []);
       names_of models
     else
       value [])
    [ (is_RequestException, λ _, value []) ].

End Tags.

End OllamaTags.

(** * Further lookups of [GraphQueries] on the graph

    The queries of [get_top_companies], [get_city_companies] and
    [get_graph_stats], run on a graph as [Cypher.get_sector_companies] is. *)
Module CypherQueries.
Import Cypher.

(** [MATCH (c:Company)]: one row for each company node, with its position. *)
Definition match_company (g : Graph) : list (nat * CompanyNode) :=
  zip (seq 0 (length (Company g))) (Company g).

(** [MATCH (c:Company)-[:LOCATED_IN]->(l:Location)]: one row for each
    relationship, with the position of the company. *)
Definition match_located_in (g : Graph) : list (nat * CompanyNode * option string) :=
  omap (λ '(ci, li),
          c ← Company g !! ci;
          l ← Location g !! li;
          Some (ci, c, l))
       (LOCATED_IN g).

(** [OPTIONAL MATCH (c)-[:OPERATES_IN]->(s:Sector)]: one row for each sector
    of the company, or one row with null when it has none. *)
Definition optional_match_operates_in (g : Graph) (ci : nat) : list (option string) :=
  match omap (λ '(cj, k), if decide (cj = ci) then Sector g !! k else None)
             (OPERATES_IN g) with
  | [] => [None]
  | found => found
  end.

(** [ORDER BY c.currentValuation DESC] on the rows of the company lists:
    null comes first in a descending order. *)
Definition company_valuation_desc (r1 r2 : CompanyRow) : Prop :=
  match cr_valuation r1, cr_valuation r2 with
  | None, _ => True
  | Some _, None => False
  | Some v1, Some v2 => Is_true (Qle_bool (number_value v2) (number_value v1))
  end.

#[export] Instance company_valuation_desc_dec (r1 r2 : CompanyRow) :
  Decision (company_valuation_desc r1 r2).
Proof.
  unfold company_valuation_desc.
  destruct (cr_valuation r1), (cr_valuation r2); apply _.
Defined.

(** The rows that [RETURN c.name as company, c.currentValuation as valuation,
    s.name as sector] gives for one company. *)
Definition company_rows (g : Graph) (ci : nat) (c : CompanyNode) : list CompanyRow :=
  map (λ s, {| cr_company := name c;
               cr_valuation := currentValuation c;
               cr_sector := s |})
      (optional_match_operates_in g ci).

(** The query of [get_top_companies], run on the graph [g]. *)
Definition get_top_companies (g : Graph) (limit : Z) : StoreError + list CompanyRow :=
  let matched :=
    filter (λ row, currentValuation row.2 ≠ None) (match_company g) in
  let rows := matched ≫= (λ '(ci, c), company_rows g ci c) in
  limit_rows limit (merge_sort company_valuation_desc rows).

(** The query of [get_city_companies], run on the graph [g]. *)
Definition get_city_companies (g : Graph) (city : string) (limit : Z)
    : StoreError + list CompanyRow :=
  let matched :=
    filter (λ row, lower_contains row.2 city = true) (match_located_in g) in
  let rows := matched ≫= (λ '(ci, c, _), company_rows g ci c) in
  limit_rows limit (merge_sort company_valuation_desc rows).

(** The relationships of the graph whose two ends exist. *)
Definition relationships_between {A B : Type} (sources : list A) (targets : list B)
    (pairs : list (nat * nat)) : list (nat * nat) :=
  filter (λ '(i, j), is_Some (sources !! i) ∧ is_Some (targets !! j)) pairs.

(** [MATCH ()-[r]->()]: the relationships of the five types. *)
Definition match_relationships (g : Graph) : list (nat * nat) :=
  relationships_between (Company g) (Sector g) (OPERATES_IN g)
  ++ relationships_between (Company g) (SubSector g) (SPECIALIZES_IN g)
  ++ relationships_between (Sector g) (SubSector g) (HAS_SUBSECTOR g)
  ++ relationships_between (Company g) (Location g) (LOCATED_IN g)
  ++ relationships_between (Investor g) (Company g) (INVESTED_IN g).

(** [MATCH ... WITH keys, count(x) as n] on at most one row of keys: the
    [MATCH] pairs the row with every match, and the aggregation gives one row
    for each group of keys, so none when nothing matched. *)
Definition with_count {K B : Type} (row : option K) (matched : list B) : option (K * nat) :=
  keys ← row;
  match matched with
  | [] => None
  | _ => Some (keys, length matched)
  end.

(** The query of [get_graph_stats], run on the graph [g], and the
    [results[0] if results else {}] that follows it ([None] for the empty
    dict).  The first [count] has no grouping key and gives one row in any
    case. *)
Definition get_graph_stats (g : Graph) : option GraphStats :=
  let row := Some (length (Company g)) in
  let row := with_count row (Investor g) in
  let row := with_count row (Sector g) in
  let row := with_count row (Location g) in
  let row := with_count row (match_relationships g) in
  '(companies, investors, sectors, locations, relationships) ← row;
  Some {| gs_companies := companies;
          gs_investors := investors;
          gs_sectors := sectors;
          gs_locations := locations;
          gs_relationships := relationships |}.

End CypherQueries.

(** * The notions the properties are stated with *)

(** ** The company-candidate rule *)

(** The rule in the specification's words: a token is a candidate when it
    has more than three characters, its first character is upper-case, and
    its lower-cased form is in none of the three gazetteers. *)
Definition spec_first_upper (w : string) : Prop :=
  ∃ c rest, w = String c rest ∧ PyStr.isupper c = true.

Definition spec_candidate (self : GraphRetriever) (w : string) : Prop :=
  3 < PyStr.len w
  ∧ spec_first_upper w
  ∧ (PyStr.lower w ∉ KNOWN_INVESTORS self)
  ∧ (PyStr.lower w ∉ KNOWN_SECTORS self)
  ∧ (PyStr.lower w ∉ KNOWN_LOCATIONS self).

#[global] Instance spec_first_upper_dec (w : string) : Decision (spec_first_upper w).
Proof.
  destruct w as [|c rest].
  - right. intros (c & rest & H & _). discriminate H.
  - destruct (PyStr.isupper c) eqn:E.
    + left. by exists c, rest.
    + right. intros (c' & rest' & H & Hup). injection H as -> ->. congruence.
Defined.

#[global] Instance spec_candidate_dec (self : GraphRetriever) (w : string) :
  Decision (spec_candidate self w).
Proof. unfold spec_candidate. apply _. Defined.

(** The candidates the specification describes, in the order of the tokens. *)
Definition spec_company_candidates (self : GraphRetriever) (query : string) : list string :=
  filter (spec_candidate self) (words_of query).

(** A query contains a keyword of a family when its lower-cased form splits
    around one of the family's words. *)
Definition contains_any (keywords : list string) (query : string) : Prop :=
  ∃ kw pre post, kw ∈ keywords ∧ PyStr.lower query = pre +:+ kw +:+ post.

(** Every non-empty list has its tag in [query_types]. *)
Definition tags_cover (e : ExtractedEntities) : Prop :=
  (investors e ≠ [] → INVESTOR ∈ query_types e)
  ∧ (sectors e ≠ [] → SECTOR ∈ query_types e)
  ∧ (locations e ≠ [] → LOCATION ∈ query_types e)
  ∧ (companies e ≠ [] → COMPANY ∈ query_types e).

(** Every tag in [query_types] comes from a context keyword or from an
    entry of its list. *)
Definition tags_founded (query : string) (e : ExtractedEntities) : Prop :=
  (INVESTOR ∈ query_types e → contains_any INVESTOR_KEYWORDS query ∨ investors e ≠ [])
  ∧ (SECTOR ∈ query_types e → contains_any SECTOR_KEYWORDS query ∨ sectors e ≠ [])
  ∧ (LOCATION ∈ query_types e → contains_any LOCATION_KEYWORDS query ∨ locations e ≠ [])
  ∧ (COMPANY ∈ query_types e → companies e ≠ []).

(** What a statement of the extractor leaves untouched: the statements
    after the three flag assignments never write a flag, and only the
    company loop writes [companies]. *)
Definition same_flags (e e' : ExtractedEntities) : Prop :=
  is_comparison e' = is_comparison e
  ∧ is_aggregation e' = is_aggregation e
  ∧ is_top_query e' = is_top_query e.

(** ** The count of entities found *)

Section EntitiesFound.

Variable queries : GraphQueries.

(** 1 when the detail lookup matches, 0 otherwise. *)
Definition details_found (company_name : string) : nat :=
  match get_company_details queries company_name with
  | Some _ => 1
  | None => 0
  end.

Definition portfolio_rows (limit : Z) (investor : string) : nat :=
  length (get_investor_portfolio queries investor limit).

Definition sector_rows (limit : Z) (sector : string) : nat :=
  length (get_sector_companies queries sector limit).

Definition city_rows (limit : Z) (city : string) : nat :=
  length (get_city_companies queries city limit).

(** The rows of the co-investor lookup, which the plan makes only for an
    investor with a portfolio. *)
Definition co_investor_rows (investor : string) : nat :=
  match get_investor_portfolio queries investor 10 with
  | [] => 0
  | _ => length (get_co_investors queries investor 5)
  end.

(** The rule in the specification's words, plan by plan: 1 for each matched
    company-detail lookup, and the number of rows of every list the plan
    retrieved. *)
Definition spec_entities_found (intent : string) (e : ExtractedEntities) : nat :=
  if String.eqb intent "comparison" then
    sum_list_with details_found (take 5 (companies e))
    + sum_list_with (sector_rows 5) (take 3 (sectors e))
    + sum_list_with (city_rows 5) (take 3 (locations e))
  else if String.eqb intent "top_ranking" then
    length (get_top_companies queries 10) + length (get_top_investors queries 10)
    + sum_list_with (sector_rows 5) (take 2 (sectors e))
  else if String.eqb intent "aggregation" then
    length (get_sector_stats queries) + length (get_location_stats queries)
  else if String.eqb intent "investor_info" then
    sum_list_with (portfolio_rows 10) (take 3 (investors e))
    + sum_list_with co_investor_rows (take 3 (investors e))
    + match investors e with
      | [] => length (get_top_investors queries 10)
      | _ => 0
      end
  else if String.eqb intent "sector_info" then
    sum_list_with (sector_rows 10) (take 3 (sectors e))
    + length (get_sector_stats queries)
  else if String.eqb intent "location_info" then
    sum_list_with (city_rows 10) (take 3 (locations e))
    + length (get_location_stats queries)
  else if String.eqb intent "company_info" then
    sum_list_with details_found (take 3 (companies e))
    + sum_list_with (portfolio_rows 5) (investors e)
  else
    length (get_top_companies queries 5).

End EntitiesFound.

(** ** What the extractor finds in a query *)

(** The entries of a gazetteer that occur in the lower-cased query, in the
    order of the table, each in title case. *)
Definition gazetteer_hits (table : list string) (query : string) : list string :=
  map PyStr.title
      (filter (λ term, PyStr.str_in term (PyStr.lower query) = true) table).

(** The signals that decide the intent of a query: a context keyword or a
    gazetteer entry occurs in it, or one of its tokens is a company
    candidate. *)
Definition investor_signal (self : GraphRetriever) (query : string) : Prop :=
  contains_any INVESTOR_KEYWORDS query ∨ contains_any (KNOWN_INVESTORS self) query.

Definition sector_signal (self : GraphRetriever) (query : string) : Prop :=
  contains_any SECTOR_KEYWORDS query ∨ contains_any (KNOWN_SECTORS self) query.

Definition location_signal (self : GraphRetriever) (query : string) : Prop :=
  contains_any LOCATION_KEYWORDS query ∨ contains_any (KNOWN_LOCATIONS self) query.

Definition company_signal (self : GraphRetriever) (query : string) : Prop :=
  ∃ w, w ∈ words_of query ∧ spec_candidate self w.

(** Every character of a string has a property. *)
Fixpoint string_all (P : ascii → Prop) (s : string) : Prop :=
  match s with
  | EmptyString => True
  | String c s' => P c ∧ string_all P s'
  end.

(** The last character of a string. *)
Fixpoint last_char (s : string) : option ascii :=
  match s with
  | EmptyString => None
  | String c EmptyString => Some c
  | String _ s' => last_char s'
  end.

(** The first character of a string. *)
Definition first_char (s : string) : option ascii :=
  match s with
  | EmptyString => None
  | String c _ => Some c
  end.

(** The cascade of [get_query_intent] on seven booleans. *)
Definition cascade (bc ba bt bi bs bl bk : bool) : string :=
  if bc then "comparison"
  else if ba then "aggregation"
  else if bt then "top_ranking"
  else if bi then "investor_info"
  else if bs then "sector_info"
  else if bl then "location_info"
  else if bk then "company_info"
  else "general".



(** The two members of [EntityType] that no statement adds. *)
Definition no_unused_tag (e : ExtractedEntities) : Prop :=
  (VALUATION ∉ query_types e) ∧ (COMPARISON ∉ query_types e).

(** ** Blocks of the comparison plan, as lists

    The blocks and the source tags that the lookups for a list of names
    give, in the order of the names: a name without a match gives none. *)
Section PlanBlocks.

Variable queries : GraphQueries.

Definition company_blocks (names : list string) : list string :=
  omap (λ name, Format._format_company_details <$> get_company_details queries name)
       names.

Definition company_tags (names : list string) : list string :=
  omap (λ name, (λ details, "company:" +:+ str_text (cd_company details))
                  <$> get_company_details queries name)
       names.

Definition sector_blocks (limit : Z) (names : list string) : list string :=
  omap (λ name, match get_sector_companies queries name limit with
                | [] => None
                | rows => Some (Format._format_sector_companies name rows)
                end)
       names.

Definition sector_tags (limit : Z) (names : list string) : list string :=
  omap (λ name, match get_sector_companies queries name limit with
                | [] => None
                | _ => Some ("sector:" +:+ name)
                end)
       names.

Definition city_blocks (limit : Z) (names : list string) : list string :=
  omap (λ name, match get_city_companies queries name limit with
                | [] => None
                | rows => Some (Format._format_city_companies name rows)
                end)
       names.

Definition city_tags (limit : Z) (names : list string) : list string :=
  omap (λ name, match get_city_companies queries name limit with
                | [] => None
                | _ => Some ("city:" +:+ name)
                end)
       names.

End PlanBlocks.

(** ** Results of the client *)

(** A result either is a success without an error text, or is a failure
    with an error text and every other field at the value of a failed
    call. *)
Definition well_formed_result (settings : OllamaClient.Settings.OllamaConfig)
    (r : OllamaClient.LLMResponse) : Prop :=
  (OllamaClient.success r = true ∧ OllamaClient.error r = None)
  ∨ (OllamaClient.success r = false
     ∧ ∃ msg, r = OllamaClient.failed (OllamaClient.Settings.model settings) msg).

(** The error text that the [except] clauses of [generate] give for an
    exception. *)
Definition error_text_of (e : OllamaClient.PyException) : string :=
  if OllamaClient.is_ConnectionError e
  then "Cannot connect to Ollama. Make sure it's running: `ollama serve`"
  else if OllamaClient.is_Timeout e
  then "Request timed out. The model may be loading or overloaded."
  else OllamaClient.str_exception e.

(** ** The extractor in a process *)

(** The class [GraphRetriever] has been created on the heap: each of its
    nine attributes refers to a set of strings; the three gazetteers are
    enumerated as [tables] has them, and the six keyword sets hold the
    keywords of the class body, in whatever order. *)
Definition class_loaded (self : Objects.GraphRetrieverObject) (tables : GraphRetriever)
    (h : Objects.Heap) : Prop :=
  h !! Objects.KNOWN_INVESTORS_ref self
  = Some (Objects.StrSetObject (KNOWN_INVESTORS tables))
  ∧ h !! Objects.KNOWN_SECTORS_ref self
    = Some (Objects.StrSetObject (KNOWN_SECTORS tables))
  ∧ h !! Objects.KNOWN_LOCATIONS_ref self
    = Some (Objects.StrSetObject (KNOWN_LOCATIONS tables))
  ∧ (∃ kws, h !! Objects.COMPARISON_KEYWORDS_ref self = Some (Objects.StrSetObject kws)
            ∧ kws ≡ₚ COMPARISON_KEYWORDS)
  ∧ (∃ kws, h !! Objects.AGGREGATION_KEYWORDS_ref self = Some (Objects.StrSetObject kws)
            ∧ kws ≡ₚ AGGREGATION_KEYWORDS)
  ∧ (∃ kws, h !! Objects.TOP_KEYWORDS_ref self = Some (Objects.StrSetObject kws)
            ∧ kws ≡ₚ TOP_KEYWORDS)
  ∧ (∃ kws, h !! Objects.INVESTOR_KEYWORDS_ref self = Some (Objects.StrSetObject kws)
            ∧ kws ≡ₚ INVESTOR_KEYWORDS)
  ∧ (∃ kws, h !! Objects.SECTOR_KEYWORDS_ref self = Some (Objects.StrSetObject kws)
            ∧ kws ≡ₚ SECTOR_KEYWORDS)
  ∧ (∃ kws, h !! Objects.LOCATION_KEYWORDS_ref self = Some (Objects.StrSetObject kws)
            ∧ kws ≡ₚ LOCATION_KEYWORDS).

(** The six objects of a result whose value is [v], the first of them at
    the address [n]. *)
Definition result_objects (n : nat) (v : ExtractedEntities) : list Objects.Object :=
  [ Objects.ListObject (companies v);
    Objects.ListObject (investors v);
    Objects.ListObject (sectors v);
    Objects.ListObject (locations v);
    Objects.TypeSetObject (query_types v);
    Objects.EntitiesObject (n + 0) (n + 1) (n + 2) (n + 3) (n + 4)
      (is_comparison v) (is_aggregation v) (is_top_query v) ].

(** The append of each list attribute, on values. *)
Definition append_of (attribute : Objects.ListAttribute)
    : string → ExtractedEntities → ExtractedEntities :=
  match attribute with
  | Objects.companies_attr => append_company
  | Objects.investors_attr => append_investor
  | Objects.sectors_attr => append_sector
  | Objects.locations_attr => append_location
  end.

(** The assignment to each flag, on values. *)
Definition set_flag_of (flag : Objects.FlagAttribute) (b : bool)
    (e : ExtractedEntities) : ExtractedEntities :=
  match flag with
  | Objects.is_comparison_attr => set_flags b (is_aggregation e) (is_top_query e) e
  | Objects.is_aggregation_attr => set_flags (is_comparison e) b (is_top_query e) e
  | Objects.is_top_query_attr => set_flags (is_comparison e) (is_aggregation e) b e
  end.

(** Two processes hold the same gazetteers when each table has the same
    members, whatever the order in which each process enumerates them. *)
Definition same_tables (t1 t2 : GraphRetriever) : Prop :=
  KNOWN_INVESTORS t1 ≡ₚ KNOWN_INVESTORS t2
  ∧ KNOWN_SECTORS t1 ≡ₚ KNOWN_SECTORS t2
  ∧ KNOWN_LOCATIONS t1 ≡ₚ KNOWN_LOCATIONS t2.

(** Two results that differ at most in the order of the investors, of the
    sectors and of the locations. *)
Definition same_up_to_order (e1 e2 : ExtractedEntities) : Prop :=
  companies e1 = companies e2
  ∧ investors e1 ≡ₚ investors e2
  ∧ sectors e1 ≡ₚ sectors e2
  ∧ locations e1 ≡ₚ locations e2
  ∧ query_types e1 = query_types e2
  ∧ is_comparison e1 = is_comparison e2
  ∧ is_aggregation e1 = is_aggregation e2
  ∧ is_top_query e1 = is_top_query e2.

(** * Stores, graphs and network answers for the examples *)

(** ** A small store for the examples

    Two companies, one investor with a portfolio and two co-investors; every
    textual match is a case-insensitive containment, as in the queries. *)
Module Sample.

Definition matches (term name : string) : bool :=
  PyStr.str_in (PyStr.lower term) (PyStr.lower name).

Definition n (value : Q) (text : string) : option Number :=
  Some (mkNumber value text).

Definition flipkart : CompanyDetails := {|
  cd_company := Some "Flipkart"; cd_valuation := n (376 # 10) "37.6";
  cd_entryValuation := n (10 # 10) "1.0"; cd_entryDate := Some "Feb/2012";
  cd_rank := Some 1%Z; cd_sector := Some "E-Commerce"; cd_subsector := None;
  cd_locations := ["Bangalore"]; cd_investors := ["Softbank"; "Tiger Global"];
|}.

Definition top : list CompanyRow :=
  [ {| cr_company := Some "Flipkart"; cr_valuation := n (376 # 10) "37.6"; cr_sector := Some "E-Commerce" |};
    {| cr_company := Some "CRED"; cr_valuation := n (64 # 10) "6.4"; cr_sector := Some "Fintech" |} ].

Definition softbank_portfolio : list PortfolioRow :=
  [ {| pf_investor := Some "Softbank"; pf_company := Some "Flipkart";
       pf_valuation := n (376 # 10) "37.6"; pf_sector := Some "E-Commerce" |} ].

Definition softbank_co_investors : list CoInvestorRow :=
  [ {| ci_coInvestor := Some "Tiger Global"; ci_sharedInvestments := 1;
       ci_sampleCompanies := ["Flipkart"] |};
    {| ci_coInvestor := Some "Accel"; ci_sharedInvestments := 1;
       ci_sampleCompanies := ["Flipkart"] |} ].

Definition top_investors : list InvestorRow :=
  [ {| iv_investor := Some "Softbank"; iv_investments := 1; iv_portfolioValue := n (376 # 10) "37.6" |} ].

Definition fintech : list SectorCompanyRow :=
  [ {| sc_company := Some "CRED"; sc_valuation := n (64 # 10) "6.4"; sc_subsector := None |} ].

Definition sector_stats : list SectorStatRow :=
  [ {| ss_sector := Some "E-Commerce"; ss_companyCount := 1;
       ss_totalValuation := n (376 # 10) "37.6"; ss_avgValuation := n (376 # 10) "37.6" |};
    {| ss_sector := Some "Fintech"; ss_companyCount := 1;
       ss_totalValuation := n (64 # 10) "6.4"; ss_avgValuation := n (64 # 10) "6.4" |} ].

Definition location_stats : list LocationStatRow :=
  [ {| ls_city := Some "Bangalore"; ls_companyCount := 2; ls_totalValuation := n (440 # 10) "44.0" |} ].

Definition cap {A : Type} (limit : Z) (rows : list A) : list A :=
  take (Z.to_nat limit) rows.

Definition store : GraphQueries := {|
  get_company_details name := if matches name "Flipkart" then Some flipkart else None;
  get_top_companies limit := cap limit top;
  get_investor_portfolio name limit :=
    if matches name "Softbank" then cap limit softbank_portfolio else [];
  get_top_investors limit := cap limit top_investors;
  get_co_investors name limit :=
    if matches name "Softbank" then cap limit softbank_co_investors else [];
  get_sector_companies name limit :=
    if matches name "Fintech" then cap limit fintech else [];
  get_sector_stats := sector_stats;
  get_city_companies name limit :=
    if matches name "Bangalore" then cap limit top else [];
  get_location_stats := location_stats;
  get_graph_stats :=
    Some {| gs_companies := 2; gs_investors := 3; gs_sectors := 2;
            gs_locations := 1; gs_relationships := 7 |};
|}.

(** The same store with no location statistics. *)
Definition store_without_location_stats : GraphQueries := {|
  get_company_details := get_company_details store;
  get_top_companies := get_top_companies store;
  get_investor_portfolio := get_investor_portfolio store;
  get_top_investors := get_top_investors store;
  get_co_investors := get_co_investors store;
  get_sector_companies := get_sector_companies store;
  get_sector_stats := get_sector_stats store;
  get_city_companies := get_city_companies store;
  get_location_stats := [];
  get_graph_stats := get_graph_stats store;
|}.

End Sample.

(** ** Examples of generation calls *)

Module OllamaExamples.
Import OllamaClient.

(** The defaults of [OllamaConfig]. *)
Definition default_config : Settings.OllamaConfig := {|
  Settings.base_url := "http://localhost:11434";
  Settings.model := "mistral";
  Settings.temperature := Finite (3 # 10);
  Settings.max_tokens := 500;
  Settings.timeout := 60;
|}.

Definition dq : string := String "034"%char EmptyString.

(** Nobody listens on the port. *)
Definition refused : Request → Raises Response :=
  λ _, raise (ConnectionError "Connection refused").

(** A 200 response whose body is the JSON text of [data]. *)
Definition answers (body : string) (data : Json) : Request → Raises Response :=
  λ _, value {| status_code := 200; text := body; json := value data |}.

(** The body [{}]. *)
Definition empty_object : Request → Raises Response :=
  answers "{}" (JDict ∅).

(** The body with the one field [total_duration], set to [null]. *)
Definition null_duration : Request → Raises Response :=
  answers ("{" +:+ dq +:+ "total_duration" +:+ dq +:+ ": null}")
          (JDict {[ "total_duration" := JNone ]}).

End OllamaExamples.

(** A graph with seven companies, six of them in Fintech, one of these with
    two sub-sectors and one without a valuation. *)
Module SampleGraph.
Import Cypher.

Definition company (n : string) (v : option Number) : CompanyNode :=
  {| name := Some n; currentValuation := v; entryValuation := None;
     entryDate := None; rank := None |}.

Definition graph : Graph := {|
  Company :=
    [ company "Flipkart" (Sample.n (376 # 10) "37.6");
      company "CRED" (Sample.n (64 # 10) "6.4");
      company "PhonePe" (Sample.n (120 # 10) "12.0");
      company "Razorpay" (Sample.n (75 # 10) "7.5");
      company "Groww" (Sample.n (30 # 10) "3.0");
      company "Slice" None;
      company "Pine Labs" (Sample.n (50 # 10) "5.0") ];
  Sector := [Some "E-Commerce"; Some "Fintech"];
  SubSector := [Some "Payments"; Some "Lending"];
  Location := [Some "Bangalore"];
  Investor := [Some "Softbank"];
  OPERATES_IN := [(0, 0); (1, 1); (2, 1); (3, 1); (4, 1); (5, 1); (6, 1)];
  SPECIALIZES_IN := [(2, 0); (1, 0); (1, 1)];
  HAS_SUBSECTOR := [(1, 0); (1, 1)];
  LOCATED_IN := [(0, 0); (1, 0)];
  INVESTED_IN := [(0, 0)];
|}.

End SampleGraph.

(** Answers of the tags endpoint. *)
Module OllamaTagsExamples.
Import OllamaClient.

(** Three entries, the second one without a name. *)
Definition entries : list (gmap string Json) :=
  [ {[ "name" := JStr "mistral:latest" ]}; ∅; {[ "name" := JStr "llama3" ]} ].

Definition three_models : Response :=
  {| status_code := 200;
     text := "";
     json := inr (JDict {[ "models" := JList (JDict <$> entries) ]}) |}.

(** The body [[]]: valid JSON, but no object. *)
Definition empty_list : Response :=
  {| status_code := 200; text := "[]"; json := inr (JList []) |}.

End OllamaTagsExamples.

(** Two processes that have created the class [GraphRetriever]: the nine
    sets are the first objects of the heap.  The two processes enumerate the
    investors in different orders, as two hash seeds can make them. *)
Module Processes.
Import Objects.

Definition GraphRetriever_object : GraphRetrieverObject := {|
  KNOWN_INVESTORS_ref := 0; KNOWN_SECTORS_ref := 1; KNOWN_LOCATIONS_ref := 2;
  COMPARISON_KEYWORDS_ref := 3; AGGREGATION_KEYWORDS_ref := 4; TOP_KEYWORDS_ref := 5;
  INVESTOR_KEYWORDS_ref := 6; SECTOR_KEYWORDS_ref := 7; LOCATION_KEYWORDS_ref := 8;
|}.

Definition heap_of (tables : GraphRetriever) : Heap :=
  [ StrSetObject (KNOWN_INVESTORS tables);
    StrSetObject (KNOWN_SECTORS tables);
    StrSetObject (KNOWN_LOCATIONS tables);
    StrSetObject COMPARISON_KEYWORDS;
    StrSetObject AGGREGATION_KEYWORDS;
    StrSetObject TOP_KEYWORDS;
    StrSetObject INVESTOR_KEYWORDS;
    StrSetObject SECTOR_KEYWORDS;
    StrSetObject LOCATION_KEYWORDS ].

(** The investors in the order of the class body, and with the first two
    exchanged. *)
Definition tables_a : GraphRetriever := GraphRetriever_class.

Definition tables_b : GraphRetriever := {|
  KNOWN_INVESTORS :=
    ["softbank"; "tiger global"; "sequoia"; "accel"; "matrix";
     "temasek"; "tencent"; "alibaba"; "lightspeed"; "elevation";
     "nexus"; "kalaari"; "chiratae"; "bessemer"; "general atlantic"];
  KNOWN_SECTORS := KNOWN_SECTORS GraphRetriever_class;
  KNOWN_LOCATIONS := KNOWN_LOCATIONS GraphRetriever_class;
|}.

Definition process_a : Heap := heap_of tables_a.
Definition process_b : Heap := heap_of tables_b.

End Processes.

(** * Properties *)

(** ** Examples *)

Example split_example :
  PyStr.split "Compare  CRED and PhonePe?" = ["Compare"; "CRED"; "and"; "PhonePe?"].
Proof. reflexivity. Qed.

Example strip_example :
  PyStr.strip "?,.'!()" "(PhonePe?)." = "PhonePe".
Proof. reflexivity. Qed.

Example title_example :
  map PyStr.title ["tiger global"; "e-commerce"; "d2c"] =
  ["Tiger Global"; "E-Commerce"; "D2C"].
Proof. reflexivity. Qed.

Example str_of_nat_example : map PyStr.str_of_nat [0; 7; 102] = ["0"; "7"; "102"].
Proof. reflexivity. Qed.

Example scenario_A :
  let e := extract_entities GraphRetriever_class "Tell me about Flipkart" in
  companies e = ["Tell"; "Flipkart"] ∧ get_query_intent e = "company_info".
Proof. vm_compute. split; reflexivity. Qed.

Example scenario_B :
  let e := extract_entities GraphRetriever_class "Compare CRED and PhonePe" in
  companies e = ["Compare"; "CRED"; "PhonePe"] ∧ get_query_intent e = "comparison".
Proof. vm_compute. split; reflexivity. Qed.

(** ** Facts about the string operations *)

Module PyStrFacts.
Import PyStr.

Lemma startswith_spec (p s : string) :
  startswith p s = true ↔ ∃ post, s = p +:+ post.
Proof.
  revert s. induction p as [|a p IH]; intros s; simpl.
  - split; [intros _; by exists s | done].
  - destruct s as [|b s].
    + split; [done | intros [post H]; discriminate H].
    + destruct (Ascii.eqb_spec a b) as [->|Hne].
      * rewrite IH. split; intros [post H]; exists post.
        -- by rewrite H.
        -- by injection H.
      * split; [done | intros [post H]; injection H; intros; congruence].
Qed.

(** [needle in hay] holds exactly when [hay] splits around [needle]. *)
Lemma str_in_spec (needle hay : string) :
  str_in needle hay = true ↔ ∃ pre post, hay = pre +:+ needle +:+ post.
Proof.
  induction hay as [|c hay IH].
  - simpl. rewrite orb_false_r, startswith_spec. split.
    + intros [post H]. by exists EmptyString, post.
    + intros [pre [post H]]. destruct pre; [by exists post | discriminate H].
  - cbn [str_in]. rewrite orb_true_iff, startswith_spec, IH. split.
    + intros [[post H] | [pre [post H]]].
      * by exists EmptyString, post.
      * exists (String c pre), post. by rewrite H.
    + intros [pre [post H]]. destruct pre as [|d pre].
      * left. by exists post.
      * right. exists pre, post. by injection H.
Qed.

Lemma any_in_spec (kws : list string) (s : string) :
  any_in kws s = true ↔ ∃ kw, kw ∈ kws ∧ str_in kw s = true.
Proof.
  unfold any_in. rewrite existsb_exists.
  split; intros [kw [H1 H2]]; exists kw; split; try done;
    by apply list_elem_of_In.
Qed.

Lemma member_spec (w : string) (table : list string) :
  member w table = true ↔ w ∈ table.
Proof. unfold member. apply bool_decide_eq_true. Qed.

End PyStrFacts.

(** ** Facts about the extractor *)

Section ExtractorFacts.

Variable self : GraphRetriever.

(** A loop keeps what each of its turns keeps. *)
Lemma fold_left_keeps {A B : Type} (P : A → Prop) (f : A → B → A) (l : list B) :
  (∀ a b, P a → P (f a b)) → ∀ a, P a → P (fold_left f l a).
Proof. intros Hf. induction l as [|b l IH]; simpl; auto. Qed.

Lemma same_flags_refl e : same_flags e e.
Proof. by repeat split. Qed.

Lemma context_step_flags kws t ql e0 e :
  same_flags e0 e → same_flags e0 (context_step kws t ql e).
Proof. unfold context_step. by destruct (PyStr.any_in kws ql). Qed.

Lemma gazetteer_step_flags append t ql e0 :
  (∀ w e, same_flags e0 e → same_flags e0 (append w e)) →
  ∀ e term, same_flags e0 e → same_flags e0 (gazetteer_step append t ql e term).
Proof.
  intros Happ e term He. unfold gazetteer_step.
  destruct (PyStr.str_in term ql); [|done].
  specialize (Happ (PyStr.title term) e He). exact Happ.
Qed.

Lemma company_step_flags e0 e word :
  same_flags e0 e → same_flags e0 (company_step self e word).
Proof. unfold company_step. by destruct (is_company_candidate self word). Qed.

Lemma extract_entities_flags (query : string) :
  let ql := PyStr.lower query in
  let e := extract_entities self query in
  is_comparison e = PyStr.any_in COMPARISON_KEYWORDS ql
  ∧ is_aggregation e = PyStr.any_in AGGREGATION_KEYWORDS ql
  ∧ is_top_query e = PyStr.any_in TOP_KEYWORDS ql.
Proof.
  cbv zeta. unfold extract_entities.
  set (e0 := set_flags _ _ _ _).
  change (same_flags e0 (fold_left (company_step self) (keywords_of query)
    (fold_left (gazetteer_step append_location LOCATION (PyStr.lower query))
       (KNOWN_LOCATIONS self)
    (fold_left (gazetteer_step append_sector SECTOR (PyStr.lower query))
       (KNOWN_SECTORS self)
    (fold_left (gazetteer_step append_investor INVESTOR (PyStr.lower query))
       (KNOWN_INVESTORS self)
    (context_step LOCATION_KEYWORDS LOCATION (PyStr.lower query)
    (context_step SECTOR_KEYWORDS SECTOR (PyStr.lower query)
    (context_step INVESTOR_KEYWORDS INVESTOR (PyStr.lower query) e0)))))))).
  apply fold_left_keeps; [intros; by apply company_step_flags|].
  apply fold_left_keeps; [intros; by apply gazetteer_step_flags|].
  apply fold_left_keeps; [intros; by apply gazetteer_step_flags|].
  apply fold_left_keeps; [intros; by apply gazetteer_step_flags|].
  do 3 apply context_step_flags. apply same_flags_refl.
Qed.

(** The classifier looks at [is_comparison] first. *)
Lemma get_query_intent_comparison (e : ExtractedEntities) :
  is_comparison e = true → get_query_intent e = "comparison".
Proof. intros H. unfold get_query_intent. by rewrite H. Qed.

End ExtractorFacts.

(** C1. A query whose lower-cased form contains one of the comparison
    keywords ([compare], [vs], [versus], [difference], [between]) as a
    substring is classified [comparison], whatever the gazetteers hold and
    whatever other flags and type tags the extractor sets. *)
Theorem comparison_keyword_gives_comparison_intent
    (self : GraphRetriever) (query kw pre post : string) :
  kw ∈ COMPARISON_KEYWORDS →
  PyStr.lower query = pre +:+ kw +:+ post →
  get_query_intent (extract_entities self query) = "comparison".
Proof.
  intros Hkw Hsub.
  apply get_query_intent_comparison.
  destruct (extract_entities_flags self query) as [-> _].
  apply PyStrFacts.any_in_spec. exists kw. split; [done|].
  apply PyStrFacts.str_in_spec. by exists pre, post.
Qed.

Lemma comparison_keyword_gives_comparison_intent_witness :
  get_query_intent
    (extract_entities GraphRetriever_class "Fintech VS edtech: top investors in total")
  = "comparison".
Proof.
  apply (comparison_keyword_gives_comparison_intent GraphRetriever_class
           "Fintech VS edtech: top investors in total" "vs"
           "fintech " " edtech: top investors in total").
  - unfold COMPARISON_KEYWORDS. apply list_elem_of_further, list_elem_of_here.
  - reflexivity.
Defined.

(** ** The company-candidate rule *)

Lemma first_isupper_spec (w : string) :
  first_isupper w = true ↔ spec_first_upper w.
Proof.
  unfold spec_first_upper. destruct w as [|c rest]; simpl.
  - split; [done | intros (c & rest & H & _); discriminate H].
  - split.
    + intros H. by exists c, rest.
    + intros (c' & rest' & H & Hup). by injection H as -> ->.
Qed.

Lemma is_company_candidate_spec (self : GraphRetriever) (w : string) :
  is_company_candidate self w = true ↔ spec_candidate self w.
Proof.
  unfold is_company_candidate, spec_candidate.
  rewrite !andb_true_iff, !negb_true_iff, bool_decide_eq_true.
  rewrite first_isupper_spec.
  rewrite <- !not_true_iff_false, !PyStrFacts.member_spec.
  tauto.
Qed.

Section CompanyLoop.

Variable self : GraphRetriever.

Lemma context_step_companies kws t ql e :
  companies (context_step kws t ql e) = companies e.
Proof. unfold context_step. by destruct (PyStr.any_in kws ql). Qed.

Lemma gazetteer_step_companies append t ql :
  (∀ w e, companies (append w e) = companies e) →
  ∀ e term, companies (gazetteer_step append t ql e term) = companies e.
Proof.
  intros Happ e term. unfold gazetteer_step.
  destruct (PyStr.str_in term ql); [|done]. simpl. apply Happ.
Qed.

Lemma gazetteer_loop_companies append t ql (table : list string) :
  (∀ w e, companies (append w e) = companies e) →
  ∀ e, companies (fold_left (gazetteer_step append t ql) table e) = companies e.
Proof.
  intros Happ. induction table as [|term table IH]; intros e; simpl; [done|].
  rewrite IH. by apply gazetteer_step_companies.
Qed.

(** The company loop appends, in order, the words that pass its test. *)
Lemma company_loop_companies (l : list string) (e : ExtractedEntities) :
  companies (fold_left (company_step self) l e)
  = companies e ++ filter (λ w, is_company_candidate self w = true) l.
Proof.
  revert e. induction l as [|w l IH]; intros e; simpl.
  - by rewrite app_nil_r.
  - rewrite IH. unfold company_step.
    destruct (is_company_candidate self w) eqn:E.
    + rewrite filter_cons_True by done. simpl. by rewrite <- app_assoc.
    + rewrite filter_cons_False; [done | congruence].
Qed.

Lemma extract_entities_companies (query : string) :
  companies (extract_entities self query)
  = filter (λ w, is_company_candidate self w = true) (keywords_of query).
Proof.
  unfold extract_entities. cbv zeta.
  rewrite company_loop_companies.
  rewrite !gazetteer_loop_companies by done.
  by rewrite !context_step_companies.
Qed.

(** No word of [keywords] is empty, so [word[0]] never raises. *)
Lemma keywords_of_nonempty (query w : string) :
  w ∈ keywords_of query → ∃ c rest, w = String c rest.
Proof.
  unfold keywords_of. rewrite list_elem_of_filter. intros [Hlen _].
  destruct w as [|c rest]; [simpl in Hlen; lia | by exists c, rest].
Qed.

End CompanyLoop.

(** C4. The company candidates are exactly the tokens (split at white
    space, the punctuation stripped from both ends) that have more than
    three characters, an upper-case first character and a lower-cased form
    in none of the gazetteers, verbatim and in the order of the query with
    repetitions kept; a token of at most two characters is dropped from the
    keyword list, and no candidate has three characters or fewer. *)
Theorem company_candidates_are_the_capitalised_long_tokens
    (self : GraphRetriever) (query : string) :
  companies (extract_entities self query) = spec_company_candidates self query
  ∧ (∀ w, w ∈ words_of query → (PyStr.len w <= 2)%nat →
        (w ∉ keywords_of query) ∧ (w ∉ companies (extract_entities self query)))
  ∧ (∀ w, (PyStr.len w <= 3)%nat → w ∉ companies (extract_entities self query)).
Proof.
  assert (Heq : companies (extract_entities self query)
                = spec_company_candidates self query).
  { rewrite extract_entities_companies. unfold keywords_of, spec_company_candidates.
    rewrite list_filter_filter. apply list_filter_iff.
    intros w. rewrite is_company_candidate_spec. unfold spec_candidate. split.
    - tauto.
    - intros H. split; [exact H | lia]. }
  split; [exact Heq|]. split.
  - intros w _ Hlen. split.
    + unfold keywords_of. rewrite list_elem_of_filter. lia.
    + rewrite Heq. unfold spec_company_candidates, spec_candidate.
      rewrite list_elem_of_filter. lia.
  - intros w Hlen. rewrite Heq. unfold spec_company_candidates, spec_candidate.
    rewrite list_elem_of_filter. lia.
Qed.

Lemma company_candidates_are_the_capitalised_long_tokens_witness :
  companies (extract_entities GraphRetriever_class "Is it CRED and Mumbai, or (PhonePe)? And CRED")
  = ["CRED"; "PhonePe"; "CRED"]
  ∧ "and" ∉ companies (extract_entities GraphRetriever_class
                         "Is it CRED and Mumbai, or (PhonePe)? And CRED").
Proof.
  destruct (company_candidates_are_the_capitalised_long_tokens GraphRetriever_class
              "Is it CRED and Mumbai, or (PhonePe)? And CRED") as (Heq & _ & Hshort).
  split.
  - rewrite Heq. vm_compute. reflexivity.
  - apply Hshort. vm_compute. lia.
Defined.

(** ** Type tags and the lists they announce *)

Lemma any_in_contains_any (keywords : list string) (query : string) :
  PyStr.any_in keywords (PyStr.lower query) = true ↔ contains_any keywords query.
Proof.
  rewrite PyStrFacts.any_in_spec. unfold contains_any. split.
  - intros (kw & Hin & Hsub). apply PyStrFacts.str_in_spec in Hsub as (pre & post & H).
    by exists kw, pre, post.
  - intros (kw & pre & post & Hin & H). exists kw. split; [done|].
    apply PyStrFacts.str_in_spec. by exists pre, post.
Qed.

Section TagInvariants.

Variable self : GraphRetriever.

Lemma app_singleton_not_nil {A : Type} (l : list A) (x : A) : l ++ [x] ≠ [].
Proof. by destruct l. Qed.

Lemma tags_cover_flags c a t e : tags_cover e → tags_cover (set_flags c a t e).
Proof. done. Qed.

Lemma tags_cover_context kws t ql e :
  tags_cover e → tags_cover (context_step kws t ql e).
Proof.
  unfold context_step. destruct (PyStr.any_in kws ql); [|done].
  unfold tags_cover. simpl. intros (H1 & H2 & H3 & H4).
  repeat split; intros; set_solver.
Qed.

Lemma tags_cover_investor ql e term :
  tags_cover e → tags_cover (gazetteer_step append_investor INVESTOR ql e term).
Proof.
  unfold gazetteer_step. destruct (PyStr.str_in term ql); [|done].
  unfold tags_cover. simpl. intros (H1 & H2 & H3 & H4).
  repeat split; intros; set_solver.
Qed.

Lemma tags_cover_sector ql e term :
  tags_cover e → tags_cover (gazetteer_step append_sector SECTOR ql e term).
Proof.
  unfold gazetteer_step. destruct (PyStr.str_in term ql); [|done].
  unfold tags_cover. simpl. intros (H1 & H2 & H3 & H4).
  repeat split; intros; set_solver.
Qed.

Lemma tags_cover_location ql e term :
  tags_cover e → tags_cover (gazetteer_step append_location LOCATION ql e term).
Proof.
  unfold gazetteer_step. destruct (PyStr.str_in term ql); [|done].
  unfold tags_cover. simpl. intros (H1 & H2 & H3 & H4).
  repeat split; intros; set_solver.
Qed.

Lemma tags_cover_company e word :
  tags_cover e → tags_cover (company_step self e word).
Proof.
  unfold company_step. destruct (is_company_candidate self word); [|done].
  unfold tags_cover. simpl. intros (H1 & H2 & H3 & H4).
  repeat split; intros; set_solver.
Qed.

Lemma extract_entities_tags_cover (query : string) :
  tags_cover (extract_entities self query).
Proof.
  unfold extract_entities. cbv zeta.
  apply fold_left_keeps; [intros; by apply tags_cover_company|].
  apply fold_left_keeps; [intros; by apply tags_cover_location|].
  apply fold_left_keeps; [intros; by apply tags_cover_sector|].
  apply fold_left_keeps; [intros; by apply tags_cover_investor|].
  do 3 apply tags_cover_context. apply tags_cover_flags.
  unfold tags_cover. simpl. by repeat split.
Qed.

(** A tag other than the one just added was in the set before. *)
Ltac other_tag :=
  match goal with
  | Htag : _ ∈ _ ∪ {[ _ ]} |- _ =>
      apply elem_of_union in Htag as [Htag | Htag];
      [ auto | by apply elem_of_singleton in Htag ]
  end.

Lemma tags_founded_context_investor q e :
  tags_founded q e →
  tags_founded q (context_step INVESTOR_KEYWORDS INVESTOR (PyStr.lower q) e).
Proof.
  unfold context_step. destruct (PyStr.any_in _ _) eqn:E; [|done].
  apply any_in_contains_any in E.
  unfold tags_founded. simpl. intros (H1 & H2 & H3 & H4).
  repeat split; intros Htag; [by left | other_tag..].
Qed.

Lemma tags_founded_context_sector q e :
  tags_founded q e →
  tags_founded q (context_step SECTOR_KEYWORDS SECTOR (PyStr.lower q) e).
Proof.
  unfold context_step. destruct (PyStr.any_in _ _) eqn:E; [|done].
  apply any_in_contains_any in E.
  unfold tags_founded. simpl. intros (H1 & H2 & H3 & H4).
  repeat split; intros Htag; [other_tag | by left | other_tag..].
Qed.

Lemma tags_founded_context_location q e :
  tags_founded q e →
  tags_founded q (context_step LOCATION_KEYWORDS LOCATION (PyStr.lower q) e).
Proof.
  unfold context_step. destruct (PyStr.any_in _ _) eqn:E; [|done].
  apply any_in_contains_any in E.
  unfold tags_founded. simpl. intros (H1 & H2 & H3 & H4).
  repeat split; intros Htag; [other_tag.. | by left | other_tag].
Qed.

Lemma tags_founded_investor q ql e term :
  tags_founded q e → tags_founded q (gazetteer_step append_investor INVESTOR ql e term).
Proof.
  unfold gazetteer_step. destruct (PyStr.str_in term ql); [|done].
  unfold tags_founded. simpl. intros (H1 & H2 & H3 & H4).
  repeat split; intros Htag;
    [right; apply app_singleton_not_nil | other_tag..].
Qed.

Lemma tags_founded_sector q ql e term :
  tags_founded q e → tags_founded q (gazetteer_step append_sector SECTOR ql e term).
Proof.
  unfold gazetteer_step. destruct (PyStr.str_in term ql); [|done].
  unfold tags_founded. simpl. intros (H1 & H2 & H3 & H4).
  repeat split; intros Htag;
    [other_tag | right; apply app_singleton_not_nil | other_tag..].
Qed.

Lemma tags_founded_location q ql e term :
  tags_founded q e → tags_founded q (gazetteer_step append_location LOCATION ql e term).
Proof.
  unfold gazetteer_step. destruct (PyStr.str_in term ql); [|done].
  unfold tags_founded. simpl. intros (H1 & H2 & H3 & H4).
  repeat split; intros Htag;
    [other_tag.. | right; apply app_singleton_not_nil | other_tag].
Qed.

Lemma tags_founded_company q e word :
  tags_founded q e → tags_founded q (company_step self e word).
Proof.
  unfold company_step. destruct (is_company_candidate self word); [|done].
  unfold tags_founded. simpl. intros (H1 & H2 & H3 & H4).
  repeat split; intros Htag; [other_tag.. | apply app_singleton_not_nil].
Qed.

Lemma extract_entities_tags_founded (query : string) :
  tags_founded query (extract_entities self query).
Proof.
  unfold extract_entities. cbv zeta.
  apply fold_left_keeps; [intros; by apply tags_founded_company|].
  apply fold_left_keeps; [intros; by apply tags_founded_location|].
  apply fold_left_keeps; [intros; by apply tags_founded_sector|].
  apply fold_left_keeps; [intros; by apply tags_founded_investor|].
  apply tags_founded_context_location, tags_founded_context_sector,
    tags_founded_context_investor.
  unfold tags_founded. simpl. repeat split; intros; set_solver.
Qed.

End TagInvariants.

(** ** The intent of a query and the lists behind it *)

Lemma get_query_intent_company_info (e : ExtractedEntities) :
  get_query_intent e = "company_info" → INVESTOR ∉ query_types e.
Proof.
  unfold get_query_intent.
  destruct (is_comparison e); [discriminate|].
  destruct (is_aggregation e); [discriminate|].
  destruct (is_top_query e); [discriminate|].
  case_bool_decide as Hinv; [discriminate|]. done.
Qed.

Lemma get_query_intent_general (e : ExtractedEntities) :
  is_comparison e = false → is_aggregation e = false → is_top_query e = false →
  INVESTOR ∉ query_types e → SECTOR ∉ query_types e →
  LOCATION ∉ query_types e → COMPANY ∉ query_types e →
  get_query_intent e = "general".
Proof.
  intros Hc Ha Ht H1 H2 H3 H4. unfold get_query_intent.
  rewrite Hc, Ha, Ht. by rewrite !bool_decide_eq_false_2.
Qed.

(** C9. Whenever the extractor returns a non-empty list of investors
    (sectors, locations, companies), the matching type tag is in
    [query_types]; so a query classified [company_info] has no investors,
    and the portfolio loop of [_build_company_context] adds no block, no
    source and nothing to the count: the plan is what the loop over the
    first three companies leaves. *)
Theorem nonempty_lists_are_tagged
    (queries : GraphQueries) (self : GraphRetriever) (query : string) :
  let e := extract_entities self query in
  (investors e ≠ [] → INVESTOR ∈ query_types e)
  ∧ (sectors e ≠ [] → SECTOR ∈ query_types e)
  ∧ (locations e ≠ [] → LOCATION ∈ query_types e)
  ∧ (companies e ≠ [] → COMPANY ∈ query_types e)
  ∧ (get_query_intent e = "company_info" →
       investors e = []
       ∧ _build_company_context queries e
         = fold_left (company_details_step queries) (take 3 (companies e)) Plan_new).
Proof.
  cbv zeta.
  destruct (extract_entities_tags_cover self query) as (HI & HS & HL & HC).
  split; [exact HI|]. split; [exact HS|]. split; [exact HL|]. split; [exact HC|].
  intros Hintent. apply get_query_intent_company_info in Hintent.
  assert (Hnone : investors (extract_entities self query) = []).
  { destruct (investors (extract_entities self query)) eqn:E; [done|].
    exfalso. apply Hintent, HI. congruence. }
  split; [exact Hnone|].
  unfold _build_company_context. by rewrite Hnone.
Qed.

Lemma nonempty_lists_are_tagged_witness :
  (let e := extract_entities GraphRetriever_class "Is Flipkart a Mumbai fintech backed by Softbank" in
   INVESTOR ∈ query_types e ∧ SECTOR ∈ query_types e
   ∧ LOCATION ∈ query_types e ∧ COMPANY ∈ query_types e)
  ∧ (let e := extract_entities GraphRetriever_class "Tell me about Flipkart" in
     investors e = []
     ∧ _build_company_context Sample.store e
       = fold_left (company_details_step Sample.store) (take 3 (companies e)) Plan_new).
Proof.
  split.
  - destruct (nonempty_lists_are_tagged Sample.store GraphRetriever_class
                "Is Flipkart a Mumbai fintech backed by Softbank")
      as (HI & HS & HL & HC & _).
    cbv zeta in *.
    split; [apply HI; vm_compute; discriminate|].
    split; [apply HS; vm_compute; discriminate|].
    split; [apply HL; vm_compute; discriminate|].
    apply HC; vm_compute; discriminate.
  - destruct (nonempty_lists_are_tagged Sample.store GraphRetriever_class
                "Tell me about Flipkart") as (_ & _ & _ & _ & Hplan).
    apply Hplan. vm_compute. reflexivity.
Defined.

(** ** The fallback of [build_context] *)

(** C2. When the plan chosen by the intent produces no block, the context
    returned is the blocks of the general plan joined with a blank line, for
    whatever the store answers, and the count and the sources are the
    general plan's too. *)
Theorem empty_plan_falls_back_to_general
    (queries : GraphQueries) (retriever : GraphRetriever)
    (start_time end_time : Q) (user_query : string) :
  let entities := extract_entities retriever user_query in
  context_parts (intent_plan queries (get_query_intent entities) entities) = [] →
  let result := build_context queries retriever start_time end_time user_query in
  context result
  = PyStr.join (Format.nl +:+ Format.nl) (context_parts (_build_general_context queries))
  ∧ entities_found result = plan_count (_build_general_context queries)
  ∧ sources result = plan_sources (_build_general_context queries).
Proof.
  cbv zeta. intros Hempty. unfold build_context. cbv zeta. by rewrite Hempty.
Qed.

Lemma empty_plan_falls_back_to_general_witness :
  get_query_intent (extract_entities GraphRetriever_class "What about Zomato")
  = "company_info"
  ∧ context (build_context Sample.store GraphRetriever_class 0 0 "What about Zomato")
    = PyStr.join (Format.nl +:+ Format.nl)
        (context_parts (_build_general_context Sample.store)).
Proof.
  split; [vm_compute; reflexivity|].
  apply (empty_plan_falls_back_to_general Sample.store GraphRetriever_class 0 0
           "What about Zomato").
  vm_compute. reflexivity.
Defined.

(** ** Queries without any signal *)

(** The blocks of the general plan: the graph statistics when the store has
    them, then the five top companies when there are any. *)
Lemma build_general_context_parts (queries : GraphQueries) :
  context_parts (_build_general_context queries)
  = match get_graph_stats queries with
    | Some stats => [Format._format_graph_stats stats]
    | None => []
    end
    ++ match get_top_companies queries 5 with
       | [] => []
       | top_companies => [Format._format_top_companies top_companies]
       end.
Proof.
  unfold _build_general_context. cbv zeta.
  destruct (get_graph_stats queries), (get_top_companies queries 5); reflexivity.
Qed.

(** As first stated, C3 fails: a context word alone sets a type tag, so a
    query with no entity and no shape keyword can still be classified
    [investor_info] and answered with the top investors. *)
Lemma context_word_alone_is_not_general :
  let e := extract_entities GraphRetriever_class "which investor" in
  (companies e = [] ∧ investors e = [] ∧ sectors e = [] ∧ locations e = []
   ∧ is_comparison e = false ∧ is_aggregation e = false ∧ is_top_query e = false)
  ∧ get_query_intent e = "investor_info"
  ∧ context (build_context Sample.store GraphRetriever_class 0 0 "which investor")
    = Format._format_top_investors Sample.top_investors
  ∧ context (build_context Sample.store GraphRetriever_class 0 0 "which investor")
    ≠ PyStr.join (Format.nl +:+ Format.nl)
        (context_parts (_build_general_context Sample.store)).
Proof.
  cbv zeta. split; [|split; [|split]].
  - vm_compute. by repeat split.
  - vm_compute. reflexivity.
  - vm_compute. reflexivity.
  - vm_compute. discriminate.
Qed.

(** C3, amended. A query for which the extractor finds no company,
    investor, sector or location, and which contains no shape keyword
    (comparison, aggregation, top) and no context keyword (investor, sector,
    location), is classified [general], and its context is the general
    plan's blocks joined with a blank line: the graph statistics, then the
    five top companies. *)
Theorem no_signal_gives_general_context
    (queries : GraphQueries) (retriever : GraphRetriever)
    (start_time end_time : Q) (user_query : string) :
  let e := extract_entities retriever user_query in
  companies e = [] → investors e = [] → sectors e = [] → locations e = [] →
  ¬ contains_any COMPARISON_KEYWORDS user_query →
  ¬ contains_any AGGREGATION_KEYWORDS user_query →
  ¬ contains_any TOP_KEYWORDS user_query →
  ¬ contains_any INVESTOR_KEYWORDS user_query →
  ¬ contains_any SECTOR_KEYWORDS user_query →
  ¬ contains_any LOCATION_KEYWORDS user_query →
  get_query_intent e = "general"
  ∧ context (build_context queries retriever start_time end_time user_query)
    = PyStr.join (Format.nl +:+ Format.nl)
        (match get_graph_stats queries with
         | Some stats => [Format._format_graph_stats stats]
         | None => []
         end
         ++ match get_top_companies queries 5 with
            | [] => []
            | top_companies => [Format._format_top_companies top_companies]
            end).
Proof.
  cbv zeta. intros Hc Hi Hs Hl Hcmp Hagg Htop Hkwi Hkws Hkwl.
  destruct (extract_entities_flags retriever user_query) as (Fc & Fa & Ft).
  cbv zeta in Fc, Fa, Ft.
  destruct (extract_entities_tags_founded retriever user_query) as (T1 & T2 & T3 & T4).
  assert (Hgeneral : get_query_intent (extract_entities retriever user_query) = "general").
  { apply get_query_intent_general.
    - rewrite Fc. apply not_true_is_false. by rewrite any_in_contains_any.
    - rewrite Fa. apply not_true_is_false. by rewrite any_in_contains_any.
    - rewrite Ft. apply not_true_is_false. by rewrite any_in_contains_any.
    - intros H. destruct (T1 H) as [?|?]; done.
    - intros H. destruct (T2 H) as [?|?]; done.
    - intros H. destruct (T3 H) as [?|?]; done.
    - intros H. by apply T4 in H. }
  split; [exact Hgeneral|].
  rewrite <- build_general_context_parts.
  unfold build_context. cbv zeta. rewrite Hgeneral.
  change (intent_plan queries "general" (extract_entities retriever user_query))
    with (_build_general_context queries).
  set (general := _build_general_context queries).
  assert (Hsame : match context_parts general with [] => general | _ => general end
                  = general) by (by destruct (context_parts general)).
  by rewrite Hsame.
Qed.

Lemma no_signal_gives_general_context_witness :
  get_query_intent (extract_entities GraphRetriever_class "hello, what is new?") = "general"
  ∧ context (build_context Sample.store GraphRetriever_class 0 0 "hello, what is new?")
    = PyStr.join (Format.nl +:+ Format.nl)
        [Format._format_graph_stats
           {| gs_companies := 2; gs_investors := 3; gs_sectors := 2;
              gs_locations := 1; gs_relationships := 7 |};
         Format._format_top_companies Sample.top].
Proof.
  apply (no_signal_gives_general_context Sample.store GraphRetriever_class 0 0
           "hello, what is new?");
    try (vm_compute; reflexivity);
    rewrite <- any_in_contains_any; vm_compute; discriminate.
Defined.

(** ** Counting *)

Section Counting.

Variable queries : GraphQueries.

Lemma company_details_loop_count (names : list string) (p : Plan) :
  plan_count (fold_left (company_details_step queries) names p)
  = plan_count p + sum_list_with (details_found queries) names.
Proof.
  revert p. induction names as [|n names IH]; intros p; simpl; [lia|].
  rewrite IH. unfold company_details_step, details_found.
  destruct (get_company_details queries n); simpl; lia.
Qed.

Lemma portfolio_loop_count (limit : Z) (names : list string) (p : Plan) :
  plan_count (fold_left (portfolio_step queries limit) names p)
  = plan_count p
    + sum_list_with (λ i, length (get_investor_portfolio queries i limit)) names.
Proof.
  revert p. induction names as [|n names IH]; intros p; simpl; [lia|].
  rewrite IH. unfold portfolio_step.
  destruct (get_investor_portfolio queries n limit); simpl; lia.
Qed.

Lemma investor_loop_count (names : list string) (p : Plan) :
  plan_count (fold_left (investor_step queries) names p)
  = plan_count p
    + sum_list_with (λ i, length (get_investor_portfolio queries i 10)) names.
Proof.
  revert p. induction names as [|n names IH]; intros p; simpl; [lia|].
  rewrite IH. unfold investor_step.
  destruct (get_investor_portfolio queries n 10); simpl; [lia|].
  destruct (get_co_investors queries n 5); simpl; lia.
Qed.

Lemma sector_loop_count (limit : Z) (names : list string) (p : Plan) :
  plan_count (fold_left (sector_step queries limit true) names p)
  = plan_count p
    + sum_list_with (λ s, length (get_sector_companies queries s limit)) names.
Proof.
  revert p. induction names as [|n names IH]; intros p; simpl; [lia|].
  rewrite IH. unfold sector_step.
  destruct (get_sector_companies queries n limit); simpl; lia.
Qed.

Lemma city_loop_count (limit : Z) (names : list string) (p : Plan) :
  plan_count (fold_left (city_step queries limit) names p)
  = plan_count p
    + sum_list_with (λ c, length (get_city_companies queries c limit)) names.
Proof.
  revert p. induction names as [|n names IH]; intros p; simpl; [lia|].
  rewrite IH. unfold city_step.
  destruct (get_city_companies queries n limit); simpl; lia.
Qed.

(** A sector loop over names that match nothing leaves the plan as it was. *)
Lemma sector_loop_no_rows (limit : Z) (counted : bool) (names : list string) (p : Plan) :
  (∀ s, s ∈ names → get_sector_companies queries s limit = []) →
  fold_left (sector_step queries limit counted) names p = p.
Proof.
  revert p. induction names as [|n names IH]; intros p Hno; simpl; [done|].
  unfold sector_step at 2. rewrite (Hno n) by apply list_elem_of_here.
  apply IH. intros s Hs. apply Hno. by apply list_elem_of_further.
Qed.

End Counting.

(** ** The count of entities found *)

(** As first stated, C5 fails: the investor plan retrieves the co-investors
    of an investor and formats them, and does not count them.  Here one
    portfolio row and two co-investor rows are retrieved and the count is 1. *)
Lemma co_investors_are_not_counted :
  let e := extract_entities GraphRetriever_class "softbank portfolio" in
  get_query_intent e = "investor_info"
  ∧ investors e = ["Softbank"]
  ∧ length (get_investor_portfolio Sample.store "Softbank" 10) = 1
  ∧ length (get_co_investors Sample.store "Softbank" 5) = 2
  ∧ entities_found (build_context Sample.store GraphRetriever_class 0 0 "softbank portfolio") = 1
  ∧ spec_entities_found Sample.store (get_query_intent e) e = 3.
Proof. vm_compute. by repeat split. Qed.

(** C5, amended. The count adds 1 for each matched company-detail lookup
    (and, in the aggregation plan, 1 for the graph statistics when the store
    has them) and the number of rows of each portfolio, sector list and city
    list of the company, investor, sector, location and comparison plans, of
    the top lists, and of the sector statistics of the aggregation plan; the
    co-investors and the statistics that the sector and location plans
    append add nothing; the general plan reports the number of its top
    companies; [build_context] returns the count of the plan whose blocks it
    returns.  The sector lists of the top-ranking plan and the location
    statistics of the aggregation plan are left aside: the two plans are
    described where those lists are empty. *)
Theorem entities_found_by_plan
    (queries : GraphQueries) (retriever : GraphRetriever)
    (start_time end_time : Q) (user_query : string) (e : ExtractedEntities) :
  plan_count (_build_company_context queries e)
  = sum_list_with (details_found queries) (take 3 (companies e))
    + sum_list_with (portfolio_rows queries 5) (investors e)
  ∧ plan_count (_build_comparison_context queries e)
    = sum_list_with (details_found queries) (take 5 (companies e))
      + sum_list_with (sector_rows queries 5) (take 3 (sectors e))
      + sum_list_with (city_rows queries 5) (take 3 (locations e))
  ∧ plan_count (_build_investor_context queries e)
    = sum_list_with (portfolio_rows queries 10) (take 3 (investors e))
      + match investors e with
        | [] => length (get_top_investors queries 10)
        | _ => 0
        end
  ∧ plan_count (_build_sector_context queries e)
    = sum_list_with (sector_rows queries 10) (take 3 (sectors e))
  ∧ plan_count (_build_location_context queries e)
    = sum_list_with (city_rows queries 10) (take 3 (locations e))
  ∧ ((∀ s, s ∈ take 2 (sectors e) → get_sector_companies queries s 5 = []) →
     plan_count (_build_top_ranking_context queries e)
     = length (get_top_companies queries 10) + length (get_top_investors queries 10))
  ∧ (get_location_stats queries = [] →
     plan_count (_build_aggregation_context queries e)
     = match get_graph_stats queries with Some _ => 1 | None => 0 end
       + length (get_sector_stats queries))
  ∧ plan_count (_build_general_context queries) = length (get_top_companies queries 5)
  ∧ (let entities := extract_entities retriever user_query in
     let p := intent_plan queries (get_query_intent entities) entities in
     entities_found (build_context queries retriever start_time end_time user_query)
     = match context_parts p with
       | [] => plan_count (_build_general_context queries)
       | _ => plan_count p
       end).
Proof.
  repeat match goal with |- _ ∧ _ => split end.
  - unfold _build_company_context. cbv zeta.
    by rewrite portfolio_loop_count, company_details_loop_count.
  - unfold _build_comparison_context. cbv zeta.
    by rewrite city_loop_count, sector_loop_count, company_details_loop_count.
  - unfold _build_investor_context. cbv zeta.
    destruct (investors e) as [|i rest].
    + simpl. destruct (get_top_investors queries 10); simpl; lia.
    + rewrite investor_loop_count. simpl. unfold portfolio_rows. lia.
  - unfold _build_sector_context. cbv zeta.
    destruct (get_sector_stats queries); simpl;
      rewrite sector_loop_count; simpl; unfold sector_rows; lia.
  - unfold _build_location_context. cbv zeta.
    destruct (get_location_stats queries); simpl;
      rewrite city_loop_count; simpl; unfold city_rows; lia.
  - intros Hno. unfold _build_top_ranking_context. cbv zeta.
    rewrite sector_loop_no_rows by exact Hno.
    destruct (get_top_companies queries 10), (get_top_investors queries 10); simpl; lia.
  - intros Hno. unfold _build_aggregation_context. cbv zeta. rewrite Hno.
    destruct (get_graph_stats queries), (get_sector_stats queries); simpl; lia.
  - unfold _build_general_context. cbv zeta.
    by destruct (get_top_companies queries 5).
  - cbv zeta. unfold build_context. cbv zeta. simpl.
    by destruct (context_parts (intent_plan queries _ _)).
Qed.

Lemma entities_found_by_plan_witness :
  plan_count (_build_top_ranking_context Sample.store
                (extract_entities GraphRetriever_class "top unicorns in edtech")) = 3
  ∧ plan_count (_build_aggregation_context Sample.store_without_location_stats
                  (extract_entities GraphRetriever_class "how many unicorns")) = 3.
Proof.
  destruct (entities_found_by_plan Sample.store GraphRetriever_class 0 0
              "top unicorns in edtech"
              (extract_entities GraphRetriever_class "top unicorns in edtech"))
    as (_ & _ & _ & _ & _ & Htop & _).
  destruct (entities_found_by_plan Sample.store_without_location_stats
              GraphRetriever_class 0 0 "how many unicorns"
              (extract_entities GraphRetriever_class "how many unicorns"))
    as (_ & _ & _ & _ & _ & _ & Hagg & _).
  split.
  - rewrite Htop; [reflexivity|].
    intros s Hs. vm_compute in Hs.
    apply list_elem_of_singleton in Hs. subst s. reflexivity.
  - rewrite Hagg; reflexivity.
Defined.

(** ** Failures of the generation call *)

Module OllamaFacts.
Import OllamaClient.

Lemma append_empty (s1 s2 : string) : s1 +:+ s2 = "" → s1 = "" ∧ s2 = "".
Proof. destruct s1; simpl; [done | discriminate]. Qed.

Lemma str_JSONDecodeError_nonempty (msg : string) (lineno colno pos : nat) :
  str_exception (JSONDecodeError msg lineno colno pos) ≠ "".
Proof.
  simpl. intros H. apply append_empty in H as [_ H]. discriminate H.
Qed.

Section Clauses.

Variable settings : Settings.OllamaConfig.

Local Abbreviation clauses := (except_clauses settings).

(** The last clause catches every exception, so none goes on. *)
Lemma handle_clauses_returns (e : PyException) :
  ∃ r, handle clauses e = inr r ∧ success r = false ∧ content r = JStr "".
Proof.
  unfold except_clauses. simpl.
  destruct (is_ConnectionError e); [by eexists|].
  destruct (is_Timeout e); by eexists.
Qed.

Lemma try_except_clauses_returns (body : Raises LLMResponse) :
  ∃ r, try_except body clauses = inr r.
Proof.
  destruct body as [e|r]; simpl.
  - destruct (handle_clauses_returns e) as (r & Hr & _). by exists r.
  - by exists r.
Qed.

Lemma handle_connection_or_timeout (e : PyException) :
  is_ConnectionError e = true ∨ is_Timeout e = true →
  ∃ r, handle clauses e = inr r ∧ reports_failure r.
Proof.
  intros H. unfold except_clauses. simpl.
  destruct (is_ConnectionError e) eqn:E1.
  - eexists. split; [reflexivity|]. repeat split. eexists. split; [reflexivity|done].
  - destruct H as [H|H]; [discriminate|]. rewrite H.
    eexists. split; [reflexivity|]. repeat split. eexists. split; [reflexivity|done].
Qed.

Lemma handle_JSONDecodeError (msg : string) (lineno colno pos : nat) :
  ∃ r, handle clauses (JSONDecodeError msg lineno colno pos) = inr r ∧ reports_failure r.
Proof.
  eexists. split; [reflexivity|]. repeat split.
  eexists. split; [reflexivity|]. apply str_JSONDecodeError_nonempty.
Qed.

End Clauses.

(** C6. [generate] returns a result whatever the network does: no
    exception goes on to the caller.  When the connection is refused, the
    call times out, the status is not 200 or the body is no JSON text, the
    result has [success = False], the empty string as content and a
    non-empty error text. *)
Theorem generate_returns_and_reports_failures
    (settings : Settings.OllamaConfig) (post : Request → Raises Response)
    (prompt context : string) (system_prompt : option string)
    (temperature_arg : option Float) (max_tokens_arg : option Z) :
  ∃ r : LLMResponse,
    generate settings post prompt context system_prompt temperature_arg max_tokens_arg
    = inr r
    ∧ (Failure (post (build_request settings prompt context system_prompt
                        temperature_arg max_tokens_arg)) →
       reports_failure r).
Proof.
  unfold generate. cbv zeta.
  set (request := build_request _ _ _ _ _ _).
  destruct (try_except_clauses_returns settings (try_body settings post request))
    as (r & Hr).
  exists r. split; [exact Hr|].
  intros HF. unfold try_body in Hr. cbv zeta in Hr.
  inversion HF as [e He Hpost | e He Hpost | response Hstatus Hpost
                  | response msg l c p Hstatus Hjson Hpost];
    rewrite <- Hpost in Hr.
  - change (handle (except_clauses settings) e = inr r) in Hr.
    destruct (handle_connection_or_timeout settings e (or_introl He))
      as (r' & Hr' & Hrep). congruence.
  - change (handle (except_clauses settings) e = inr r) in Hr.
    destruct (handle_connection_or_timeout settings e (or_intror He))
      as (r' & Hr' & Hrep). congruence.
  - apply Z.eqb_neq in Hstatus. simpl in Hr. rewrite Hstatus in Hr. simpl in Hr.
    injection Hr as <-. repeat split. eexists. split; [reflexivity|done].
  - simpl in Hr. rewrite Hstatus in Hr. simpl in Hr. rewrite Hjson in Hr.
    change (handle (except_clauses settings) (JSONDecodeError msg l c p) = inr r) in Hr.
    destruct (handle_JSONDecodeError settings msg l c p) as (r' & Hr' & Hrep).
    congruence.
Qed.

End OllamaFacts.

Lemma generate_returns_and_reports_failures_witness :
  ∃ r : OllamaClient.LLMResponse,
    OllamaClient.generate OllamaExamples.default_config OllamaExamples.refused
      "Who are the top investors?" "" None None None = inr r
    ∧ OllamaClient.reports_failure r.
Proof.
  destruct (OllamaFacts.generate_returns_and_reports_failures
              OllamaExamples.default_config OllamaExamples.refused
              "Who are the top investors?" "" None None None) as (r & Hr & Hrep).
  exists r. split; [exact Hr|].
  apply Hrep. apply OllamaClient.connection_refused. reflexivity.
Defined.

(** As first stated, C10 fails: a 200 response whose JSON body lacks the
    [response] field is not always a success.  With [total_duration] set to
    [null] the division raises [TypeError], the last [except] clause catches
    it, and the result is a failure. *)
Lemma missing_response_field_can_fail :
  (∃ fields,
      OllamaExamples.null_duration
        (OllamaClient.build_request OllamaExamples.default_config "q" "c" None None None)
      = inr {| OllamaClient.status_code := 200;
               OllamaClient.text := "{" +:+ OllamaExamples.dq +:+ "total_duration"
                              +:+ OllamaExamples.dq +:+ ": null}";
               OllamaClient.json := inr (OllamaClient.JDict fields) |}
      ∧ fields !! "response" = None)
  ∧ OllamaClient.generate OllamaExamples.default_config OllamaExamples.null_duration
      "q" "c" None None None
    = inr (OllamaClient.failed "mistral"
             "unsupported operand type(s) for /: 'NoneType' and 'int'").
Proof.
  split.
  - exists {[ "total_duration" := OllamaClient.JNone ]}. split; [reflexivity|].
    by apply lookup_singleton_ne.
  - vm_compute. reflexivity.
Qed.

(** C10, amended. When the endpoint answers with status 200 and a JSON
    object that lacks the [response] field, and whose [total_duration], if
    present, can be divided by 1000000 (an int within the range of floats, a
    float or a bool), [generate] returns [success = True] with the empty
    string as content and no error: success does not imply a non-empty
    content. *)
Theorem missing_response_field_gives_empty_success
    (settings : OllamaClient.Settings.OllamaConfig) (post : OllamaClient.Request → OllamaClient.Raises OllamaClient.Response)
    (prompt context : string) (system_prompt : option string)
    (temperature_arg : option OllamaClient.Float) (max_tokens_arg : option Z)
    (response : OllamaClient.Response) (fields : gmap string OllamaClient.Json) :
  post (OllamaClient.build_request settings prompt context system_prompt
          temperature_arg max_tokens_arg) = inr response →
  OllamaClient.status_code response = 200%Z →
  OllamaClient.json response = inr (OllamaClient.JDict fields) →
  fields !! "response" = None →
  (∀ v, fields !! "total_duration" = Some v → ∃ d, OllamaClient.div_million v = inr d) →
  ∃ r : OllamaClient.LLMResponse,
    OllamaClient.generate settings post prompt context system_prompt
      temperature_arg max_tokens_arg = inr r
    ∧ OllamaClient.success r = true
    ∧ OllamaClient.content r = OllamaClient.JStr ""
    ∧ OllamaClient.error r = None.
Proof.
  intros Hpost Hstatus Hjson Hresponse Hduration.
  assert (Hd : ∃ d, OllamaClient.div_million
                      (default (OllamaClient.JInt 0) (fields !! "total_duration")) = inr d).
  { destruct (fields !! "total_duration") as [v|] eqn:E.
    - by apply Hduration.
    - by eexists. }
  destruct Hd as (d & Hd).
  unfold OllamaClient.generate, OllamaClient.try_body. cbv zeta.
  rewrite Hpost. cbn [mbind OllamaClient.Raises_bind].
  rewrite Hstatus. cbn [Z.eqb Pos.eqb]. rewrite Hjson.
  cbn [mbind OllamaClient.Raises_bind OllamaClient.get OllamaClient.value].
  rewrite Hd, Hresponse. cbn [mbind OllamaClient.Raises_bind OllamaClient.try_except default].
  by eexists.
Qed.

Lemma missing_response_field_gives_empty_success_witness :
  ∃ r : OllamaClient.LLMResponse,
    OllamaClient.generate OllamaExamples.default_config OllamaExamples.empty_object
      "Who are the top investors?" "" None None None = inr r
    ∧ OllamaClient.success r = true
    ∧ OllamaClient.content r = OllamaClient.JStr ""
    ∧ OllamaClient.error r = None.
Proof.
  apply (missing_response_field_gives_empty_success
           OllamaExamples.default_config OllamaExamples.empty_object
           "Who are the top investors?" "" None None None
           {| OllamaClient.status_code := 200; OllamaClient.text := "{}";
              OllamaClient.json := inr (OllamaClient.JDict ∅) |} ∅).
  - reflexivity.
  - reflexivity.
  - reflexivity.
  - reflexivity.
  - intros v H. rewrite lookup_empty in H. discriminate H.
Defined.

(** ** The cap of the sector lookup *)

(** C8. The sector lookup returns at most as many rows as its cap, on any
    graph and for any search term: with a cap that is not negative it
    answers and the answer has at most [limit] rows; with a negative cap the
    store refuses the query; and with the cap 5 the answer never has more
    than 5 rows. *)
Theorem sector_lookup_respects_cap
    (g : Cypher.Graph) (sector_name : string) (limit : Z) :
  ((0 ≤ limit)%Z →
     ∃ rows, Cypher.get_sector_companies g sector_name limit = inr rows
             ∧ (Z.of_nat (length rows) ≤ limit)%Z)
  ∧ (∀ rows, Cypher.get_sector_companies g sector_name limit = inr rows →
             (Z.of_nat (length rows) ≤ limit)%Z)
  ∧ (∃ rows, Cypher.get_sector_companies g sector_name 5 = inr rows
             ∧ (length rows <= 5)%nat).
Proof.
  unfold Cypher.get_sector_companies. cbv zeta.
  set (sorted := merge_sort _ _).
  assert (Hcap : ∀ n : Z, (0 ≤ n)%Z →
            ∃ rows, Cypher.limit_rows n sorted = inr rows
                    ∧ (Z.of_nat (length rows) ≤ n)%Z).
  { intros n Hn. unfold Cypher.limit_rows.
    destruct (n <? 0)%Z eqn:E; [apply Z.ltb_lt in E; lia|].
    eexists. split; [reflexivity|]. rewrite length_take. lia. }
  split; [apply Hcap|]. split.
  - intros rows. unfold Cypher.limit_rows.
    destruct (limit <? 0)%Z eqn:E; [discriminate|].
    apply Z.ltb_ge in E. intros [= <-]. rewrite length_take. lia.
  - destruct (Hcap 5%Z) as (rows & Hrows & Hlen); [lia|].
    exists rows. split; [exact Hrows | lia].
Qed.

Example sector_lookup_example :
  match Cypher.get_sector_companies SampleGraph.graph "FINTECH" 5 with
  | inr rows => inr (map (λ r, (sc_company r, sc_subsector r)) rows)
  | inl e => inl e
  end
  = inr [ (Some "Slice", None);
          (Some "PhonePe", Some "Payments");
          (Some "Razorpay", None);
          (Some "CRED", Some "Payments");
          (Some "CRED", Some "Lending") ].
Proof. vm_compute. reflexivity. Qed.

Lemma sector_lookup_respects_cap_witness :
  ∃ rows, Cypher.get_sector_companies SampleGraph.graph "fintech" 5 = inr rows
          ∧ (Z.of_nat (length rows) ≤ 5)%Z.
Proof.
  destruct (sector_lookup_respects_cap SampleGraph.graph "fintech" 5) as (Hcap & _).
  apply Hcap. lia.
Defined.

(** * Further properties *)

(** ** The lists and tags of the extractor *)

Section ExtractorLists.

Variable self : GraphRetriever.

Lemma context_step_lists kws t ql e :
  investors (context_step kws t ql e) = investors e
  ∧ sectors (context_step kws t ql e) = sectors e
  ∧ locations (context_step kws t ql e) = locations e.
Proof. unfold context_step. by destruct (PyStr.any_in kws ql). Qed.

Lemma company_loop_lists (l : list string) (e : ExtractedEntities) :
  investors (fold_left (company_step self) l e) = investors e
  ∧ sectors (fold_left (company_step self) l e) = sectors e
  ∧ locations (fold_left (company_step self) l e) = locations e.
Proof.
  revert e. induction l as [|w l IH]; intros e; simpl; [done|].
  destruct (IH (company_step self e w)) as (-> & -> & ->).
  unfold company_step. by destruct (is_company_candidate self w).
Qed.

Lemma investor_loop_lists ql (table : list string) (e : ExtractedEntities) :
  let e' := fold_left (gazetteer_step append_investor INVESTOR ql) table e in
  investors e'
  = investors e ++ map PyStr.title (filter (λ term, PyStr.str_in term ql = true) table)
  ∧ sectors e' = sectors e ∧ locations e' = locations e.
Proof.
  cbv zeta. revert e. induction table as [|term table IH]; intros e; simpl.
  - by rewrite app_nil_r.
  - destruct (IH (gazetteer_step append_investor INVESTOR ql e term)) as (-> & -> & ->).
    unfold gazetteer_step. destruct (PyStr.str_in term ql) eqn:E.
    + rewrite filter_cons_True by done. simpl. by rewrite <- app_assoc.
    + rewrite filter_cons_False; [done | congruence].
Qed.

Lemma sector_loop_lists ql (table : list string) (e : ExtractedEntities) :
  let e' := fold_left (gazetteer_step append_sector SECTOR ql) table e in
  investors e' = investors e
  ∧ sectors e'
    = sectors e ++ map PyStr.title (filter (λ term, PyStr.str_in term ql = true) table)
  ∧ locations e' = locations e.
Proof.
  cbv zeta. revert e. induction table as [|term table IH]; intros e; simpl.
  - by rewrite app_nil_r.
  - destruct (IH (gazetteer_step append_sector SECTOR ql e term)) as (-> & -> & ->).
    unfold gazetteer_step. destruct (PyStr.str_in term ql) eqn:E.
    + rewrite filter_cons_True by done. simpl. by rewrite <- app_assoc.
    + rewrite filter_cons_False; [done | congruence].
Qed.

Lemma location_loop_lists ql (table : list string) (e : ExtractedEntities) :
  let e' := fold_left (gazetteer_step append_location LOCATION ql) table e in
  investors e' = investors e
  ∧ sectors e' = sectors e
  ∧ locations e'
    = locations e ++ map PyStr.title (filter (λ term, PyStr.str_in term ql = true) table).
Proof.
  cbv zeta. revert e. induction table as [|term table IH]; intros e; simpl.
  - by rewrite app_nil_r.
  - destruct (IH (gazetteer_step append_location LOCATION ql e term)) as (-> & -> & ->).
    unfold gazetteer_step. destruct (PyStr.str_in term ql) eqn:E.
    + rewrite filter_cons_True by done. simpl. by rewrite <- app_assoc.
    + rewrite filter_cons_False; [done | congruence].
Qed.

End ExtractorLists.

Lemma extract_entities_lists (self : GraphRetriever) (query : string) :
  let e := extract_entities self query in
  investors e = gazetteer_hits (KNOWN_INVESTORS self) query
  ∧ sectors e = gazetteer_hits (KNOWN_SECTORS self) query
  ∧ locations e = gazetteer_hits (KNOWN_LOCATIONS self) query.
Proof.
  cbv zeta. unfold extract_entities, gazetteer_hits. cbv zeta.
  set (ql := PyStr.lower query).
  set (e0 := set_flags _ _ _ _).
  set (e1 := context_step LOCATION_KEYWORDS _ _ _).
  set (e2 := fold_left (gazetteer_step append_investor _ _) _ e1).
  set (e3 := fold_left (gazetteer_step append_sector _ _) _ e2).
  set (e4 := fold_left (gazetteer_step append_location _ _) _ e3).
  destruct (company_loop_lists self (keywords_of query) e4) as (-> & -> & ->).
  destruct (location_loop_lists ql (KNOWN_LOCATIONS self) e3) as (HI4 & HS4 & HL4).
  destruct (sector_loop_lists ql (KNOWN_SECTORS self) e2) as (HI3 & HS3 & HL3).
  destruct (investor_loop_lists ql (KNOWN_INVESTORS self) e1) as (HI2 & HS2 & HL2).
  cbv zeta in *. fold e2 in HI2, HS2, HL2. fold e3 in HI3, HS3, HL3.
  fold e4 in HI4, HS4, HL4.
  assert (H1 : investors e1 = [] ∧ sectors e1 = [] ∧ locations e1 = []).
  { unfold e1.
    destruct (context_step_lists LOCATION_KEYWORDS LOCATION ql
                (context_step SECTOR_KEYWORDS SECTOR ql
                   (context_step INVESTOR_KEYWORDS INVESTOR ql e0))) as (-> & -> & ->).
    destruct (context_step_lists SECTOR_KEYWORDS SECTOR ql
                (context_step INVESTOR_KEYWORDS INVESTOR ql e0)) as (-> & -> & ->).
    by destruct (context_step_lists INVESTOR_KEYWORDS INVESTOR ql e0) as (-> & -> & ->). }
  destruct H1 as (I1 & S1 & L1).
  rewrite HI4, HI3, HI2, I1, HS4, HS3, HS2, S1, HL4, HL3, HL2, L1.
  done.
Qed.

(** X1. The investors, sectors and locations that the extractor returns
    are the entries of the matching gazetteer that occur in the lower-cased
    query, in the order in which the table is enumerated (not in the order
    of the query), each in title case. *)
Theorem gazetteer_lists_are_the_table_hits (self : GraphRetriever) (query : string) :
  let e := extract_entities self query in
  investors e = gazetteer_hits (KNOWN_INVESTORS self) query
  ∧ sectors e = gazetteer_hits (KNOWN_SECTORS self) query
  ∧ locations e = gazetteer_hits (KNOWN_LOCATIONS self) query.
Proof. exact (extract_entities_lists self query). Qed.

Section ExtractorTags.

Variable self : GraphRetriever.

Lemma gazetteer_hits_nonempty (table : list string) (query : string) :
  gazetteer_hits table query ≠ [] ↔ contains_any table query.
Proof.
  unfold gazetteer_hits, contains_any. split.
  - intros Hne.
    destruct (filter (λ term, PyStr.str_in term (PyStr.lower query) = true) table)
      as [|term rest] eqn:E; [done|].
    assert (Hin : term ∈ filter (λ term, PyStr.str_in term (PyStr.lower query) = true) table)
      by (rewrite E; apply list_elem_of_here).
    apply list_elem_of_filter in Hin as [Hhit Hin].
    apply PyStrFacts.str_in_spec in Hhit as (pre & post & H).
    by exists term, pre, post.
  - intros (term & pre & post & Hin & H) Hnil.
    assert (Hhit : PyStr.str_in term (PyStr.lower query) = true).
    { apply PyStrFacts.str_in_spec. by exists pre, post. }
    assert (Hf : term ∈ filter (λ term, PyStr.str_in term (PyStr.lower query) = true) table)
      by (by apply list_elem_of_filter).
    apply list_elem_of_In in Hf. apply (in_map PyStr.title) in Hf.
    rewrite Hnil in Hf. destruct Hf.
Qed.

(** No statement of the extractor removes a tag. *)
Lemma context_step_keeps_tag kws t' ql e (t : EntityType) :
  t ∈ query_types e → t ∈ query_types (context_step kws t' ql e).
Proof.
  unfold context_step. destruct (PyStr.any_in kws ql); [|done].
  simpl. intros H. apply elem_of_union. by left.
Qed.

Lemma gazetteer_step_keeps_tag append t' ql (t : EntityType) :
  (∀ w e, query_types (append w e) = query_types e) →
  ∀ e term, t ∈ query_types e → t ∈ query_types (gazetteer_step append t' ql e term).
Proof.
  intros Happ e term H. unfold gazetteer_step.
  destruct (PyStr.str_in term ql); [|done].
  simpl. rewrite Happ. apply elem_of_union. by left.
Qed.

Lemma company_step_keeps_tag (t : EntityType) e word :
  t ∈ query_types e → t ∈ query_types (company_step self e word).
Proof.
  unfold company_step. destruct (is_company_candidate self word); [|done].
  simpl. intros H. apply elem_of_union. by left.
Qed.

Lemma loops_keep_tag (t : EntityType) (ql : string) (keywords : list string)
    (e : ExtractedEntities) :
  t ∈ query_types e →
  t ∈ query_types
        (fold_left (company_step self) keywords
           (fold_left (gazetteer_step append_location LOCATION ql) (KNOWN_LOCATIONS self)
              (fold_left (gazetteer_step append_sector SECTOR ql) (KNOWN_SECTORS self)
                 (fold_left (gazetteer_step append_investor INVESTOR ql)
                    (KNOWN_INVESTORS self) e)))).
Proof.
  intros H.
  apply (fold_left_keeps (λ e, t ∈ query_types e));
    [intros; by apply company_step_keeps_tag|].
  apply (fold_left_keeps (λ e, t ∈ query_types e));
    [intros; by apply gazetteer_step_keeps_tag|].
  apply (fold_left_keeps (λ e, t ∈ query_types e));
    [intros; by apply gazetteer_step_keeps_tag|].
  apply (fold_left_keeps (λ e, t ∈ query_types e));
    [intros; by apply gazetteer_step_keeps_tag|].
  exact H.
Qed.

(** A context keyword in the query puts its tag in [query_types]. *)
Lemma context_keyword_tags (query : string) :
  let e := extract_entities self query in
  (contains_any INVESTOR_KEYWORDS query → INVESTOR ∈ query_types e)
  ∧ (contains_any SECTOR_KEYWORDS query → SECTOR ∈ query_types e)
  ∧ (contains_any LOCATION_KEYWORDS query → LOCATION ∈ query_types e).
Proof.
  cbv zeta. unfold extract_entities. cbv zeta.
  repeat split; intros Hkw; apply any_in_contains_any in Hkw;
    apply loops_keep_tag.
  - do 2 apply context_step_keeps_tag. unfold context_step. rewrite Hkw.
    simpl. apply elem_of_union. right. by apply elem_of_singleton.
  - apply context_step_keeps_tag. unfold context_step at 1. rewrite Hkw.
    simpl. apply elem_of_union. right. by apply elem_of_singleton.
  - unfold context_step at 1. rewrite Hkw.
    simpl. apply elem_of_union. right. by apply elem_of_singleton.
Qed.

Lemma no_unused_tag_add (t : EntityType) (e : ExtractedEntities) :
  t ≠ VALUATION → t ≠ COMPARISON →
  no_unused_tag e → no_unused_tag (add_query_type t e).
Proof.
  intros Hv Hc [H1 H2]. unfold no_unused_tag. simpl.
  split; intros H; apply elem_of_union in H as [H|H];
    try done; apply elem_of_singleton in H; congruence.
Qed.

Lemma extract_entities_no_unused_tag (query : string) :
  no_unused_tag (extract_entities self query).
Proof.
  unfold extract_entities. cbv zeta.
  apply fold_left_keeps.
  { intros e w H. unfold company_step. destruct (is_company_candidate self w); [|done].
    by apply no_unused_tag_add. }
  apply fold_left_keeps.
  { intros e w H. unfold gazetteer_step. destruct (PyStr.str_in w _); [|done].
    by apply no_unused_tag_add. }
  apply fold_left_keeps.
  { intros e w H. unfold gazetteer_step. destruct (PyStr.str_in w _); [|done].
    by apply no_unused_tag_add. }
  apply fold_left_keeps.
  { intros e w H. unfold gazetteer_step. destruct (PyStr.str_in w _); [|done].
    by apply no_unused_tag_add. }
  unfold context_step.
  repeat match goal with
         | |- context [if ?b then _ else _] => destruct b
         end;
    repeat (apply no_unused_tag_add; [done | done |]);
    unfold no_unused_tag; simpl; split; apply not_elem_of_empty.
Qed.

Lemma companies_nonempty_signal (query : string) :
  companies (extract_entities self query) ≠ [] ↔ company_signal self query.
Proof.
  rewrite extract_entities_companies. unfold company_signal, keywords_of. split.
  - intros Hne.
    destruct (filter (λ w, is_company_candidate self w = true) _) as [|w rest] eqn:E;
      [done|].
    assert (Hin : w ∈ filter (λ w, is_company_candidate self w = true)
                        (filter (λ w, 2 < PyStr.len w) (words_of query)))
      by (rewrite E; apply list_elem_of_here).
    apply list_elem_of_filter in Hin as [Hc Hin].
    apply list_elem_of_filter in Hin as [_ Hin].
    exists w. split; [exact Hin|]. by apply is_company_candidate_spec.
  - intros (w & Hin & Hc) Hnil.
    assert (Hf : w ∈ filter (λ w, is_company_candidate self w = true)
                       (filter (λ w, 2 < PyStr.len w) (words_of query))).
    { apply list_elem_of_filter. split; [by apply is_company_candidate_spec|].
      apply list_elem_of_filter. split; [|exact Hin].
      destruct Hc as [Hlen _]. lia. }
    rewrite Hnil in Hf. by apply not_elem_of_nil in Hf.
Qed.

Lemma extract_entities_tags (query : string) :
  let e := extract_entities self query in
  (INVESTOR ∈ query_types e ↔ investor_signal self query)
  ∧ (SECTOR ∈ query_types e ↔ sector_signal self query)
  ∧ (LOCATION ∈ query_types e ↔ location_signal self query)
  ∧ (COMPANY ∈ query_types e ↔ company_signal self query)
  ∧ (VALUATION ∉ query_types e)
  ∧ (COMPARISON ∉ query_types e).
Proof.
  cbv zeta.
  destruct (extract_entities_tags_cover self query) as (CI & CS & CL & CC).
  destruct (extract_entities_tags_founded self query) as (FI & FS & FL & FC).
  destruct (context_keyword_tags query) as (KI & KS & KL). cbv zeta in KI, KS, KL.
  destruct (extract_entities_lists self query) as (LI & LS & LL).
  cbv zeta in LI, LS, LL.
  destruct (extract_entities_no_unused_tag query) as (NV & NC).
  unfold investor_signal, sector_signal, location_signal.
  pose proof (gazetteer_hits_nonempty (KNOWN_INVESTORS self) query) as GI.
  pose proof (gazetteer_hits_nonempty (KNOWN_SECTORS self) query) as GS.
  pose proof (gazetteer_hits_nonempty (KNOWN_LOCATIONS self) query) as GL.
  rewrite <- LI in GI. rewrite <- LS in GS. rewrite <- LL in GL.
  pose proof (companies_nonempty_signal query) as GC.
  split; [|split; [|split; [|split; [|by split]]]].
  - split.
    + intros H. destruct (FI H) as [?|Hl]; [by left | right; by apply GI].
    + intros [H|H]; [by apply KI | by apply CI, GI].
  - split.
    + intros H. destruct (FS H) as [?|Hl]; [by left | right; by apply GS].
    + intros [H|H]; [by apply KS | by apply CS, GS].
  - split.
    + intros H. destruct (FL H) as [?|Hl]; [by left | right; by apply GL].
    + intros [H|H]; [by apply KL | by apply CL, GL].
  - split.
    + intros H. by apply GC, FC.
    + intros H. by apply CC, GC.
Qed.

End ExtractorTags.

(** X2. The tag INVESTOR (SECTOR, LOCATION) is in [query_types] exactly
    when the lower-cased query contains a keyword of that family or an entry
    of that gazetteer; COMPANY is there exactly when some token is a company
    candidate; VALUATION and COMPARISON are never there. *)
Theorem query_types_are_the_signals (self : GraphRetriever) (query : string) :
  let e := extract_entities self query in
  (INVESTOR ∈ query_types e ↔ investor_signal self query)
  ∧ (SECTOR ∈ query_types e ↔ sector_signal self query)
  ∧ (LOCATION ∈ query_types e ↔ location_signal self query)
  ∧ (COMPANY ∈ query_types e ↔ company_signal self query)
  ∧ (VALUATION ∉ query_types e)
  ∧ (COMPARISON ∉ query_types e).
Proof. exact (extract_entities_tags self query). Qed.

(** ** The intent of a query, read off the query *)

Lemma cascade_labels (bc ba bt bi bs bl bk : bool) :
  let i := cascade bc ba bt bi bs bl bk in
  (i = "comparison" ↔ bc = true)
  ∧ (i = "aggregation" ↔ bc = false ∧ ba = true)
  ∧ (i = "top_ranking" ↔ bc = false ∧ ba = false ∧ bt = true)
  ∧ (i = "investor_info" ↔ bc = false ∧ ba = false ∧ bt = false ∧ bi = true)
  ∧ (i = "sector_info"
     ↔ bc = false ∧ ba = false ∧ bt = false ∧ bi = false ∧ bs = true)
  ∧ (i = "location_info"
     ↔ bc = false ∧ ba = false ∧ bt = false ∧ bi = false ∧ bs = false ∧ bl = true)
  ∧ (i = "company_info"
     ↔ bc = false ∧ ba = false ∧ bt = false ∧ bi = false ∧ bs = false ∧ bl = false
       ∧ bk = true)
  ∧ (i = "general"
     ↔ bc = false ∧ ba = false ∧ bt = false ∧ bi = false ∧ bs = false ∧ bl = false
       ∧ bk = false).
Proof.
  destruct bc, ba, bt, bi, bs, bl, bk; cbv zeta; unfold cascade;
    repeat split; intros; try discriminate; try reflexivity;
    repeat match goal with H : _ ∧ _ |- _ => destruct H end; discriminate.
Qed.

Lemma get_query_intent_cascade (e : ExtractedEntities) :
  get_query_intent e
  = cascade (is_comparison e) (is_aggregation e) (is_top_query e)
      (bool_decide (INVESTOR ∈ query_types e))
      (bool_decide (SECTOR ∈ query_types e))
      (bool_decide (LOCATION ∈ query_types e))
      (bool_decide (COMPANY ∈ query_types e)).
Proof. reflexivity. Qed.

Lemma extract_entities_intent (self : GraphRetriever) (query : string) :
  let intent := get_query_intent (extract_entities self query) in
  let C := contains_any COMPARISON_KEYWORDS query in
  let A := contains_any AGGREGATION_KEYWORDS query in
  let T := contains_any TOP_KEYWORDS query in
  let I := investor_signal self query in
  let S := sector_signal self query in
  let L := location_signal self query in
  let K := company_signal self query in
  (intent = "comparison" ↔ C)
  ∧ (intent = "aggregation" ↔ ¬ C ∧ A)
  ∧ (intent = "top_ranking" ↔ ¬ C ∧ ¬ A ∧ T)
  ∧ (intent = "investor_info" ↔ ¬ C ∧ ¬ A ∧ ¬ T ∧ I)
  ∧ (intent = "sector_info" ↔ ¬ C ∧ ¬ A ∧ ¬ T ∧ ¬ I ∧ S)
  ∧ (intent = "location_info" ↔ ¬ C ∧ ¬ A ∧ ¬ T ∧ ¬ I ∧ ¬ S ∧ L)
  ∧ (intent = "company_info" ↔ ¬ C ∧ ¬ A ∧ ¬ T ∧ ¬ I ∧ ¬ S ∧ ¬ L ∧ K)
  ∧ (intent = "general" ↔ ¬ C ∧ ¬ A ∧ ¬ T ∧ ¬ I ∧ ¬ S ∧ ¬ L ∧ ¬ K).
Proof.
  cbv zeta. rewrite get_query_intent_cascade.
  destruct (extract_entities_flags self query) as (Fc & Fa & Ft).
  cbv zeta in Fc, Fa, Ft.
  destruct (extract_entities_tags self query) as (TI & TS & TL & TK & _).
  cbv zeta in TI, TS, TL, TK.
  set (e := extract_entities self query) in *.
  assert (Bc : is_comparison e = true ↔ contains_any COMPARISON_KEYWORDS query)
    by (rewrite Fc; apply any_in_contains_any).
  assert (Ba : is_aggregation e = true ↔ contains_any AGGREGATION_KEYWORDS query)
    by (rewrite Fa; apply any_in_contains_any).
  assert (Bt : is_top_query e = true ↔ contains_any TOP_KEYWORDS query)
    by (rewrite Ft; apply any_in_contains_any).
  assert (Bi : bool_decide (INVESTOR ∈ query_types e) = true ↔ investor_signal self query)
    by (rewrite bool_decide_eq_true; exact TI).
  assert (Bs : bool_decide (SECTOR ∈ query_types e) = true ↔ sector_signal self query)
    by (rewrite bool_decide_eq_true; exact TS).
  assert (Bl : bool_decide (LOCATION ∈ query_types e) = true ↔ location_signal self query)
    by (rewrite bool_decide_eq_true; exact TL).
  assert (Bk : bool_decide (COMPANY ∈ query_types e) = true ↔ company_signal self query)
    by (rewrite bool_decide_eq_true; exact TK).
  rewrite <- Bc, <- Ba, <- Bt, <- Bi, <- Bs, <- Bl, <- Bk.
  rewrite !not_true_iff_false.
  apply cascade_labels.
Qed.

(** X3. The intent of a query is decided by seven signals of the query, in
    this order: a comparison keyword, an aggregation keyword, a top keyword,
    an investor signal, a sector signal, a location signal (each a context
    keyword or a gazetteer entry contained in the lower-cased query), a
    company candidate among the tokens.  Each label is returned exactly when
    its signal is the first one present, and [general] exactly when none
    is. *)
Theorem intent_is_the_first_signal (self : GraphRetriever) (query : string) :
  let intent := get_query_intent (extract_entities self query) in
  let C := contains_any COMPARISON_KEYWORDS query in
  let A := contains_any AGGREGATION_KEYWORDS query in
  let T := contains_any TOP_KEYWORDS query in
  let I := investor_signal self query in
  let S := sector_signal self query in
  let L := location_signal self query in
  let K := company_signal self query in
  (intent = "comparison" ↔ C)
  ∧ (intent = "aggregation" ↔ ¬ C ∧ A)
  ∧ (intent = "top_ranking" ↔ ¬ C ∧ ¬ A ∧ T)
  ∧ (intent = "investor_info" ↔ ¬ C ∧ ¬ A ∧ ¬ T ∧ I)
  ∧ (intent = "sector_info" ↔ ¬ C ∧ ¬ A ∧ ¬ T ∧ ¬ I ∧ S)
  ∧ (intent = "location_info" ↔ ¬ C ∧ ¬ A ∧ ¬ T ∧ ¬ I ∧ ¬ S ∧ L)
  ∧ (intent = "company_info" ↔ ¬ C ∧ ¬ A ∧ ¬ T ∧ ¬ I ∧ ¬ S ∧ ¬ L ∧ K)
  ∧ (intent = "general" ↔ ¬ C ∧ ¬ A ∧ ¬ T ∧ ¬ I ∧ ¬ S ∧ ¬ L ∧ ¬ K).
Proof. exact (extract_entities_intent self query). Qed.

(** ** Upper and lower case *)

Lemma contains_any_lower (keywords : list string) (q1 q2 : string) :
  PyStr.lower q1 = PyStr.lower q2 →
  contains_any keywords q1 ↔ contains_any keywords q2.
Proof. intros H. unfold contains_any. by rewrite H. Qed.

(** X4. Keyword and gazetteer matching ignores case: two queries with the
    same lower-cased form get the same three flags, the same investors,
    sectors and locations, and the same tags except possibly COMPANY; when
    in addition both or neither have a company candidate, they get the same
    intent. *)
Theorem matching_ignores_case (self : GraphRetriever) (q1 q2 : string) :
  PyStr.lower q1 = PyStr.lower q2 →
  let e1 := extract_entities self q1 in
  let e2 := extract_entities self q2 in
  is_comparison e1 = is_comparison e2
  ∧ is_aggregation e1 = is_aggregation e2
  ∧ is_top_query e1 = is_top_query e2
  ∧ investors e1 = investors e2
  ∧ sectors e1 = sectors e2
  ∧ locations e1 = locations e2
  ∧ (∀ t, t ≠ COMPANY → t ∈ query_types e1 ↔ t ∈ query_types e2)
  ∧ ((company_signal self q1 ↔ company_signal self q2) →
     get_query_intent e1 = get_query_intent e2).
Proof.
  intros Hlow. cbv zeta.
  destruct (extract_entities_flags self q1) as (Fc1 & Fa1 & Ft1).
  destruct (extract_entities_flags self q2) as (Fc2 & Fa2 & Ft2).
  cbv zeta in *.
  destruct (extract_entities_lists self q1) as (LI1 & LS1 & LL1).
  destruct (extract_entities_lists self q2) as (LI2 & LS2 & LL2).
  cbv zeta in *.
  destruct (extract_entities_tags self q1) as (TI1 & TS1 & TL1 & TK1 & NV1 & NC1).
  destruct (extract_entities_tags self q2) as (TI2 & TS2 & TL2 & TK2 & NV2 & NC2).
  cbv zeta in *.
  assert (Hc : is_comparison (extract_entities self q1)
               = is_comparison (extract_entities self q2))
    by (by rewrite Fc1, Fc2, Hlow).
  assert (Ha : is_aggregation (extract_entities self q1)
               = is_aggregation (extract_entities self q2))
    by (by rewrite Fa1, Fa2, Hlow).
  assert (Ht : is_top_query (extract_entities self q1)
               = is_top_query (extract_entities self q2))
    by (by rewrite Ft1, Ft2, Hlow).
  assert (HI : INVESTOR ∈ query_types (extract_entities self q1)
               ↔ INVESTOR ∈ query_types (extract_entities self q2)).
  { rewrite TI1, TI2. unfold investor_signal.
    by rewrite !(contains_any_lower _ q1 q2 Hlow). }
  assert (HS : SECTOR ∈ query_types (extract_entities self q1)
               ↔ SECTOR ∈ query_types (extract_entities self q2)).
  { rewrite TS1, TS2. unfold sector_signal.
    by rewrite !(contains_any_lower _ q1 q2 Hlow). }
  assert (HL : LOCATION ∈ query_types (extract_entities self q1)
               ↔ LOCATION ∈ query_types (extract_entities self q2)).
  { rewrite TL1, TL2. unfold location_signal.
    by rewrite !(contains_any_lower _ q1 q2 Hlow). }
  split; [exact Hc|]. split; [exact Ha|]. split; [exact Ht|].
  split; [rewrite LI1, LI2; unfold gazetteer_hits; by rewrite Hlow|].
  split; [rewrite LS1, LS2; unfold gazetteer_hits; by rewrite Hlow|].
  split; [rewrite LL1, LL2; unfold gazetteer_hits; by rewrite Hlow|].
  split.
  - intros t Ht'. destruct t; try done; split; intros H; contradiction.
  - intros HK. rewrite !get_query_intent_cascade, Hc, Ha, Ht.
    rewrite (bool_decide_ext _ _ HI), (bool_decide_ext _ _ HS), (bool_decide_ext _ _ HL).
    assert (HK' : COMPANY ∈ query_types (extract_entities self q1)
                  ↔ COMPANY ∈ query_types (extract_entities self q2))
      by (by rewrite TK1, TK2).
    by rewrite (bool_decide_ext _ _ HK').
Qed.

Lemma matching_ignores_case_witness :
  let e1 := extract_entities GraphRetriever_class "softbank in MUMBAI vs fintech" in
  let e2 := extract_entities GraphRetriever_class "SoftBank in Mumbai VS FinTech" in
  investors e1 = investors e2 ∧ sectors e1 = sectors e2 ∧ locations e1 = locations e2.
Proof.
  destruct (matching_ignores_case GraphRetriever_class
              "softbank in MUMBAI vs fintech" "SoftBank in Mumbai VS FinTech")
    as (_ & _ & _ & HI & HS & HL & _); [reflexivity|].
  cbv zeta in *. exact (conj HI (conj HS HL)).
Defined.

(** Characters of tokens come from the query. *)
Section Characters.

Variable P : ascii → Prop.

Lemma string_all_rev_app (s1 s2 : string) :
  string_all P (String.rev_app s1 s2) ↔ string_all P s1 ∧ string_all P s2.
Proof.
  revert s2. induction s1 as [|c s1 IH]; intros s2; simpl.
  - tauto.
  - rewrite IH. simpl. tauto.
Qed.

Lemma string_all_rev (s : string) : string_all P (String.rev s) ↔ string_all P s.
Proof. unfold String.rev. rewrite string_all_rev_app. simpl. tauto. Qed.

Lemma split_go_all (cur : option string) (s : string) :
  string_all P (default EmptyString cur) → string_all P s →
  Forall (string_all P) (PyStr.split_go cur s).
Proof.
  revert cur. induction s as [|c s IH]; intros cur Hcur Hs; simpl.
  - destruct cur as [w|]; [|constructor].
    constructor; [by apply string_all_rev | constructor].
  - destruct Hs as [Hc Hs]. destruct (PyStr.isspace c).
    + destruct cur as [w|].
      * constructor; [by apply string_all_rev | by apply IH].
      * by apply IH.
    + apply IH; [|exact Hs]. simpl. by split.
Qed.

Lemma lstrip_all (chars s : string) :
  string_all P s → string_all P (PyStr.lstrip chars s).
Proof.
  induction s as [|c s IH]; simpl; [done|].
  intros [Hc Hs]. destruct (PyStr.char_in c chars); [by apply IH | by split].
Qed.

Lemma rstrip_all (chars s : string) :
  string_all P s → string_all P (PyStr.rstrip chars s).
Proof.
  induction s as [|c s IH]; simpl; [done|].
  intros [Hc Hs]. specialize (IH Hs).
  destruct (PyStr.rstrip chars s) as [|d r].
  - by destruct (PyStr.char_in c chars).
  - by split.
Qed.

Lemma words_of_all (query : string) :
  string_all P query → Forall (string_all P) (words_of query).
Proof.
  intros H. unfold words_of. apply Forall_map.
  eapply Forall_impl; [by apply split_go_all|].
  intros w Hw. simpl. unfold PyStr.strip. by apply rstrip_all, lstrip_all.
Qed.

End Characters.

(** X5. A query without any upper-case character has no company
    candidate: the company list is empty, COMPANY is not among the tags
    and the intent is not [company_info]. *)
Theorem lower_case_query_has_no_company (self : GraphRetriever) (query : string) :
  string_all (λ c, PyStr.isupper c = false) query →
  let e := extract_entities self query in
  companies e = [] ∧ (COMPANY ∉ query_types e) ∧ get_query_intent e ≠ "company_info".
Proof.
  intros Hlow. cbv zeta.
  assert (Hnone : companies (extract_entities self query) = []).
  { rewrite extract_entities_companies.
    apply (words_of_all _ query) in Hlow.
    unfold keywords_of.
    destruct (filter (λ w, is_company_candidate self w = true) _) as [|w rest] eqn:E;
      [done|].
    assert (Hin : w ∈ filter (λ w, is_company_candidate self w = true)
                        (filter (λ w, 2 < PyStr.len w) (words_of query)))
      by (rewrite E; apply list_elem_of_here).
    apply list_elem_of_filter in Hin as [Hc Hin].
    apply list_elem_of_filter in Hin as [_ Hin].
    rewrite Forall_forall in Hlow. specialize (Hlow w Hin).
    unfold is_company_candidate in Hc.
    destruct w as [|c w']; [discriminate Hc|].
    simpl in Hc, Hlow. destruct Hlow as [Hup _]. rewrite Hup in Hc. discriminate Hc. }
  destruct (extract_entities_tags_founded self query) as (_ & _ & _ & FC).
  split; [exact Hnone|]. split.
  - intros H. by apply FC in H.
  - rewrite get_query_intent_cascade. intros H.
    apply cascade_labels in H as (_ & _ & _ & _ & _ & _ & Hk).
    apply bool_decide_eq_true in Hk. by apply FC in Hk.
Qed.

Lemma lower_case_query_has_no_company_witness :
  companies (extract_entities GraphRetriever_class "tell me about flipkart and cred") = [].
Proof.
  apply (lower_case_query_has_no_company GraphRetriever_class
           "tell me about flipkart and cred").
  vm_compute. repeat split.
Defined.

(** ** Tokens *)

Lemma split_go_no_space (cur : option string) (s : string) :
  string_all (λ c, PyStr.isspace c = false) (default EmptyString cur) →
  Forall (string_all (λ c, PyStr.isspace c = false)) (PyStr.split_go cur s).
Proof.
  revert cur. induction s as [|c s IH]; intros cur Hcur; simpl.
  - destruct cur as [w|]; [|constructor].
    constructor; [by apply string_all_rev | constructor].
  - destruct (PyStr.isspace c) eqn:E.
    + destruct cur as [w|].
      * constructor; [by apply string_all_rev | by apply IH].
      * by apply IH.
    + apply IH. simpl. by split.
Qed.

Lemma lstrip_first (chars s : string) (c : ascii) :
  first_char (PyStr.lstrip chars s) = Some c → PyStr.char_in c chars = false.
Proof.
  induction s as [|d s IH]; simpl; [done|].
  destruct (PyStr.char_in d chars) eqn:E; [exact IH|].
  simpl. by intros [= <-].
Qed.

Lemma rstrip_last (chars s : string) (c : ascii) :
  last_char (PyStr.rstrip chars s) = Some c → PyStr.char_in c chars = false.
Proof.
  induction s as [|d s IH]; simpl; [done|].
  destruct (PyStr.rstrip chars s) as [|d' r] eqn:E.
  - destruct (PyStr.char_in d chars) eqn:Ed; simpl; [done|]. by intros [= <-].
  - exact IH.
Qed.

Lemma rstrip_first (chars s : string) (c : ascii) :
  first_char (PyStr.rstrip chars s) = Some c → first_char s = Some c.
Proof.
  destruct s as [|d s]; simpl; [done|].
  destruct (PyStr.rstrip chars s) as [|d' r].
  - by destruct (PyStr.char_in d chars).
  - done.
Qed.

Lemma words_of_trimmed (query w : string) :
  w ∈ words_of query →
  string_all (λ c, PyStr.isspace c = false) w
  ∧ (∀ c, first_char w = Some c → PyStr.char_in c STRIP_CHARS = false)
  ∧ (∀ c, last_char w = Some c → PyStr.char_in c STRIP_CHARS = false).
Proof.
  unfold words_of. intros Hin. apply list_elem_of_In, in_map_iff in Hin.
  destruct Hin as (tok & <- & Hin). apply list_elem_of_In in Hin.
  pose proof (split_go_no_space None query I) as Hns.
  rewrite Forall_forall in Hns. specialize (Hns tok Hin).
  unfold PyStr.strip. split; [|split].
  - by apply rstrip_all, lstrip_all.
  - intros c Hc. apply rstrip_first in Hc. by apply lstrip_first in Hc.
  - intros c Hc. by apply rstrip_last in Hc.
Qed.

(** X6. Every company candidate is a token of the query as the extractor
    cuts it: it contains no white space, and neither its first nor its last
    character is one of the stripped punctuation characters. *)
Theorem company_candidates_are_trimmed_tokens
    (self : GraphRetriever) (query w : string) :
  w ∈ companies (extract_entities self query) →
  w ∈ words_of query
  ∧ string_all (λ c, PyStr.isspace c = false) w
  ∧ (∀ c, first_char w = Some c → PyStr.char_in c STRIP_CHARS = false)
  ∧ (∀ c, last_char w = Some c → PyStr.char_in c STRIP_CHARS = false).
Proof.
  rewrite extract_entities_companies. unfold keywords_of.
  intros Hin. apply list_elem_of_filter in Hin as [_ Hin].
  apply list_elem_of_filter in Hin as [_ Hin].
  split; [exact Hin|]. exact (words_of_trimmed query w Hin).
Qed.

Lemma company_candidates_are_trimmed_tokens_witness :
  "PhonePe" ∈ words_of "Is (PhonePe)?! bigger" ∧ last_char "PhonePe" = Some "e"%char.
Proof.
  destruct (company_candidates_are_trimmed_tokens GraphRetriever_class
              "Is (PhonePe)?! bigger" "PhonePe") as (Hin & _).
  - vm_compute. apply list_elem_of_here.
  - split; [exact Hin | reflexivity].
Defined.

(** ** Blocks and sources of the plans *)

Module BlockFacts.
Import Format.

Lemma join_head_nonempty (sep p : string) (rest : list string) :
  p ≠ "" → PyStr.join sep (p :: rest) ≠ "".
Proof.
  intros Hp. destruct rest as [|q rest]; [exact Hp|].
  change (p +:+ sep +:+ PyStr.join sep (q :: rest) ≠ "").
  destruct p; [done | discriminate].
Qed.

Lemma _format_company_details_nonempty d : _format_company_details d ≠ "".
Proof. unfold _format_company_details. cbv zeta. discriminate. Qed.

Lemma _format_investor_portfolio_nonempty r rows :
  _format_investor_portfolio (r :: rows) ≠ "".
Proof. unfold _format_investor_portfolio. cbv zeta. discriminate. Qed.

Lemma _format_co_investors_nonempty i rows : _format_co_investors i rows ≠ "".
Proof.
  unfold _format_co_investors. cbv zeta.
  apply join_head_nonempty. discriminate.
Qed.

Lemma _format_sector_companies_nonempty s rows : _format_sector_companies s rows ≠ "".
Proof. unfold _format_sector_companies. cbv zeta. discriminate. Qed.

Lemma _format_city_companies_nonempty s rows : _format_city_companies s rows ≠ "".
Proof. unfold _format_city_companies. cbv zeta. discriminate. Qed.

Lemma _format_top_companies_nonempty rows : _format_top_companies rows ≠ "".
Proof.
  unfold _format_top_companies. cbv zeta. apply join_head_nonempty. discriminate.
Qed.

Lemma _format_top_investors_nonempty rows : _format_top_investors rows ≠ "".
Proof.
  unfold _format_top_investors. cbv zeta. apply join_head_nonempty. discriminate.
Qed.

Lemma _format_sector_stats_nonempty rows : _format_sector_stats rows ≠ "".
Proof.
  unfold _format_sector_stats. cbv zeta. apply join_head_nonempty. discriminate.
Qed.

Lemma _format_location_stats_nonempty rows : _format_location_stats rows ≠ "".
Proof.
  unfold _format_location_stats. cbv zeta. apply join_head_nonempty. discriminate.
Qed.

Lemma _format_graph_stats_nonempty stats : _format_graph_stats stats ≠ "".
Proof. unfold _format_graph_stats. discriminate. Qed.

End BlockFacts.

(** An invariant of plans that appending a non-empty block keeps is kept by
    every plan of the builder. *)
Section PlanInvariant.

Variable queries : GraphQueries.
Variable Inv : Plan → Prop.

Hypothesis Inv_new : Inv Plan_new.
Hypothesis Inv_block :
  ∀ block tag n p, block ≠ "" → Inv p → Inv (add_block block tag n p).
Hypothesis Inv_count :
  ∀ p n, Inv p →
    Inv {| context_parts := context_parts p; plan_sources := plan_sources p;
           plan_count := n |}.

Lemma company_details_step_inv p name :
  Inv p → Inv (company_details_step queries p name).
Proof.
  intros H. unfold company_details_step.
  destruct (get_company_details queries name); [|done].
  apply Inv_block; [apply BlockFacts._format_company_details_nonempty | done].
Qed.

Lemma portfolio_step_inv limit p name :
  Inv p → Inv (portfolio_step queries limit p name).
Proof.
  intros H. unfold portfolio_step.
  destruct (get_investor_portfolio queries name limit); [done|].
  apply Inv_block; [apply BlockFacts._format_investor_portfolio_nonempty | done].
Qed.

Lemma sector_step_inv limit counted p name :
  Inv p → Inv (sector_step queries limit counted p name).
Proof.
  intros H. unfold sector_step.
  destruct (get_sector_companies queries name limit); [done|].
  apply Inv_block; [apply BlockFacts._format_sector_companies_nonempty | done].
Qed.

Lemma city_step_inv limit p name :
  Inv p → Inv (city_step queries limit p name).
Proof.
  intros H. unfold city_step.
  destruct (get_city_companies queries name limit); [done|].
  apply Inv_block; [apply BlockFacts._format_city_companies_nonempty | done].
Qed.

Lemma _build_general_context_inv : Inv (_build_general_context queries).
Proof.
  unfold _build_general_context. cbv zeta. apply Inv_count.
  destruct (get_top_companies queries 5) eqn:E.
  - destruct (get_graph_stats queries); [|done].
    apply Inv_block; [apply BlockFacts._format_graph_stats_nonempty | done].
  - apply Inv_block; [apply BlockFacts._format_top_companies_nonempty|].
    destruct (get_graph_stats queries); [|done].
    apply Inv_block; [apply BlockFacts._format_graph_stats_nonempty | done].
Qed.

Lemma _build_company_context_inv e : Inv (_build_company_context queries e).
Proof.
  unfold _build_company_context. cbv zeta.
  apply fold_left_keeps; [intros; by apply portfolio_step_inv|].
  apply fold_left_keeps; [intros; by apply company_details_step_inv|].
  exact Inv_new.
Qed.

Lemma _build_comparison_context_inv e : Inv (_build_comparison_context queries e).
Proof.
  unfold _build_comparison_context. cbv zeta.
  apply fold_left_keeps; [intros; by apply city_step_inv|].
  apply fold_left_keeps; [intros; by apply sector_step_inv|].
  apply fold_left_keeps; [intros; by apply company_details_step_inv|].
  exact Inv_new.
Qed.

Lemma _build_sector_context_inv e : Inv (_build_sector_context queries e).
Proof.
  unfold _build_sector_context. cbv zeta.
  assert (H : Inv (fold_left (sector_step queries 10 true) (take 3 (sectors e)) Plan_new)).
  { apply fold_left_keeps; [intros; by apply sector_step_inv | exact Inv_new]. }
  destruct (get_sector_stats queries); [done|].
  apply Inv_block; [apply BlockFacts._format_sector_stats_nonempty | done].
Qed.

Lemma _build_location_context_inv e : Inv (_build_location_context queries e).
Proof.
  unfold _build_location_context. cbv zeta.
  assert (H : Inv (fold_left (city_step queries 10) (take 3 (locations e)) Plan_new)).
  { apply fold_left_keeps; [intros; by apply city_step_inv | exact Inv_new]. }
  destruct (get_location_stats queries); [done|].
  apply Inv_block; [apply BlockFacts._format_location_stats_nonempty | done].
Qed.

Lemma _build_top_ranking_context_inv e : Inv (_build_top_ranking_context queries e).
Proof.
  unfold _build_top_ranking_context. cbv zeta.
  apply fold_left_keeps; [intros; by apply sector_step_inv|].
  assert (H : Inv match get_top_companies queries 10 with
                  | [] => Plan_new
                  | _ :: _ =>
                      add_block (Format._format_top_companies (get_top_companies queries 10))
                        "top_companies" (length (get_top_companies queries 10)) Plan_new
                  end).
  { destruct (get_top_companies queries 10) eqn:E; [done|].
    apply Inv_block; [apply BlockFacts._format_top_companies_nonempty | done]. }
  destruct (get_top_companies queries 10) eqn:E1;
    destruct (get_top_investors queries 10) eqn:E2; try done;
    apply Inv_block; try apply BlockFacts._format_top_investors_nonempty; done.
Qed.

Lemma _build_aggregation_context_inv e : Inv (_build_aggregation_context queries e).
Proof.
  unfold _build_aggregation_context. cbv zeta.
  assert (H1 : Inv match get_graph_stats queries with
                   | Some stats =>
                       add_block (Format._format_graph_stats stats) "graph_stats" 1 Plan_new
                   | None => Plan_new
                   end).
  { destruct (get_graph_stats queries); [|done].
    apply Inv_block; [apply BlockFacts._format_graph_stats_nonempty | done]. }
  destruct (get_sector_stats queries) eqn:E2;
    destruct (get_location_stats queries) eqn:E3; try done;
    repeat first
      [ done
      | apply Inv_block;
        [ first [ apply BlockFacts._format_location_stats_nonempty
                | apply BlockFacts._format_sector_stats_nonempty ] | ] ].
Qed.

(** The investor plan also appends blocks without a source. *)
Hypothesis Inv_part : ∀ block p, block ≠ "" → Inv p → Inv (add_part block p).

Lemma investor_step_inv p name : Inv p → Inv (investor_step queries p name).
Proof.
  intros H. unfold investor_step.
  destruct (get_investor_portfolio queries name 10) eqn:E; [done|].
  destruct (get_co_investors queries name 5).
  - apply Inv_block; [apply BlockFacts._format_investor_portfolio_nonempty | done].
  - apply Inv_part; [apply BlockFacts._format_co_investors_nonempty|].
    apply Inv_block; [apply BlockFacts._format_investor_portfolio_nonempty | done].
Qed.

Lemma _build_investor_context_inv e : Inv (_build_investor_context queries e).
Proof.
  unfold _build_investor_context. cbv zeta.
  assert (H : Inv (fold_left (investor_step queries) (take 3 (investors e)) Plan_new)).
  { apply fold_left_keeps; [intros; by apply investor_step_inv | exact Inv_new]. }
  destruct (investors e); [|done].
  destruct (get_top_investors queries 10); [done|].
  apply Inv_block; [apply BlockFacts._format_top_investors_nonempty | done].
Qed.

Lemma intent_plan_inv intent e : Inv (intent_plan queries intent e).
Proof.
  unfold intent_plan.
  repeat match goal with |- context [if ?b then _ else _] => destruct b end.
  - apply _build_comparison_context_inv.
  - apply _build_top_ranking_context_inv.
  - apply _build_aggregation_context_inv.
  - apply _build_investor_context_inv.
  - apply _build_sector_context_inv.
  - apply _build_location_context_inv.
  - apply _build_company_context_inv.
  - apply _build_general_context_inv.
Qed.

End PlanInvariant.

(** X7. In every plan, and so in what [build_context] returns, each source
    tag stands for one block: there are never more source tags than blocks,
    and for every intent other than [investor_info] there are exactly as
    many.  (The investor plan appends the co-investors of an investor as a
    block without a source tag.) *)
Theorem sources_stand_for_blocks
    (queries : GraphQueries) (intent : string) (e : ExtractedEntities) :
  (length (plan_sources (intent_plan queries intent e))
   <= length (context_parts (intent_plan queries intent e)))%nat
  ∧ (intent ≠ "investor_info" →
     length (plan_sources (intent_plan queries intent e))
     = length (context_parts (intent_plan queries intent e)))
  ∧ length (plan_sources (_build_general_context queries))
    = length (context_parts (_build_general_context queries)).
Proof.
  split; [|split].
  - apply (intent_plan_inv queries
             (λ p, (length (plan_sources p) <= length (context_parts p))%nat)).
    + simpl. lia.
    + intros block tag n p _ H. simpl. rewrite !length_app. simpl. lia.
    + intros p n H. exact H.
    + intros block p _ H. simpl. rewrite !length_app. simpl. lia.
  - intros Hne.
    set (Inv := λ p : Plan, length (plan_sources p) = length (context_parts p)).
    assert (Hnew : Inv Plan_new) by reflexivity.
    assert (Hblock : ∀ block tag n p, block ≠ "" → Inv p → Inv (add_block block tag n p)).
    { intros block tag n p _ H. unfold Inv in *. simpl. rewrite !length_app. simpl. lia. }
    assert (Hcount : ∀ p n, Inv p →
              Inv {| context_parts := context_parts p; plan_sources := plan_sources p;
                     plan_count := n |}) by (intros p n H; exact H).
    unfold intent_plan.
    destruct (String.eqb intent "comparison");
      [by apply _build_comparison_context_inv|].
    destruct (String.eqb intent "top_ranking");
      [by apply _build_top_ranking_context_inv|].
    destruct (String.eqb intent "aggregation");
      [by apply _build_aggregation_context_inv|].
    destruct (String.eqb_spec intent "investor_info") as [Heq|_]; [done|].
    destruct (String.eqb intent "sector_info");
      [by apply _build_sector_context_inv|].
    destruct (String.eqb intent "location_info");
      [by apply _build_location_context_inv|].
    destruct (String.eqb intent "company_info");
      [by apply _build_company_context_inv|].
    by apply _build_general_context_inv.
  - apply (_build_general_context_inv queries
             (λ p, length (plan_sources p) = length (context_parts p))).
    + reflexivity.
    + intros block tag n p _ H. simpl. rewrite !length_app. simpl. lia.
    + intros p n H. exact H.
Qed.

Lemma sources_stand_for_blocks_witness :
  length (plan_sources (intent_plan Sample.store "sector_info"
            (extract_entities GraphRetriever_class "fintech sector")))
  = length (context_parts (intent_plan Sample.store "sector_info"
              (extract_entities GraphRetriever_class "fintech sector"))).
Proof.
  destruct (sources_stand_for_blocks Sample.store "sector_info"
              (extract_entities GraphRetriever_class "fintech sector")) as (_ & H & _).
  apply H. discriminate.
Defined.

(** ** Size of the context *)

Section PlanBounds.

Variable queries : GraphQueries.


















End PlanBounds.

Lemma intent_plan_blocks_nonempty
    (queries : GraphQueries) (intent : string) (e : ExtractedEntities) :
  Forall (λ b, b ≠ "") (context_parts (intent_plan queries intent e)).
Proof.
  apply (intent_plan_inv queries (λ p, Forall (λ b, b ≠ "") (context_parts p))).
  - constructor.
  - intros block tag n p Hb H. simpl. apply Forall_app. split; [done|].
    by constructor.
  - intros p n H. exact H.
  - intros block p Hb H. simpl. apply Forall_app. split; [done|].
    by constructor.
Qed.

Lemma _build_general_context_blocks_nonempty (queries : GraphQueries) :
  Forall (λ b, b ≠ "") (context_parts (_build_general_context queries)).
Proof.
  apply (_build_general_context_inv queries
           (λ p, Forall (λ b, b ≠ "") (context_parts p))).
  - constructor.
  - intros block tag n p Hb H. simpl. apply Forall_app. split; [done|].
    by constructor.
  - intros p n H. exact H.
Qed.



(** X9. [build_context] returns the empty string as context only when the
    plan of the intent produced no block and the store has neither graph
    statistics nor any top company; with either of them the context is never
    empty. *)
Theorem context_is_empty_only_on_an_empty_store
    (queries : GraphQueries) (retriever : GraphRetriever)
    (start_time end_time : Q) (user_query : string) :
  let entities := extract_entities retriever user_query in
  context (build_context queries retriever start_time end_time user_query) = ""
  ↔ context_parts (intent_plan queries (get_query_intent entities) entities) = []
    ∧ get_graph_stats queries = None
    ∧ get_top_companies queries 5 = [].
Proof.
  cbv zeta. unfold build_context. cbv zeta.
  set (e := extract_entities retriever user_query).
  set (p := intent_plan queries (get_query_intent e) e).
  pose proof (intent_plan_blocks_nonempty queries (get_query_intent e) e) as Hn.
  fold p in Hn.
  pose proof (_build_general_context_blocks_nonempty queries) as Hg.
  pose proof (build_general_context_parts queries) as Hparts.
  simpl.
  destruct (context_parts p) as [|b rest] eqn:E.
  - destruct (context_parts (_build_general_context queries)) as [|g grest] eqn:Eg.
    + split; [|done]. intros _. split; [done|].
      destruct (get_graph_stats queries); [discriminate Hparts|].
      destruct (get_top_companies queries 5); [done | discriminate Hparts].
    + split.
      * intros H. exfalso. inversion Hg as [|? ? Hne _]; subst.
        by apply (BlockFacts.join_head_nonempty (Format.nl +:+ Format.nl) g grest).
      * intros (_ & Hs & Ht). rewrite Hs, Ht in Hparts. discriminate Hparts.
  - split; [|by intros (H & _)].
    intros H. exfalso. rewrite E in H. inversion Hn as [|? ? Hne _]; subst.
    by apply (BlockFacts.join_head_nonempty (Format.nl +:+ Format.nl) b rest).
Qed.

(** ** Order of the blocks *)

Section BlockOrder.

Variable queries : GraphQueries.

Lemma company_details_loop_blocks (names : list string) (p : Plan) :
  context_parts (fold_left (company_details_step queries) names p)
  = context_parts p ++ company_blocks queries names
  ∧ plan_sources (fold_left (company_details_step queries) names p)
    = plan_sources p ++ company_tags queries names.
Proof.
  revert p. induction names as [|n names IH]; intros p; simpl.
  - by rewrite !app_nil_r.
  - destruct (IH (company_details_step queries p n)) as [-> ->].
    unfold company_details_step, company_blocks, company_tags. simpl.
    destruct (get_company_details queries n); simpl; by rewrite <- ?app_assoc.
Qed.

Lemma sector_loop_blocks (limit : Z) (counted : bool) (names : list string) (p : Plan) :
  context_parts (fold_left (sector_step queries limit counted) names p)
  = context_parts p ++ sector_blocks queries limit names
  ∧ plan_sources (fold_left (sector_step queries limit counted) names p)
    = plan_sources p ++ sector_tags queries limit names.
Proof.
  revert p. induction names as [|n names IH]; intros p; simpl.
  - by rewrite !app_nil_r.
  - destruct (IH (sector_step queries limit counted p n)) as [-> ->].
    unfold sector_step, sector_blocks, sector_tags. simpl.
    destruct (get_sector_companies queries n limit); simpl; by rewrite <- ?app_assoc.
Qed.

Lemma city_loop_blocks (limit : Z) (names : list string) (p : Plan) :
  context_parts (fold_left (city_step queries limit) names p)
  = context_parts p ++ city_blocks queries limit names
  ∧ plan_sources (fold_left (city_step queries limit) names p)
    = plan_sources p ++ city_tags queries limit names.
Proof.
  revert p. induction names as [|n names IH]; intros p; simpl.
  - by rewrite !app_nil_r.
  - destruct (IH (city_step queries limit p n)) as [-> ->].
    unfold city_step, city_blocks, city_tags. simpl.
    destruct (get_city_companies queries n limit); simpl; by rewrite <- ?app_assoc.
Qed.

End BlockOrder.

(** X10. The comparison plan lists its blocks in a fixed order and never
    sorts them: first the details of the first five company candidates that
    match, then the company lists of the first three sectors that have
    companies, then those of the first three cities, each group in the order
    of the candidates; the source tags follow the same order, one for each
    block. *)
Theorem comparison_blocks_keep_their_order
    (queries : GraphQueries) (e : ExtractedEntities) :
  context_parts (_build_comparison_context queries e)
  = company_blocks queries (take 5 (companies e))
    ++ sector_blocks queries 5 (take 3 (sectors e))
    ++ city_blocks queries 5 (take 3 (locations e))
  ∧ plan_sources (_build_comparison_context queries e)
    = company_tags queries (take 5 (companies e))
      ++ sector_tags queries 5 (take 3 (sectors e))
      ++ city_tags queries 5 (take 3 (locations e)).
Proof.
  unfold _build_comparison_context. cbv zeta.
  destruct (city_loop_blocks queries 5 (take 3 (locations e))
              (fold_left (sector_step queries 5 true) (take 3 (sectors e))
                 (fold_left (company_details_step queries) (take 5 (companies e))
                    Plan_new))) as [-> ->].
  destruct (sector_loop_blocks queries 5 true (take 3 (sectors e))
              (fold_left (company_details_step queries) (take 5 (companies e))
                 Plan_new)) as [-> ->].
  destruct (company_details_loop_blocks queries (take 5 (companies e)) Plan_new)
    as [-> ->].
  simpl. by rewrite <- !app_assoc.
Qed.

(** ** Plans that end with statistics, and investors the store does not know *)

Lemma investor_loop_no_rows (queries : GraphQueries) (names : list string) (p : Plan) :
  (∀ i, i ∈ names → get_investor_portfolio queries i 10 = []) →
  fold_left (investor_step queries) names p = p.
Proof.
  revert p. induction names as [|n names IH]; intros p Hno; simpl; [done|].
  unfold investor_step at 2. rewrite (Hno n) by apply list_elem_of_here.
  apply IH. intros i Hi. apply Hno. by apply list_elem_of_further.
Qed.

Lemma build_context_of_nonempty_plan
    (queries : GraphQueries) (retriever : GraphRetriever)
    (start_time end_time : Q) (user_query : string) (p : Plan) :
  intent_plan queries (get_query_intent (extract_entities retriever user_query))
    (extract_entities retriever user_query) = p →
  context_parts p ≠ [] →
  context (build_context queries retriever start_time end_time user_query)
  = PyStr.join (Format.nl +:+ Format.nl) (context_parts p)
  ∧ sources (build_context queries retriever start_time end_time user_query)
    = plan_sources p.
Proof.
  intros Hp Hparts. unfold build_context. cbv zeta. rewrite Hp.
  destruct (context_parts p) eqn:E; [done|]. cbn [context sources]. by rewrite E.
Qed.

(** X11. Under the intents [sector_info] and [location_info] the general
    fallback is never used when the store has sector (location) statistics:
    the plan always ends with the statistics block and its tag, even when
    no sector (location) of the query matches anything. *)
Theorem statistics_close_the_sector_and_location_plans
    (queries : GraphQueries) (retriever : GraphRetriever)
    (start_time end_time : Q) (user_query : string) :
  let e := extract_entities retriever user_query in
  let result := build_context queries retriever start_time end_time user_query in
  (get_query_intent e = "sector_info" → get_sector_stats queries ≠ [] →
     context result
     = PyStr.join (Format.nl +:+ Format.nl)
         (sector_blocks queries 10 (take 3 (sectors e))
          ++ [Format._format_sector_stats (get_sector_stats queries)])
     ∧ last (sources result) = Some "sector_stats")
  ∧ (get_query_intent e = "location_info" → get_location_stats queries ≠ [] →
       context result
       = PyStr.join (Format.nl +:+ Format.nl)
           (city_blocks queries 10 (take 3 (locations e))
            ++ [Format._format_location_stats (take 10 (get_location_stats queries))])
       ∧ last (sources result) = Some "location_stats").
Proof.
  cbv zeta. set (e := extract_entities retriever user_query). split.
  - intros Hintent Hstats.
    destruct (sector_loop_blocks queries 10 true (take 3 (sectors e)) Plan_new)
      as [Hparts Hsrc].
    assert (Hplan : ∃ p,
      intent_plan queries (get_query_intent e) e = p
      ∧ context_parts p
        = sector_blocks queries 10 (take 3 (sectors e))
          ++ [Format._format_sector_stats (get_sector_stats queries)]
      ∧ last (plan_sources p) = Some "sector_stats").
    { rewrite Hintent.
      change (intent_plan queries "sector_info" e) with (_build_sector_context queries e).
      unfold _build_sector_context. cbv zeta.
      destruct (get_sector_stats queries) as [|row rows] eqn:E; [done|].
      eexists. split; [reflexivity|].
      cbn [context_parts plan_sources add_block]. rewrite Hparts, Hsrc.
      split; [reflexivity | by rewrite last_snoc]. }
    destruct Hplan as (p & Hp & Hp_parts & Hp_last).
    destruct (build_context_of_nonempty_plan queries retriever start_time end_time
                user_query p Hp) as [Hc Hs].
    { rewrite Hp_parts. by destruct (sector_blocks queries 10 (take 3 (sectors e))). }
    by rewrite Hc, Hs, Hp_parts.
  - intros Hintent Hstats.
    destruct (city_loop_blocks queries 10 (take 3 (locations e)) Plan_new)
      as [Hparts Hsrc].
    assert (Hplan : ∃ p,
      intent_plan queries (get_query_intent e) e = p
      ∧ context_parts p
        = city_blocks queries 10 (take 3 (locations e))
          ++ [Format._format_location_stats (take 10 (get_location_stats queries))]
      ∧ last (plan_sources p) = Some "location_stats").
    { rewrite Hintent.
      change (intent_plan queries "location_info" e)
        with (_build_location_context queries e).
      unfold _build_location_context. cbv zeta.
      destruct (get_location_stats queries) as [|row rows] eqn:E; [done|].
      eexists. split; [reflexivity|].
      cbn [context_parts plan_sources add_block]. rewrite Hparts, Hsrc.
      split; [reflexivity | by rewrite last_snoc]. }
    destruct Hplan as (p & Hp & Hp_parts & Hp_last).
    destruct (build_context_of_nonempty_plan queries retriever start_time end_time
                user_query p Hp) as [Hc Hs].
    { rewrite Hp_parts. by destruct (city_blocks queries 10 (take 3 (locations e))). }
    by rewrite Hc, Hs, Hp_parts.
Qed.

Lemma statistics_close_the_sector_and_location_plans_witness :
  last (sources (build_context Sample.store GraphRetriever_class 0 0
                   "companies of the quantumtech sector"))
  = Some "sector_stats".
Proof.
  destruct (statistics_close_the_sector_and_location_plans Sample.store
              GraphRetriever_class 0 0 "companies of the quantumtech sector")
    as (Hsector & _).
  apply Hsector.
  - vm_compute. reflexivity.
  - vm_compute. discriminate.
Defined.

Section InvestorPlan.

Variable queries : GraphQueries.

(** The tags that the loop of the investor plan adds name an investor. *)
Lemma investor_loop_sources (names : list string) (p : Plan) (tag : string) :
  tag ∈ plan_sources (fold_left (investor_step queries) names p) →
  tag ∈ plan_sources p ∨ ∃ i, i ∈ names ∧ tag = "investor:" +:+ i.
Proof.
  revert p. induction names as [|n names IH]; intros p Htag; simpl in Htag; [by left|].
  apply IH in Htag as [Htag | (i & Hi & ->)].
  - unfold investor_step in Htag.
    destruct (get_investor_portfolio queries n 10) as [|row rows]; [by left|].
    assert (Hsrc : tag ∈ plan_sources p ++ ["investor:" +:+ n]).
    { by destruct (get_co_investors queries n 5). }
    apply elem_of_app in Hsrc as [Hsrc|Hsrc]; [by left|].
    apply list_elem_of_singleton in Hsrc. right. exists n.
    split; [apply list_elem_of_here | done].
  - right. exists i. split; [by apply list_elem_of_further | done].
Qed.

(** The blocks that the loop of the investor plan adds are the portfolio
    and the co-investors of an investor that has a portfolio. *)
Lemma investor_loop_parts (names : list string) (p : Plan) (b : string) :
  b ∈ context_parts (fold_left (investor_step queries) names p) →
  b ∈ context_parts p
  ∨ ∃ i, i ∈ names
         ∧ get_investor_portfolio queries i 10 ≠ []
         ∧ (b = Format._format_investor_portfolio (get_investor_portfolio queries i 10)
            ∨ b = Format._format_co_investors i (get_co_investors queries i 5)).
Proof.
  revert p. induction names as [|n names IH]; intros p Hb; simpl in Hb; [by left|].
  apply IH in Hb as [Hb | (i & Hi & Hrest)].
  - unfold investor_step in Hb.
    destruct (get_investor_portfolio queries n 10) as [|row rows] eqn:Ep; [by left|].
    destruct (get_co_investors queries n 5) as [|co cos] eqn:Ec;
      cbn [context_parts add_block add_part] in Hb.
    + apply elem_of_app in Hb as [Hb|Hb]; [by left|].
      apply list_elem_of_singleton in Hb. right. exists n.
      split; [apply list_elem_of_here|]. rewrite Ep. split; [done | by left].
    + apply elem_of_app in Hb as [Hb|Hb].
      * apply elem_of_app in Hb as [Hb|Hb]; [by left|].
        apply list_elem_of_singleton in Hb. right. exists n.
        split; [apply list_elem_of_here|]. rewrite Ep. split; [done | by left].
      * apply list_elem_of_singleton in Hb. right. exists n.
        split; [apply list_elem_of_here|]. rewrite Ep, Ec. split; [done | by right].
  - right. exists i. split; [by apply list_elem_of_further | done].
Qed.

(** The general plan has the two tags of its own. *)
Lemma _build_general_context_sources (tag : string) :
  tag ∈ plan_sources (_build_general_context queries) →
  tag = "graph_stats" ∨ tag = "top_companies".
Proof.
  unfold _build_general_context. cbv zeta.
  destruct (get_graph_stats queries) as [stats|],
    (get_top_companies queries 5) as [|row rows];
    cbn [plan_sources add_block Plan_new app]; intros Htag.
  - apply list_elem_of_singleton in Htag. by left.
  - apply elem_of_cons in Htag as [->|Htag]; [by left|].
    apply list_elem_of_singleton in Htag. by right.
  - by apply elem_of_nil in Htag.
  - apply list_elem_of_singleton in Htag. by right.
Qed.

(** The investor plan, by whether the query names an investor. *)
Lemma _build_investor_context_cases (e : ExtractedEntities) :
  (investors e = [] →
     _build_investor_context queries e
     = match get_top_investors queries 10 with
       | [] => Plan_new
       | top_investors =>
           add_block (Format._format_top_investors top_investors) "top_investors"
                     (length top_investors) Plan_new
       end)
  ∧ (investors e ≠ [] →
       _build_investor_context queries e
       = fold_left (investor_step queries) (take 3 (investors e)) Plan_new).
Proof.
  unfold _build_investor_context. cbv zeta. split; intros H.
  - by rewrite H.
  - by destruct (investors e).
Qed.

End InvestorPlan.

(** X12. Under the intent [investor_info] the list of the most active
    investors is in the answer exactly when the query names no investor of
    the gazetteer and the store has such a list; it is then the only block
    of the investor plan.  When the query names investors, every block of
    the investor plan is the portfolio or the co-investors of one of the
    first three of them that has a portfolio; and when none of the first
    three has one, the investor plan is empty and [build_context] answers
    with the general plan. *)
Theorem investor_plan_shows_named_investors_or_the_top_list
    (queries : GraphQueries) (retriever : GraphRetriever)
    (start_time end_time : Q) (user_query : string) :
  let e := extract_entities retriever user_query in
  let plan := _build_investor_context queries e in
  let result := build_context queries retriever start_time end_time user_query in
  get_query_intent e = "investor_info" →
  ("top_investors" ∈ sources result
   ↔ investors e = [] ∧ get_top_investors queries 10 ≠ [])
  ∧ (investors e = [] → get_top_investors queries 10 ≠ [] →
       context_parts plan
       = [Format._format_top_investors (get_top_investors queries 10)])
  ∧ (investors e ≠ [] →
       ∀ b, b ∈ context_parts plan →
         ∃ i, i ∈ take 3 (investors e)
              ∧ get_investor_portfolio queries i 10 ≠ []
              ∧ (b = Format._format_investor_portfolio
                       (get_investor_portfolio queries i 10)
                 ∨ b = Format._format_co_investors i (get_co_investors queries i 5)))
  ∧ (investors e ≠ [] →
       (∀ i, i ∈ take 3 (investors e) → get_investor_portfolio queries i 10 = []) →
       plan = Plan_new
       ∧ context result
         = PyStr.join (Format.nl +:+ Format.nl)
             (context_parts (_build_general_context queries))
       ∧ sources result = plan_sources (_build_general_context queries)
       ∧ entities_found result = plan_count (_build_general_context queries)).
Proof.
  cbv zeta. set (e := extract_entities retriever user_query). intros Hintent.
  destruct (_build_investor_context_cases queries e) as [Hnone Hsome].
  assert (Hplan : intent_plan queries (get_query_intent e) e
                  = _build_investor_context queries e).
  { by rewrite Hintent. }
  split; [|split; [|split]].
  - split.
    + intros Htag. unfold build_context in Htag. cbv zeta in Htag.
      fold e in Htag. rewrite Hplan in Htag.
      destruct (context_parts (_build_investor_context queries e)) as [|b parts] eqn:E;
        cbn [sources] in Htag.
      { apply _build_general_context_sources in Htag as [Htag|Htag]; discriminate Htag. }
      destruct (investors e) as [|i rest] eqn:Ei.
      * split; [done|]. intros Htop. rewrite Hnone, Htop in E by done. discriminate E.
      * rewrite Hsome in Htag by done.
        apply investor_loop_sources in Htag as [Htag | (j & _ & Htag)].
        -- by apply elem_of_nil in Htag.
        -- discriminate Htag.
    + intros [Hno Htop].
      assert (Hshown : plan_sources (_build_investor_context queries e) = ["top_investors"]
                       ∧ context_parts (_build_investor_context queries e) ≠ []).
      { rewrite Hnone by done. by destruct (get_top_investors queries 10). }
      destruct Hshown as [Hsources Hparts].
      destruct (build_context_of_nonempty_plan queries retriever start_time end_time
                  user_query (_build_investor_context queries e) Hplan Hparts) as [_ ->].
      rewrite Hsources. apply list_elem_of_here.
  - intros Hno Htop. rewrite Hnone by done.
    by destruct (get_top_investors queries 10).
  - intros Hnamed b Hb. rewrite Hsome in Hb by done.
    apply investor_loop_parts in Hb as [Hb|Hb]; [by apply elem_of_nil in Hb | done].
  - intros Hnamed Hunknown.
    assert (Hempty : _build_investor_context queries e = Plan_new).
    { rewrite Hsome by done. by apply investor_loop_no_rows. }
    split; [done|]. unfold build_context. cbv zeta. fold e.
    by rewrite Hplan, Hempty.
Qed.

Lemma investor_plan_shows_named_investors_or_the_top_list_witness :
  context (build_context Sample.store GraphRetriever_class 0 0 "what did sequoia fund")
  = PyStr.join (Format.nl +:+ Format.nl)
      (context_parts (_build_general_context Sample.store))
  ∧ "top_investors"
    ∈ sources (build_context Sample.store GraphRetriever_class 0 0 "which investor").
Proof.
  destruct (investor_plan_shows_named_investors_or_the_top_list Sample.store
              GraphRetriever_class 0 0 "what did sequoia fund")
    as (_ & _ & _ & Hunknown); [vm_compute; reflexivity|].
  destruct (investor_plan_shows_named_investors_or_the_top_list Sample.store
              GraphRetriever_class 0 0 "which investor")
    as ([_ Hshown] & _); [vm_compute; reflexivity|].
  split.
  - apply Hunknown.
    + vm_compute. discriminate.
    + intros i Hi. vm_compute in Hi. apply list_elem_of_singleton in Hi. subst i.
      vm_compute. reflexivity.
  - apply Hshown. split; [vm_compute; reflexivity | vm_compute; discriminate].
Defined.

(** * The client: every outcome of [generate] *)

Module GenerateFacts.
Import OllamaClient.

Section Outcomes.

Variable settings : Settings.OllamaConfig.

Lemma handle_error_text (e : PyException) :
  handle (except_clauses settings) e
  = inr (failed (Settings.model settings) (error_text_of e)).
Proof.
  unfold except_clauses, error_text_of. simpl.
  destruct (is_ConnectionError e); [done|]. by destruct (is_Timeout e).
Qed.

Lemma get_of_dict (fields : gmap string Json) (key : string) (fallback : Json) :
  get (JDict fields) key fallback = inr (default fallback (fields !! key)).
Proof. reflexivity. Qed.

Lemma get_of_other (v : Json) (key : string) (fallback : Json) :
  (∀ fields, v ≠ JDict fields) →
  get v key fallback
  = inl (AttributeError ("'" +:+ type_name v +:+ "' object has no attribute 'get'")).
Proof. intros Hv. destruct v; try reflexivity. by destruct (Hv fields). Qed.

(** The body of the [try], case by case. *)
Lemma try_body_raised (post : Request → Raises Response) (payload : Request)
    (e : PyException) :
  post payload = inl e → try_body settings post payload = inl e.
Proof. intros H. unfold try_body. cbv zeta. by rewrite H. Qed.

Lemma try_body_bad_status (post : Request → Raises Response) (payload : Request)
    (response : Response) :
  post payload = inr response → status_code response ≠ 200%Z →
  try_body settings post payload
  = inr (failed (Settings.model settings)
           ("HTTP " +:+ PyStr.str_of_Z (status_code response) +:+ ": " +:+ text response)).
Proof.
  intros H Hs. unfold try_body. cbv zeta. rewrite H.
  cbn [mbind Raises_bind]. apply Z.eqb_neq in Hs. by rewrite Hs.
Qed.

Lemma try_body_no_json (post : Request → Raises Response) (payload : Request)
    (response : Response) (e : PyException) :
  post payload = inr response → status_code response = 200%Z →
  json response = inl e →
  try_body settings post payload = inl e.
Proof.
  intros H Hs Hj. unfold try_body. cbv zeta. rewrite H.
  cbn [mbind Raises_bind]. rewrite Hs. cbn [Z.eqb Pos.eqb]. by rewrite Hj.
Qed.

Lemma try_body_no_dict (post : Request → Raises Response) (payload : Request)
    (response : Response) (v : Json) :
  post payload = inr response → status_code response = 200%Z →
  json response = inr v → (∀ fields, v ≠ JDict fields) →
  try_body settings post payload
  = inl (AttributeError ("'" +:+ type_name v +:+ "' object has no attribute 'get'")).
Proof.
  intros H Hs Hj Hv. unfold try_body. cbv zeta. rewrite H.
  cbn [mbind Raises_bind]. rewrite Hs. cbn [Z.eqb Pos.eqb]. rewrite Hj.
  cbn [mbind Raises_bind]. rewrite (get_of_other v "response" (JStr "") Hv).
  reflexivity.
Qed.

Lemma try_body_dict (post : Request → Raises Response) (payload : Request)
    (response : Response) (fields : gmap string Json) :
  post payload = inr response → status_code response = 200%Z →
  json response = inr (JDict fields) →
  try_body settings post payload
  = match div_million (default (JInt 0) (fields !! "total_duration")) with
    | inl e => inl e
    | inr d =>
        inr {| content := default (JStr "") (fields !! "response");
               model := default (JStr (Settings.model settings)) (fields !! "model");
               total_duration_ms := d;
               eval_count := default (JInt 0) (fields !! "eval_count");
               success := true;
               error := None |}
    end.
Proof.
  intros H Hs Hj. unfold try_body. cbv zeta. rewrite H.
  cbn [mbind Raises_bind]. rewrite Hs. cbn [Z.eqb Pos.eqb]. rewrite Hj.
  cbn [mbind Raises_bind]. rewrite !get_of_dict. cbn [mbind Raises_bind].
  by destruct (div_million (default (JInt 0) (fields !! "total_duration"))).
Qed.

(** Every outcome of the body is one of the five cases. *)
Lemma try_body_cases (post : Request → Raises Response) (payload : Request) :
  (∃ e, try_body settings post payload = inl e)
  ∨ (∃ msg, try_body settings post payload = inr (failed (Settings.model settings) msg))
  ∨ (∃ response fields d,
        post payload = inr response ∧ status_code response = 200%Z
        ∧ json response = inr (JDict fields)
        ∧ div_million (default (JInt 0) (fields !! "total_duration")) = inr d
        ∧ try_body settings post payload
          = inr {| content := default (JStr "") (fields !! "response");
                   model := default (JStr (Settings.model settings)) (fields !! "model");
                   total_duration_ms := d;
                   eval_count := default (JInt 0) (fields !! "eval_count");
                   success := true;
                   error := None |}).
Proof.
  destruct (post payload) as [e|response] eqn:Hpost.
  { left. exists e. by apply try_body_raised. }
  destruct (decide (status_code response = 200%Z)) as [Hs|Hs].
  2:{ right. left. eexists. by apply try_body_bad_status. }
  destruct (json response) as [e|v] eqn:Hj.
  { left. exists e. by apply (try_body_no_json post payload response). }
  destruct v as [ | b | z | f | s | items | fields ].
  1-6: left; eexists;
    apply (try_body_no_dict post payload response _ Hpost Hs Hj); intros ? ?; discriminate.
  pose proof (try_body_dict post payload response fields Hpost Hs Hj) as Hbody.
  destruct (div_million (default (JInt 0) (fields !! "total_duration"))) as [e|d] eqn:Hd.
  { left. by exists e. }
  right. right. by exists response, fields, d.
Qed.

End Outcomes.

End GenerateFacts.

(** X13. Whatever the network does, the result of [generate] is either a
    success without an error text, or a failure that has an error text, the
    empty string as content, the configured model, no duration and no token
    count: [success] and [error] are never both set or both missing. *)
Theorem generate_result_is_success_or_failure
    (settings : OllamaClient.Settings.OllamaConfig)
    (post : OllamaClient.Request → OllamaClient.Raises OllamaClient.Response)
    (prompt context : string) (system_prompt : option string)
    (temperature_arg : option OllamaClient.Float) (max_tokens_arg : option Z) :
  ∃ r : OllamaClient.LLMResponse,
    OllamaClient.generate settings post prompt context system_prompt
      temperature_arg max_tokens_arg = inr r
    ∧ well_formed_result settings r.
Proof.
  unfold OllamaClient.generate. cbv zeta.
  set (payload := OllamaClient.build_request _ _ _ _ _ _).
  destruct (GenerateFacts.try_body_cases settings post payload)
    as [(e & ->) | [(msg & ->) | (response & fields & d & _ & _ & _ & _ & ->)]].
  - cbn [OllamaClient.try_except]. rewrite GenerateFacts.handle_error_text.
    eexists. split; [reflexivity|]. right. split; [reflexivity|]. by eexists.
  - eexists. split; [reflexivity|]. right. split; [reflexivity|]. by eexists.
  - eexists. split; [reflexivity|]. by left.
Qed.

(** X14. [generate] reports a success exactly when the endpoint answered
    with status 200 and a JSON object whose [total_duration] (0 when
    missing) can be divided by 1000000.  The result then carries the fields
    of the body as they are, unchecked: [response] (the empty string when
    missing), [model] (the configured model when missing), [eval_count] (0
    when missing) and the duration divided by 1000000. *)
Theorem success_carries_the_fields_of_the_body
    (settings : OllamaClient.Settings.OllamaConfig)
    (post : OllamaClient.Request → OllamaClient.Raises OllamaClient.Response)
    (prompt context : string) (system_prompt : option string)
    (temperature_arg : option OllamaClient.Float) (max_tokens_arg : option Z)
    (r : OllamaClient.LLMResponse) :
  (OllamaClient.generate settings post prompt context system_prompt
     temperature_arg max_tokens_arg = inr r
   ∧ OllamaClient.success r = true)
  ↔ ∃ response fields d,
      post (OllamaClient.build_request settings prompt context system_prompt
              temperature_arg max_tokens_arg) = inr response
      ∧ OllamaClient.status_code response = 200%Z
      ∧ OllamaClient.json response = inr (OllamaClient.JDict fields)
      ∧ OllamaClient.div_million
          (default (OllamaClient.JInt 0) (fields !! "total_duration")) = inr d
      ∧ r = {| OllamaClient.content :=
                 default (OllamaClient.JStr "") (fields !! "response");
               OllamaClient.model :=
                 default (OllamaClient.JStr (OllamaClient.Settings.model settings))
                         (fields !! "model");
               OllamaClient.total_duration_ms := d;
               OllamaClient.eval_count :=
                 default (OllamaClient.JInt 0) (fields !! "eval_count");
               OllamaClient.success := true;
               OllamaClient.error := None |}.
Proof.
  unfold OllamaClient.generate. cbv zeta.
  set (payload := OllamaClient.build_request _ _ _ _ _ _).
  split.
  - intros [Hr Hsuccess].
    destruct (GenerateFacts.try_body_cases settings post payload)
      as [(e & Hb) | [(msg & Hb) | (response & fields & d & Hp & Hs & Hj & Hd & Hb)]];
      rewrite Hb in Hr.
    + cbn [OllamaClient.try_except] in Hr.
      rewrite GenerateFacts.handle_error_text in Hr.
      injection Hr as <-. discriminate Hsuccess.
    + injection Hr as <-. discriminate Hsuccess.
    + injection Hr as <-. by exists response, fields, d.
  - intros (response & fields & d & Hp & Hs & Hj & Hd & ->).
    rewrite (GenerateFacts.try_body_dict settings post payload response fields Hp Hs Hj).
    rewrite Hd. by split.
Qed.

(** X15. The error text of every failure of [generate].  An exception of
    the request or of the decoding of the body gives the fixed connection
    text when it is a connection error (a connect timeout included, which
    the second clause never sees), the fixed timeout text when it is another
    timeout, and [str(e)] otherwise; a status other than 200 gives the
    status and the body text; a JSON body that is no object gives the text
    of the [AttributeError] of its [get]; a duration that cannot be divided
    gives the text of that exception. *)
Theorem failures_have_their_error_text
    (settings : OllamaClient.Settings.OllamaConfig)
    (post : OllamaClient.Request → OllamaClient.Raises OllamaClient.Response)
    (prompt context : string) (system_prompt : option string)
    (temperature_arg : option OllamaClient.Float) (max_tokens_arg : option Z) :
  let payload :=
    OllamaClient.build_request settings prompt context system_prompt
      temperature_arg max_tokens_arg in
  let result :=
    OllamaClient.generate settings post prompt context system_prompt
      temperature_arg max_tokens_arg in
  let failed := OllamaClient.failed (OllamaClient.Settings.model settings) in
  (∀ e, post payload = inl e → result = inr (failed (error_text_of e)))
  ∧ (∀ response, post payload = inr response →
       OllamaClient.status_code response ≠ 200%Z →
       result = inr (failed ("HTTP " +:+ PyStr.str_of_Z (OllamaClient.status_code response)
                             +:+ ": " +:+ OllamaClient.text response)))
  ∧ (∀ response e, post payload = inr response →
       OllamaClient.status_code response = 200%Z →
       OllamaClient.json response = inl e →
       result = inr (failed (error_text_of e)))
  ∧ (∀ response v, post payload = inr response →
       OllamaClient.status_code response = 200%Z →
       OllamaClient.json response = inr v →
       (∀ fields, v ≠ OllamaClient.JDict fields) →
       result = inr (failed ("'" +:+ OllamaClient.type_name v
                             +:+ "' object has no attribute 'get'")))
  ∧ (∀ response fields e, post payload = inr response →
       OllamaClient.status_code response = 200%Z →
       OllamaClient.json response = inr (OllamaClient.JDict fields) →
       OllamaClient.div_million
         (default (OllamaClient.JInt 0) (fields !! "total_duration")) = inl e →
       result = inr (failed (OllamaClient.str_exception e)))
  ∧ (∀ msg, error_text_of (OllamaClient.ConnectTimeout msg)
            = "Cannot connect to Ollama. Make sure it's running: `ollama serve`"
            ∧ error_text_of (OllamaClient.ReadTimeout msg)
              = "Request timed out. The model may be loading or overloaded.").
Proof.
  cbv zeta. unfold OllamaClient.generate. cbv zeta.
  set (payload := OllamaClient.build_request _ _ _ _ _ _).
  repeat split.
  - intros e Hp. rewrite (GenerateFacts.try_body_raised settings post payload e Hp).
    apply GenerateFacts.handle_error_text.
  - intros response Hp Hs.
    by rewrite (GenerateFacts.try_body_bad_status settings post payload response Hp Hs).
  - intros response e Hp Hs Hj.
    rewrite (GenerateFacts.try_body_no_json settings post payload response e Hp Hs Hj).
    apply GenerateFacts.handle_error_text.
  - intros response v Hp Hs Hj Hv.
    rewrite (GenerateFacts.try_body_no_dict settings post payload response v Hp Hs Hj Hv).
    apply GenerateFacts.handle_error_text.
  - intros response fields e Hp Hs Hj Hd.
    rewrite (GenerateFacts.try_body_dict settings post payload response fields Hp Hs Hj).
    rewrite Hd. cbn [OllamaClient.try_except].
    rewrite GenerateFacts.handle_error_text.
    unfold OllamaClient.div_million in Hd.
    destruct (default (OllamaClient.JInt 0) (fields !! "total_duration"))
      as [ | b | z | f | s | items | dict ]; try (injection Hd as <-; reflexivity).
    + discriminate Hd.
    + destruct (OllamaClient.true_divide_overflow <=? Z.abs z)%Z;
        [injection Hd as <-; reflexivity | discriminate Hd].
    + destruct f; discriminate Hd.
Qed.

Lemma failures_have_their_error_text_witness :
  OllamaClient.generate OllamaExamples.default_config
    (λ _, inl (OllamaClient.ConnectTimeout "connect timeout=60"))
    "Who are the top investors?" "" None None None
  = inr (OllamaClient.failed "mistral"
           "Cannot connect to Ollama. Make sure it's running: `ollama serve`").
Proof.
  destruct (failures_have_their_error_text OllamaExamples.default_config
              (λ _, inl (OllamaClient.ConnectTimeout "connect timeout=60"))
              "Who are the top investors?" "" None None None) as (Hraised & _).
  apply (Hraised (OllamaClient.ConnectTimeout "connect timeout=60")).
  reflexivity.
Defined.

(** X16. An argument of [generate] that Python counts as false is
    replaced by the configured value: the temperature 0 (and -0.0), the
    token limit 0 and the empty system prompt give the same request, hence
    the same result, as leaving the argument out.  So a caller cannot ask
    for the temperature 0 unless it is the configured one. *)
Theorem false_arguments_fall_back_to_the_settings
    (settings : OllamaClient.Settings.OllamaConfig)
    (post : OllamaClient.Request → OllamaClient.Raises OllamaClient.Response)
    (prompt context : string) (system_prompt : option string)
    (temperature_arg : option OllamaClient.Float) (max_tokens_arg : option Z) :
  OllamaClient.generate settings post prompt context (Some "")
    temperature_arg max_tokens_arg
  = OllamaClient.generate settings post prompt context None
      temperature_arg max_tokens_arg
  ∧ (∀ q, (q == 0)%Q →
       OllamaClient.generate settings post prompt context system_prompt
         (Some (OllamaClient.Finite q)) max_tokens_arg
       = OllamaClient.generate settings post prompt context system_prompt
           None max_tokens_arg)
  ∧ OllamaClient.generate settings post prompt context system_prompt
      temperature_arg (Some 0%Z)
    = OllamaClient.generate settings post prompt context system_prompt
        temperature_arg None.
Proof.
  repeat split.
  intros q Hq. apply Qeq_bool_iff in Hq.
  unfold OllamaClient.generate, OllamaClient.build_request, OllamaClient.or_float.
  cbv zeta. by rewrite Hq.
Qed.

Lemma false_arguments_fall_back_to_the_settings_witness :
  OllamaClient.generate OllamaExamples.default_config OllamaExamples.empty_object
    "q" "c" None (Some (OllamaClient.Finite (0 # 7))) None
  = OllamaClient.generate OllamaExamples.default_config OllamaExamples.empty_object
      "q" "c" None None None.
Proof.
  destruct (false_arguments_fall_back_to_the_settings OllamaExamples.default_config
              OllamaExamples.empty_object "q" "c" None None None)
    as (_ & Hzero & _).
  apply (Hzero (0 # 7)). reflexivity.
Defined.

(** * The client: the health check and the model list *)

Module TagsFacts.
Import OllamaClient OllamaTags.

Lemma names_of_dicts (ms : list (gmap string Json)) :
  names_of_items (JDict <$> ms) = inr ((λ m, default JNone (m !! "name")) <$> ms).
Proof.
  induction ms as [|m ms IH]; [reflexivity|].
  cbn [fmap list_fmap names_of_items get value mbind Raises_bind].
  change (list_fmap _ _ JDict ms) with (JDict <$> ms). rewrite IH. reflexivity.
Qed.

Lemma names_of_items_raises (before : list (gmap string Json)) (v : Json)
    (after : list Json) :
  (∀ entry, v ≠ JDict entry) →
  names_of_items ((JDict <$> before) ++ v :: after)
  = inl (AttributeError ("'" +:+ type_name v +:+ "' object has no attribute 'get'")).
Proof.
  intros Hv. induction before as [|m before IH].
  - cbn [fmap list_fmap app names_of_items].
    rewrite (GenerateFacts.get_of_other v "name" JNone Hv). reflexivity.
  - cbn [fmap list_fmap app names_of_items get value mbind Raises_bind].
    change (list_fmap _ _ JDict before) with (JDict <$> before).
    rewrite IH. reflexivity.
Qed.

Section TagsCases.

Variable settings : Settings.OllamaConfig.
Variable http_get : string → Z → Raises Response.

Lemma is_available_false :
  is_available settings http_get = inr false →
  (∃ e, http_get (tags_url settings) 2%Z = inl e ∧ is_RequestException e = true)
  ∨ (∃ response, http_get (tags_url settings) 2%Z = inr response
                 ∧ status_code response ≠ 200%Z).
Proof.
  unfold is_available.
  destruct (http_get (tags_url settings) 2%Z) as [e|response]; simpl.
  - destruct (is_RequestException e) eqn:E; [|discriminate]. intros _. left. by exists e.
  - intros H. right. exists response. split; [done|].
    injection H as H. by apply Z.eqb_neq.
Qed.

End TagsCases.

End TagsFacts.

(** X17. When the tags endpoint answers with status 200 and a JSON object
    whose [models] field is a list of objects, [get_available_models]
    returns one entry for each object, in the order of the list: its [name]
    field, or [None] when the object has none.  Nothing is left out and
    nothing is checked to be a string. *)
Theorem model_names_keep_the_order_of_the_body
    (settings : OllamaClient.Settings.OllamaConfig)
    (http_get : string → Z → OllamaClient.Raises OllamaClient.Response)
    (response : OllamaClient.Response)
    (fields : gmap string OllamaClient.Json)
    (models : list (gmap string OllamaClient.Json)) :
  http_get (OllamaTags.tags_url settings) 5%Z = inr response →
  OllamaClient.status_code response = 200%Z →
  OllamaClient.json response = inr (OllamaClient.JDict fields) →
  fields !! "models" = Some (OllamaClient.JList (OllamaClient.JDict <$> models)) →
  OllamaTags.get_available_models settings http_get
  = inr ((λ m, default OllamaClient.JNone (m !! "name")) <$> models).
Proof.
  intros Hget Hs Hj Hm. unfold OllamaTags.get_available_models.
  rewrite Hget. cbn [mbind OllamaClient.Raises_bind]. rewrite Hs.
  cbn [Z.eqb Pos.eqb]. rewrite Hj.
  cbn [mbind OllamaClient.Raises_bind OllamaClient.get OllamaClient.value].
  rewrite Hm. cbn [from_option id OllamaTags.names_of].
  by rewrite TagsFacts.names_of_dicts.
Qed.

Lemma model_names_keep_the_order_of_the_body_witness :
  OllamaTags.get_available_models OllamaExamples.default_config
    (λ _ _, inr OllamaTagsExamples.three_models)
  = inr [ OllamaClient.JStr "mistral:latest"; OllamaClient.JNone;
          OllamaClient.JStr "llama3" ].
Proof.
  apply (model_names_keep_the_order_of_the_body OllamaExamples.default_config
           (λ _ _, inr OllamaTagsExamples.three_models)
           OllamaTagsExamples.three_models
           {[ "models" :=
                OllamaClient.JList (OllamaClient.JDict <$> OllamaTagsExamples.entries) ]}
           OllamaTagsExamples.entries).
  - reflexivity.
  - reflexivity.
  - reflexivity.
  - apply lookup_singleton_eq.
Defined.

(** X18. Unlike [generate], [get_available_models] does not catch every
    exception.  When the tags endpoint answers with status 200 and a JSON
    value that is no object, the health check [is_available] returns true
    and [get_available_models] raises the [AttributeError] of [data.get] to
    its caller; the same happens when an entry of the [models] list is no
    object. *)
Theorem model_list_raises_on_unexpected_json
    (settings : OllamaClient.Settings.OllamaConfig)
    (http_get : string → Z → OllamaClient.Raises OllamaClient.Response)
    (response : OllamaClient.Response) :
  OllamaClient.status_code response = 200%Z →
  (http_get (OllamaTags.tags_url settings) 2%Z = inr response →
     OllamaTags.is_available settings http_get = inr true)
  ∧ (∀ v, http_get (OllamaTags.tags_url settings) 5%Z = inr response →
       OllamaClient.json response = inr v →
       (∀ fields, v ≠ OllamaClient.JDict fields) →
       OllamaTags.get_available_models settings http_get
       = inl (OllamaClient.AttributeError
                ("'" +:+ OllamaClient.type_name v +:+ "' object has no attribute 'get'")))
  ∧ (∀ fields before v after,
       http_get (OllamaTags.tags_url settings) 5%Z = inr response →
       OllamaClient.json response = inr (OllamaClient.JDict fields) →
       fields !! "models"
       = Some (OllamaClient.JList ((OllamaClient.JDict <$> before) ++ v :: after)) →
       (∀ entry, v ≠ OllamaClient.JDict entry) →
       OllamaTags.get_available_models settings http_get
       = inl (OllamaClient.AttributeError
                ("'" +:+ OllamaClient.type_name v +:+ "' object has no attribute 'get'"))).
Proof.
  intros Hs. repeat split.
  - intros Hget. unfold OllamaTags.is_available. rewrite Hget.
    cbn [mbind OllamaClient.Raises_bind]. by rewrite Hs.
  - intros v Hget Hj Hv. unfold OllamaTags.get_available_models. rewrite Hget.
    cbn [mbind OllamaClient.Raises_bind]. rewrite Hs. cbn [Z.eqb Pos.eqb]. rewrite Hj.
    cbn [mbind OllamaClient.Raises_bind].
    rewrite (GenerateFacts.get_of_other v "models" (OllamaClient.JList []) Hv).
    reflexivity.
  - intros fields before v after Hget Hj Hm Hv.
    unfold OllamaTags.get_available_models. rewrite Hget.
    cbn [mbind OllamaClient.Raises_bind]. rewrite Hs. cbn [Z.eqb Pos.eqb]. rewrite Hj.
    cbn [mbind OllamaClient.Raises_bind OllamaClient.get OllamaClient.value].
    rewrite Hm. cbn [from_option id OllamaTags.names_of].
    rewrite (TagsFacts.names_of_items_raises before v after Hv). reflexivity.
Qed.

Lemma model_list_raises_on_unexpected_json_witness :
  OllamaTags.is_available OllamaExamples.default_config
    (λ _ _, inr OllamaTagsExamples.empty_list)
  = inr true
  ∧ OllamaTags.get_available_models OllamaExamples.default_config
      (λ _ _, inr OllamaTagsExamples.empty_list)
    = inl (OllamaClient.AttributeError "'list' object has no attribute 'get'").
Proof.
  destruct (model_list_raises_on_unexpected_json OllamaExamples.default_config
              (λ _ _, inr OllamaTagsExamples.empty_list)
              OllamaTagsExamples.empty_list)
    as (Havailable & Hraises & _); [reflexivity|].
  split.
  - apply Havailable. reflexivity.
  - apply (Hraises (OllamaClient.JList [])); [reflexivity | reflexivity |].
    intros fields H. discriminate H.
Defined.

(** X19. When the health check says that the service is not available,
    the model list is empty and nothing is raised: a refused connection, a
    timeout and a status other than 200 all give [[]], the answer of a
    service that has no model.  (The network is taken to answer the two
    requests, which differ in their timeout, alike.) *)
Theorem unavailable_service_lists_no_model
    (settings : OllamaClient.Settings.OllamaConfig)
    (http_get : string → Z → OllamaClient.Raises OllamaClient.Response) :
  http_get (OllamaTags.tags_url settings) 5%Z
  = http_get (OllamaTags.tags_url settings) 2%Z →
  OllamaTags.is_available settings http_get = inr false →
  OllamaTags.get_available_models settings http_get = inr [].
Proof.
  intros Hsame Hfalse.
  destruct (TagsFacts.is_available_false settings http_get Hfalse)
    as [(e & Hget & He) | (response & Hget & Hs)];
    unfold OllamaTags.get_available_models; rewrite Hsame, Hget.
  - cbn [mbind OllamaClient.Raises_bind OllamaClient.try_except OllamaClient.handle].
    by rewrite He.
  - cbn [mbind OllamaClient.Raises_bind]. apply Z.eqb_neq in Hs. by rewrite Hs.
Qed.

Lemma unavailable_service_lists_no_model_witness :
  OllamaTags.get_available_models OllamaExamples.default_config
    (λ _ _, inl (OllamaClient.ConnectionError "Connection refused"))
  = inr [].
Proof.
  apply (unavailable_service_lists_no_model OllamaExamples.default_config
           (λ _ _, inl (OllamaClient.ConnectionError "Connection refused"))).
  - reflexivity.
  - reflexivity.
Defined.

(** * The lookups on the graph *)

(** ** Sorted and capped lists *)

Section SortedAndCapped.

Context {A : Type} (R : relation A).
Context `{!∀ x y, Decision (R x y)} `{!Transitive R} `{!Total R}.

Lemma take_merge_sort_StronglySorted (n : nat) (l : list A) :
  StronglySorted R (take n (merge_sort R l)).
Proof.
  pose proof (StronglySorted_merge_sort R l) as Hsorted.
  rewrite <- (take_drop n (merge_sort R l)) in Hsorted.
  by apply StronglySorted_app_1_l in Hsorted.
Qed.

Lemma take_merge_sort_elem_of (n : nat) (l : list A) (x : A) :
  x ∈ take n (merge_sort R l) → x ∈ l.
Proof.
  intros Hx. rewrite <- (merge_sort_Permutation R l).
  rewrite <- (take_drop n (merge_sort R l)). apply elem_of_app. by left.
Qed.

(** What the cap leaves out comes after everything it keeps. *)
Lemma take_merge_sort_dominates (n : nat) (l : list A) (x : A) :
  x ∈ l →
  x ∈ take n (merge_sort R l)
  ∨ (length (take n (merge_sort R l)) = n
     ∧ ∀ r, r ∈ take n (merge_sort R l) → R r x).
Proof.
  intros Hx. rewrite <- (merge_sort_Permutation R l) in Hx.
  rewrite <- (take_drop n (merge_sort R l)) in Hx.
  apply elem_of_app in Hx as [Hx|Hx]; [by left|]. right. split.
  - rewrite length_take. apply Nat.min_l.
    destruct (decide (n <= length (merge_sort R l))%nat) as [Hn|Hn]; [done|].
    rewrite drop_ge in Hx by lia. by apply elem_of_nil in Hx.
  - intros r Hr. pose proof (StronglySorted_merge_sort R l) as Hsorted.
    rewrite <- (take_drop n (merge_sort R l)) in Hsorted.
    by apply (StronglySorted_app_1_elem_of R _ _ r x Hsorted).
Qed.

Lemma StronglySorted_lookup (l : list A) (i j : nat) (a b : A) :
  StronglySorted R l → (i < j)%nat → l !! i = Some a → l !! j = Some b → R a b.
Proof.
  intros Hsorted. revert i j. induction Hsorted as [|x l Hsorted IH Hall];
    intros i j Hij Hi Hj; [by rewrite lookup_nil in Hi|].
  destruct j as [|j]; [lia|]. destruct i as [|i].
  - injection Hi as <-. rewrite Forall_forall in Hall. apply Hall.
    by apply (list_elem_of_lookup_2 l j).
  - apply (IH i j); [lia|done|done].
Qed.

End SortedAndCapped.

Module CypherFacts.
Import Cypher CypherQueries.

Lemma Qle_bool_total (x y : Q) : Is_true (Qle_bool x y) ∨ Is_true (Qle_bool y x).
Proof.
  destruct (Qlt_le_dec x y) as [H|H].
  - left. apply Is_true_true, Qle_bool_iff. by apply Qlt_le_weak.
  - right. by apply Is_true_true, Qle_bool_iff.
Qed.

Lemma Qle_bool_trans (x y z : Q) :
  Is_true (Qle_bool x y) → Is_true (Qle_bool y z) → Is_true (Qle_bool x z).
Proof.
  rewrite !Is_true_true, !Qle_bool_iff. apply Qle_trans.
Qed.

#[global] Instance valuation_desc_total : Total valuation_desc.
Proof.
  intros r1 r2. unfold valuation_desc.
  destruct (sc_valuation r1) as [v1|], (sc_valuation r2) as [v2|]; auto.
  destruct (Qle_bool_total (number_value v2) (number_value v1)); auto.
Qed.

#[global] Instance valuation_desc_trans : Transitive valuation_desc.
Proof.
  intros r1 r2 r3. unfold valuation_desc.
  destruct (sc_valuation r1) as [v1|], (sc_valuation r2) as [v2|],
    (sc_valuation r3) as [v3|]; try done.
  intros H12 H23. by apply (Qle_bool_trans _ (number_value v2)).
Qed.

#[global] Instance company_valuation_desc_total : Total company_valuation_desc.
Proof.
  intros r1 r2. unfold company_valuation_desc.
  destruct (cr_valuation r1) as [v1|], (cr_valuation r2) as [v2|]; auto.
  destruct (Qle_bool_total (number_value v2) (number_value v1)); auto.
Qed.

#[global] Instance company_valuation_desc_trans : Transitive company_valuation_desc.
Proof.
  intros r1 r2 r3. unfold company_valuation_desc.
  destruct (cr_valuation r1) as [v1|], (cr_valuation r2) as [v2|],
    (cr_valuation r3) as [v3|]; try done.
  intros H12 H23. by apply (Qle_bool_trans _ (number_value v2)).
Qed.

Lemma limit_rows_take {A : Type} (limit : Z) (rows : list A) :
  (0 ≤ limit)%Z → limit_rows limit rows = inr (take (Z.to_nat limit) rows).
Proof.
  intros H. unfold limit_rows.
  destruct (limit <? 0)%Z eqn:E; [apply Z.ltb_lt in E; lia | done].
Qed.

(** The rows of [MATCH (c:Company)-[:OPERATES_IN]->(s:Sector)]. *)
Lemma elem_of_match_operates_in (g : Graph) (ci : nat) (c : CompanyNode)
    (s : option string) :
  (ci, c, s) ∈ match_operates_in g
  ↔ ∃ si, (ci, si) ∈ OPERATES_IN g ∧ Company g !! ci = Some c ∧ Sector g !! si = Some s.
Proof.
  unfold match_operates_in. rewrite list_elem_of_omap. split.
  - intros ([cj si] & Hin & Hrow).
    destruct (Company g !! cj) as [c'|] eqn:Ec; [|discriminate].
    destruct (Sector g !! si) as [s'|] eqn:Es; [|discriminate].
    simpl in Hrow. injection Hrow as -> -> ->. by exists si.
  - intros (si & Hin & Hc & Hs). exists (ci, si). split; [done|].
    rewrite Hc. simpl. by rewrite Hs.
Qed.

Lemma elem_of_match_located_in (g : Graph) (ci : nat) (c : CompanyNode)
    (l : option string) :
  (ci, c, l) ∈ match_located_in g
  ↔ ∃ li, (ci, li) ∈ LOCATED_IN g ∧ Company g !! ci = Some c ∧ Location g !! li = Some l.
Proof.
  unfold match_located_in. rewrite list_elem_of_omap. split.
  - intros ([cj li] & Hin & Hrow).
    destruct (Company g !! cj) as [c'|] eqn:Ec; [|discriminate].
    destruct (Location g !! li) as [l'|] eqn:El; [|discriminate].
    simpl in Hrow. injection Hrow as -> -> ->. by exists li.
  - intros (li & Hin & Hc & Hl). exists (ci, li). split; [done|].
    rewrite Hc. simpl. by rewrite Hl.
Qed.

Lemma elem_of_match_company (g : Graph) (ci : nat) (c : CompanyNode) :
  (ci, c) ∈ match_company g ↔ Company g !! ci = Some c.
Proof.
  unfold match_company. rewrite list_elem_of_lookup. split.
  - intros (i & Hi). apply lookup_zip_with_Some in Hi as (x & y & Hxy & Hx & Hy).
    injection Hxy as -> ->. apply lookup_seq in Hx as [-> _]. done.
  - intros Hc. exists ci. apply lookup_zip_with_Some. exists ci, c.
    split; [done|]. split; [|done]. apply lookup_seq. split; [done|].
    by apply lookup_lt_Some in Hc.
Qed.

(** An [OPTIONAL MATCH] gives at least one row. *)
Lemma optional_match_specializes_in_nonempty (g : Graph) (ci : nat) :
  ∃ ss, ss ∈ optional_match_specializes_in g ci.
Proof.
  unfold optional_match_specializes_in.
  destruct (omap _ (SPECIALIZES_IN g)) as [|ss found].
  - exists None. apply list_elem_of_here.
  - exists ss. apply list_elem_of_here.
Qed.

Lemma optional_match_operates_in_nonempty (g : Graph) (ci : nat) :
  ∃ s, s ∈ optional_match_operates_in g ci.
Proof.
  unfold optional_match_operates_in.
  destruct (omap _ (OPERATES_IN g)) as [|s found].
  - exists None. apply list_elem_of_here.
  - exists s. apply list_elem_of_here.
Qed.

Lemma elem_of_company_rows (g : Graph) (ci : nat) (c : CompanyNode) (r : CompanyRow) :
  r ∈ company_rows g ci c
  ↔ ∃ s, s ∈ optional_match_operates_in g ci
         ∧ r = {| cr_company := name c; cr_valuation := currentValuation c;
                  cr_sector := s |}.
Proof.
  unfold company_rows. rewrite list_elem_of_In, in_map_iff. split.
  - intros (s & <- & Hs). exists s. by rewrite list_elem_of_In.
  - intros (s & Hs & ->). exists s. by rewrite <- list_elem_of_In.
Qed.

End CypherFacts.

Import (hints) Cypher CypherQueries.

(** X20. The rows of the sector lookup come in the order of the query:
    the rows of companies without a valuation first, then the others from
    the highest valuation to the lowest.  So with a cap the companies
    without a valuation are the ones that are kept. *)
Theorem sector_lookup_lists_unvalued_companies_first
    (g : Cypher.Graph) (sector_name : string) (limit : Z) :
  (0 ≤ limit)%Z →
  ∃ rows, Cypher.get_sector_companies g sector_name limit = inr rows
    ∧ ∀ (i j : nat) (r1 r2 : SectorCompanyRow),
        (i < j)%nat → rows !! i = Some r1 → rows !! j = Some r2 →
        (sc_valuation r2 = None → sc_valuation r1 = None)
        ∧ (∀ v1 v2, sc_valuation r1 = Some v1 → sc_valuation r2 = Some v2 →
             (number_value v2 <= number_value v1)%Q).
Proof.
  intros Hlimit. unfold Cypher.get_sector_companies. cbv zeta.
  rewrite CypherFacts.limit_rows_take by done.
  eexists. split; [reflexivity|].
  intros i j r1 r2 Hij H1 H2.
  pose proof (StronglySorted_lookup Cypher.valuation_desc _ i j r1 r2
                (take_merge_sort_StronglySorted Cypher.valuation_desc _ _) Hij H1 H2)
    as Hdesc.
  unfold Cypher.valuation_desc in Hdesc. split.
  - intros Hnone. rewrite Hnone in Hdesc. by destruct (sc_valuation r1).
  - intros v1 v2 Hv1 Hv2. rewrite Hv1, Hv2 in Hdesc.
    by apply Qle_bool_iff, Is_true_true.
Qed.

Lemma sector_lookup_lists_unvalued_companies_first_witness :
  ∃ rows, Cypher.get_sector_companies SampleGraph.graph "fintech" 3 = inr rows
    ∧ ∀ (i j : nat) (r1 r2 : SectorCompanyRow),
        (i < j)%nat → rows !! i = Some r1 → rows !! j = Some r2 →
        (sc_valuation r2 = None → sc_valuation r1 = None)
        ∧ (∀ v1 v2, sc_valuation r1 = Some v1 → sc_valuation r2 = Some v2 →
             (number_value v2 <= number_value v1)%Q).
Proof.
  apply (sector_lookup_lists_unvalued_companies_first SampleGraph.graph "fintech" 3).
  lia.
Defined.

(** X21. What the sector lookup returns and what it leaves out.  Every
    row stands for a company with an [OPERATES_IN] relationship to a sector
    whose name contains the search term, letter case ignored, and carries
    one of its sub-sectors (or none).  Every such company has a row in the
    answer, unless the cap is reached and every row of the answer comes
    before the company's in the order of the query. *)
Theorem sector_lookup_returns_the_matching_companies
    (g : Cypher.Graph) (sector_name : string) (limit : Z) :
  (0 ≤ limit)%Z →
  ∃ rows, Cypher.get_sector_companies g sector_name limit = inr rows
    ∧ (∀ r, r ∈ rows →
         ∃ ci si c s ss,
           (ci, si) ∈ Cypher.OPERATES_IN g
           ∧ Cypher.Company g !! ci = Some c
           ∧ Cypher.Sector g !! si = Some s
           ∧ Cypher.lower_contains s sector_name = true
           ∧ ss ∈ Cypher.optional_match_specializes_in g ci
           ∧ r = {| sc_company := Cypher.name c;
                    sc_valuation := Cypher.currentValuation c;
                    sc_subsector := ss |})
    ∧ (∀ ci si c s,
         (ci, si) ∈ Cypher.OPERATES_IN g →
         Cypher.Company g !! ci = Some c →
         Cypher.Sector g !! si = Some s →
         Cypher.lower_contains s sector_name = true →
         ∃ row, sc_company row = Cypher.name c
                ∧ sc_valuation row = Cypher.currentValuation c
                ∧ (row ∈ rows
                   ∨ (Z.of_nat (length rows) = limit
                      ∧ ∀ r, r ∈ rows → Cypher.valuation_desc r row))).
Proof.
  intros Hlimit. unfold Cypher.get_sector_companies. cbv zeta.
  rewrite CypherFacts.limit_rows_take by done.
  set (matched := filter _ (Cypher.match_operates_in g)).
  set (all_rows := matched ≫= _).
  assert (Hall : ∀ r, r ∈ all_rows ↔
            ∃ ci c s ss, (ci, c, s) ∈ Cypher.match_operates_in g
              ∧ Cypher.lower_contains s sector_name = true
              ∧ ss ∈ Cypher.optional_match_specializes_in g ci
              ∧ r = {| sc_company := Cypher.name c;
                       sc_valuation := Cypher.currentValuation c;
                       sc_subsector := ss |}).
  { intros r. unfold all_rows, matched. rewrite list_elem_of_bind. split.
    - intros ([[ci c] s] & Hr & Hm). apply list_elem_of_filter in Hm as [Hs Hm].
      apply list_elem_of_In, in_map_iff in Hr as (ss & <- & Hss).
      apply list_elem_of_In in Hss. by exists ci, c, s, ss.
    - intros (ci & c & s & ss & Hm & Hs & Hss & ->). exists (ci, c, s). split.
      + apply list_elem_of_In, in_map_iff. exists ss. by rewrite <- list_elem_of_In.
      + by apply list_elem_of_filter. }
  eexists. split; [reflexivity|]. split.
  - intros r Hr. apply take_merge_sort_elem_of in Hr.
    apply Hall in Hr as (ci & c & s & ss & Hm & Hs & Hss & ->).
    apply CypherFacts.elem_of_match_operates_in in Hm as (si & Hin & Hc & Hsec).
    by exists ci, si, c, s, ss.
  - intros ci si c s Hin Hc Hsec Hs.
    destruct (CypherFacts.optional_match_specializes_in_nonempty g ci) as (ss & Hss).
    set (row := {| sc_company := Cypher.name c;
                   sc_valuation := Cypher.currentValuation c;
                   sc_subsector := ss |}).
    assert (Hrow : row ∈ all_rows).
    { apply Hall. exists ci, c, s, ss. repeat split; try done.
      apply CypherFacts.elem_of_match_operates_in. by exists si. }
    exists row. split; [done|]. split; [done|].
    destruct (take_merge_sort_dominates Cypher.valuation_desc (Z.to_nat limit)
                all_rows row Hrow) as [Hkept | [Hlen Hbefore]].
    + by left.
    + right. split; [|done]. rewrite Hlen. lia.
Qed.

Lemma sector_lookup_returns_the_matching_companies_witness :
  ∃ rows, Cypher.get_sector_companies SampleGraph.graph "fintech" 3 = inr rows
    ∧ ∀ r, r ∈ rows → ∃ c, c ∈ Cypher.Company SampleGraph.graph
                           ∧ sc_company r = Cypher.name c.
Proof.
  destruct (sector_lookup_returns_the_matching_companies SampleGraph.graph "fintech" 3)
    as (rows & Hrows & Hsound & _); [lia|].
  exists rows. split; [exact Hrows|].
  intros r Hr. destruct (Hsound r Hr) as (ci & si & c & s & ss & _ & Hc & _ & _ & _ & ->).
  exists c. split; [|reflexivity]. by apply (list_elem_of_lookup_2 _ ci).
Defined.

(** X22. The list of the top companies is a top list: with a cap that is
    not negative it has at most [limit] rows, every row has a valuation (a
    company without one is never listed, unlike in the sector lookup), the
    rows go from the highest valuation to the lowest, and a company with a
    valuation that has no row in the answer is valued at most as high as
    every row of the answer. *)
Theorem top_companies_are_the_highest_valued
    (g : Cypher.Graph) (limit : Z) :
  (0 ≤ limit)%Z →
  ∃ rows, CypherQueries.get_top_companies g limit = inr rows
    ∧ (Z.of_nat (length rows) ≤ limit)%Z
    ∧ (∀ r, r ∈ rows →
         ∃ c v, c ∈ Cypher.Company g
                ∧ cr_company r = Cypher.name c
                ∧ Cypher.currentValuation c = Some v
                ∧ cr_valuation r = Some v)
    ∧ (∀ (i j : nat) (r1 r2 : CompanyRow) v1 v2,
         (i < j)%nat → rows !! i = Some r1 → rows !! j = Some r2 →
         cr_valuation r1 = Some v1 → cr_valuation r2 = Some v2 →
         (number_value v2 <= number_value v1)%Q)
    ∧ (∀ c v, c ∈ Cypher.Company g → Cypher.currentValuation c = Some v →
         (∃ r, r ∈ rows ∧ cr_company r = Cypher.name c ∧ cr_valuation r = Some v)
         ∨ (Z.of_nat (length rows) = limit
            ∧ ∀ r, r ∈ rows →
                ∃ v', cr_valuation r = Some v'
                      ∧ (number_value v <= number_value v')%Q)).
Proof.
  intros Hlimit. unfold CypherQueries.get_top_companies. cbv zeta.
  rewrite CypherFacts.limit_rows_take by done.
  set (matched := filter _ (CypherQueries.match_company g)).
  set (all_rows := matched ≫= _).
  assert (Hall : ∀ r, r ∈ all_rows ↔
            ∃ ci c s, Cypher.Company g !! ci = Some c
              ∧ Cypher.currentValuation c ≠ None
              ∧ s ∈ CypherQueries.optional_match_operates_in g ci
              ∧ r = {| cr_company := Cypher.name c;
                       cr_valuation := Cypher.currentValuation c;
                       cr_sector := s |}).
  { intros r. unfold all_rows, matched. rewrite list_elem_of_bind. split.
    - intros ([ci c] & Hr & Hm). apply list_elem_of_filter in Hm as [Hv Hm].
      apply CypherFacts.elem_of_company_rows in Hr as (s & Hs & ->).
      apply CypherFacts.elem_of_match_company in Hm. by exists ci, c, s.
    - intros (ci & c & s & Hc & Hv & Hs & ->). exists (ci, c). split.
      + apply CypherFacts.elem_of_company_rows. by exists s.
      + apply list_elem_of_filter. split; [done|].
        by apply CypherFacts.elem_of_match_company. }
  assert (Hvalued : ∀ r, r ∈ take (Z.to_nat limit)
                           (merge_sort CypherQueries.company_valuation_desc all_rows) →
            ∃ c v, c ∈ Cypher.Company g ∧ cr_company r = Cypher.name c
                   ∧ Cypher.currentValuation c = Some v ∧ cr_valuation r = Some v).
  { intros r Hr. apply take_merge_sort_elem_of in Hr.
    apply Hall in Hr as (ci & c & s & Hc & Hv & Hs & ->).
    destruct (Cypher.currentValuation c) as [v|] eqn:Ev; [|done].
    exists c, v. repeat split; try done. by apply (list_elem_of_lookup_2 _ ci). }
  eexists. split; [reflexivity|]. split; [rewrite length_take; lia|].
  split; [exact Hvalued|]. split.
  - intros i j r1 r2 v1 v2 Hij H1 H2 Hv1 Hv2.
    pose proof (StronglySorted_lookup CypherQueries.company_valuation_desc _ i j r1 r2
                  (take_merge_sort_StronglySorted CypherQueries.company_valuation_desc _ _)
                  Hij H1 H2) as Hdesc.
    unfold CypherQueries.company_valuation_desc in Hdesc. rewrite Hv1, Hv2 in Hdesc.
    by apply Qle_bool_iff, Is_true_true.
  - intros c v Hc Hv. apply list_elem_of_lookup in Hc as (ci & Hc).
    destruct (CypherFacts.optional_match_operates_in_nonempty g ci) as (s & Hs).
    set (row := {| cr_company := Cypher.name c;
                   cr_valuation := Cypher.currentValuation c;
                   cr_sector := s |}).
    assert (Hrow : row ∈ all_rows).
    { apply Hall. exists ci, c, s. repeat split; try done. by rewrite Hv. }
    destruct (take_merge_sort_dominates CypherQueries.company_valuation_desc
                (Z.to_nat limit) all_rows row Hrow) as [Hkept | [Hlen Hbefore]].
    + left. exists row. by repeat split.
    + right. split; [rewrite Hlen; lia|].
      intros r Hr. destruct (Hvalued r Hr) as (c' & v' & _ & _ & _ & Hv').
      exists v'. split; [done|]. specialize (Hbefore r Hr).
      unfold CypherQueries.company_valuation_desc in Hbefore.
      rewrite Hv' in Hbefore. simpl in Hbefore. rewrite Hv in Hbefore.
      by apply Qle_bool_iff, Is_true_true.
Qed.

Lemma top_companies_are_the_highest_valued_witness :
  ∃ rows, CypherQueries.get_top_companies SampleGraph.graph 3 = inr rows
          ∧ (Z.of_nat (length rows) ≤ 3)%Z.
Proof.
  destruct (top_companies_are_the_highest_valued SampleGraph.graph 3)
    as (rows & Hrows & Hlen & _); [lia|].
  by exists rows.
Defined.

(** X23. The city lookup has the contract of the sector lookup: every row
    stands for a company with a [LOCATED_IN] relationship to a location
    whose city contains the search term, letter case ignored; the rows of
    companies without a valuation come first and the others follow from the
    highest valuation to the lowest; and a matching company has a row in the
    answer unless the cap is reached and every row of the answer comes
    before the company's. *)
Theorem city_lookup_returns_the_matching_companies
    (g : Cypher.Graph) (city : string) (limit : Z) :
  (0 ≤ limit)%Z →
  ∃ rows, CypherQueries.get_city_companies g city limit = inr rows
    ∧ (Z.of_nat (length rows) ≤ limit)%Z
    ∧ (∀ r, r ∈ rows →
         ∃ ci li c l,
           (ci, li) ∈ Cypher.LOCATED_IN g
           ∧ Cypher.Company g !! ci = Some c
           ∧ Cypher.Location g !! li = Some l
           ∧ Cypher.lower_contains l city = true
           ∧ cr_company r = Cypher.name c
           ∧ cr_valuation r = Cypher.currentValuation c)
    ∧ (∀ (i j : nat) (r1 r2 : CompanyRow),
         (i < j)%nat → rows !! i = Some r1 → rows !! j = Some r2 →
         CypherQueries.company_valuation_desc r1 r2)
    ∧ (∀ ci li c l,
         (ci, li) ∈ Cypher.LOCATED_IN g →
         Cypher.Company g !! ci = Some c →
         Cypher.Location g !! li = Some l →
         Cypher.lower_contains l city = true →
         ∃ row, cr_company row = Cypher.name c
                ∧ cr_valuation row = Cypher.currentValuation c
                ∧ (row ∈ rows
                   ∨ (Z.of_nat (length rows) = limit
                      ∧ ∀ r, r ∈ rows → CypherQueries.company_valuation_desc r row))).
Proof.
  intros Hlimit. unfold CypherQueries.get_city_companies. cbv zeta.
  rewrite CypherFacts.limit_rows_take by done.
  set (matched := filter _ (CypherQueries.match_located_in g)).
  set (all_rows := matched ≫= _).
  assert (Hall : ∀ r, r ∈ all_rows ↔
            ∃ ci c l s, (ci, c, l) ∈ CypherQueries.match_located_in g
              ∧ Cypher.lower_contains l city = true
              ∧ s ∈ CypherQueries.optional_match_operates_in g ci
              ∧ r = {| cr_company := Cypher.name c;
                       cr_valuation := Cypher.currentValuation c;
                       cr_sector := s |}).
  { intros r. unfold all_rows, matched. rewrite list_elem_of_bind. split.
    - intros ([[ci c] l] & Hr & Hm). apply list_elem_of_filter in Hm as [Hl Hm].
      apply CypherFacts.elem_of_company_rows in Hr as (s & Hs & ->).
      by exists ci, c, l, s.
    - intros (ci & c & l & s & Hm & Hl & Hs & ->). exists (ci, c, l). split.
      + apply CypherFacts.elem_of_company_rows. by exists s.
      + by apply list_elem_of_filter. }
  eexists. split; [reflexivity|]. split; [rewrite length_take; lia|].
  split; [|split].
  - intros r Hr. apply take_merge_sort_elem_of in Hr.
    apply Hall in Hr as (ci & c & l & s & Hm & Hl & Hs & ->).
    apply CypherFacts.elem_of_match_located_in in Hm as (li & Hin & Hc & Hloc).
    by exists ci, li, c, l.
  - intros i j r1 r2 Hij H1 H2.
    exact (StronglySorted_lookup CypherQueries.company_valuation_desc _ i j r1 r2
             (take_merge_sort_StronglySorted CypherQueries.company_valuation_desc _ _)
             Hij H1 H2).
  - intros ci li c l Hin Hc Hloc Hl.
    destruct (CypherFacts.optional_match_operates_in_nonempty g ci) as (s & Hs).
    set (row := {| cr_company := Cypher.name c;
                   cr_valuation := Cypher.currentValuation c;
                   cr_sector := s |}).
    assert (Hrow : row ∈ all_rows).
    { apply Hall. exists ci, c, l, s. repeat split; try done.
      apply CypherFacts.elem_of_match_located_in. by exists li. }
    exists row. split; [done|]. split; [done|].
    destruct (take_merge_sort_dominates CypherQueries.company_valuation_desc
                (Z.to_nat limit) all_rows row Hrow) as [Hkept | [Hlen Hbefore]].
    + by left.
    + right. split; [|done]. rewrite Hlen. lia.
Qed.

Lemma city_lookup_returns_the_matching_companies_witness :
  ∃ rows, CypherQueries.get_city_companies SampleGraph.graph "BANGALORE" 5 = inr rows
          ∧ (Z.of_nat (length rows) ≤ 5)%Z.
Proof.
  destruct (city_lookup_returns_the_matching_companies SampleGraph.graph "BANGALORE" 5)
    as (rows & Hrows & Hlen & _); [lia|].
  by exists rows.
Defined.

(** X24. The graph statistics are empty as soon as the graph has no
    investor, no sector, no location or no relationship, however many
    companies it has: each [MATCH] of the query that finds nothing leaves no
    row to count.  A graph without companies still has statistics, with the
    company count 0.  When the statistics are not empty, each count is the
    number of nodes of its label and of relationships. *)
Theorem graph_stats_are_empty_when_a_label_is_missing (g : Cypher.Graph) :
  (CypherQueries.get_graph_stats g = None
   ↔ Cypher.Investor g = [] ∨ Cypher.Sector g = [] ∨ Cypher.Location g = []
     ∨ CypherQueries.match_relationships g = [])
  ∧ (∀ stats, CypherQueries.get_graph_stats g = Some stats →
       stats = {| gs_companies := length (Cypher.Company g);
                  gs_investors := length (Cypher.Investor g);
                  gs_sectors := length (Cypher.Sector g);
                  gs_locations := length (Cypher.Location g);
                  gs_relationships := length (CypherQueries.match_relationships g) |}).
Proof.
  unfold CypherQueries.get_graph_stats, CypherQueries.with_count. cbv zeta.
  destruct (Cypher.Investor g) as [|i is_]; simpl.
  { split; [split; [by left | done] | done]. }
  destruct (Cypher.Sector g) as [|s ss]; simpl.
  { split; [split; [by right; left | done] | done]. }
  destruct (Cypher.Location g) as [|l ls]; simpl.
  { split; [split; [by right; right; left | done] | done]. }
  destruct (CypherQueries.match_relationships g) as [|r rs]; simpl.
  { split; [split; [by right; right; right | done] | done]. }
  split.
  - split; [done|]. by intros [H | [H | [H | H]]].
  - by intros stats [= <-].
Qed.

(** * The statistics blocks *)

(** X25. The statistics blocks show the first eight rows and no more.
    The location plan hands the first ten rows of the location statistics to
    the formatter, but its block is the block of the first eight: the ninth
    and the tenth city never reach the context. *)
Theorem statistics_blocks_show_eight_rows :
  (∀ stats : list SectorStatRow,
     Format._format_sector_stats stats = Format._format_sector_stats (take 8 stats))
  ∧ (∀ stats : list LocationStatRow,
       Format._format_location_stats stats
       = Format._format_location_stats (take 8 stats))
  ∧ (∀ (queries : GraphQueries) (e : ExtractedEntities),
       get_location_stats queries ≠ [] →
       last (context_parts (_build_location_context queries e))
       = Some (Format._format_location_stats (take 8 (get_location_stats queries)))).
Proof.
  assert (Hlocation : ∀ (n : nat) (stats : list LocationStatRow), (8 <= n)%nat →
            Format._format_location_stats (take n stats)
            = Format._format_location_stats (take 8 stats)).
  { intros n stats Hn. unfold Format._format_location_stats. cbv zeta.
    rewrite !take_take. by rewrite Nat.min_l, Nat.min_id by lia. }
  split; [|split].
  - intros stats. unfold Format._format_sector_stats. cbv zeta.
    by rewrite take_take, Nat.min_id.
  - intros stats. unfold Format._format_location_stats. cbv zeta.
    by rewrite take_take, Nat.min_id.
  - intros queries e Hstats. unfold _build_location_context. cbv zeta.
    destruct (get_location_stats queries) as [|row rows] eqn:E; [done|].
    cbn [context_parts add_block]. rewrite last_snoc. f_equal.
    apply Hlocation. lia.
Qed.

Lemma statistics_blocks_show_eight_rows_witness :
  last (context_parts
          (_build_location_context Sample.store
             (extract_entities GraphRetriever_class "startups in bangalore")))
  = Some (Format._format_location_stats (take 8 (get_location_stats Sample.store))).
Proof.
  destruct statistics_blocks_show_eight_rows as (_ & _ & Hplan).
  apply Hplan. vm_compute. discriminate.
Defined.

(** * The extractor on the objects of a process *)

Module ObjectsFacts.

(** The objects of a result lie behind the heap [h] they were allocated
    on. *)
Lemma lookup_behind (h l : Objects.Heap) (k : nat) : (h ++ l) !! (length h + k) = l !! k.
Proof.
  rewrite lookup_app_r by lia. f_equal. lia.
Qed.

Lemma insert_behind (h l : Objects.Heap) (k : nat) (o : Objects.Object) :
  <[length h + k := o]> (h ++ l) = h ++ <[k := o]> l.
Proof. apply insert_app_r. Qed.

Lemma load_old (h l : Objects.Heap) (a : Objects.Address) (o : Objects.Object) :
  h !! a = Some o → Objects.load a (h ++ l) = Some (o, h ++ l).
Proof.
  intros H. unfold Objects.load. by rewrite (lookup_app_l_Some _ _ _ _ H).
Qed.

Lemma enumerate_old (h l : Objects.Heap) (table : Objects.Address) (items : list string) :
  h !! table = Some (Objects.StrSetObject items) →
  Objects.enumerate table (h ++ l) = Some (items, h ++ l).
Proof.
  intros H. unfold Objects.enumerate. unfold mbind, Objects.Run_bind. by rewrite (load_old _ _ _ _ H).
Qed.

Lemma any_in_Permutation (kws1 kws2 : list string) (s : string) :
  kws1 ≡ₚ kws2 → PyStr.any_in kws1 s = PyStr.any_in kws2 s.
Proof.
  intros Hperm. apply eq_true_iff_eq. rewrite !PyStrFacts.any_in_spec.
  split; intros (kw & Hin & Hsub); exists kw; split; try done.
  - by rewrite <- Hperm.
  - by rewrite Hperm.
Qed.

Lemma member_Permutation (x : string) (l1 l2 : list string) :
  l1 ≡ₚ l2 → PyStr.member x l1 = PyStr.member x l2.
Proof.
  intros Hperm. apply eq_true_iff_eq. rewrite !PyStrFacts.member_spec.
  by rewrite Hperm.
Qed.

Lemma any_keyword_old (h l : Objects.Heap) (table : Objects.Address) (kws keywords : list string)
    (query_lower : string) :
  h !! table = Some (Objects.StrSetObject kws) → kws ≡ₚ keywords →
  Objects.any_keyword table query_lower (h ++ l)
  = Some (PyStr.any_in keywords query_lower, h ++ l).
Proof.
  intros H Hperm. unfold Objects.any_keyword. unfold mbind, Objects.Run_bind.
  rewrite (enumerate_old _ _ _ _ H). unfold Objects.ret.
  by rewrite (any_in_Permutation _ _ _ Hperm).
Qed.

Lemma contains_old (h l : Objects.Heap) (table : Objects.Address) (members : list string) (x : string) :
  h !! table = Some (Objects.StrSetObject members) →
  Objects.contains table x (h ++ l) = Some (PyStr.member x members, h ++ l).
Proof.
  intros H. unfold Objects.contains. unfold mbind, Objects.Run_bind.
  by rewrite (enumerate_old _ _ _ _ H).
Qed.

(** Reading and writing the objects of the result. *)
Ltac heap_step :=
  repeat first
    [ rewrite lookup_behind
    | rewrite insert_behind
    | progress cbn [result_objects lookup list_lookup insert list_insert] ].

Section OneResult.

(** The heap before the call, and the addresses of the new objects. *)
Variable h : Objects.Heap.

Local Abbreviation n := (length h).
Local Abbreviation entities := (length h + 5).

Lemma ExtractedEntities_init_run :
  Objects.ExtractedEntities_init h = Some (entities, h ++ result_objects n ExtractedEntities_new).
Proof.
  unfold Objects.ExtractedEntities_init, Objects.allocate. unfold mbind, Objects.Run_bind.
  rewrite !length_app. cbn [length]. rewrite <- !app_assoc. cbn [app].
  unfold result_objects. cbn [companies investors sectors locations query_types
    is_comparison is_aggregation is_top_query ExtractedEntities_new].
  rewrite <- !Nat.add_assoc, Nat.add_0_r. reflexivity.
Qed.

Lemma setattr_flag_run (flag : Objects.FlagAttribute) (b : bool) (v : ExtractedEntities) :
  Objects.setattr_flag entities flag b (h ++ result_objects n v)
  = Some (tt, h ++ result_objects n (set_flag_of flag b v)).
Proof.
  unfold Objects.setattr_flag, Objects.load, Objects.store.
  unfold mbind, Objects.Run_bind. heap_step. by destruct flag.
Qed.

Lemma add_query_type_run (t : EntityType) (v : ExtractedEntities) :
  Objects.add_query_type entities t (h ++ result_objects n v)
  = Some (tt, h ++ result_objects n (add_query_type t v)).
Proof.
  unfold Objects.add_query_type, Objects.getattr_query_types, Objects.set_add, Objects.load, Objects.store, Objects.ret.
  unfold mbind, Objects.Run_bind. heap_step. reflexivity.
Qed.

Lemma append_to_run (attribute : Objects.ListAttribute) (x : string) (v : ExtractedEntities) :
  Objects.append_to entities attribute x (h ++ result_objects n v)
  = Some (tt, h ++ result_objects n (append_of attribute x v)).
Proof.
  unfold Objects.append_to, Objects.getattr_list, Objects.list_append, Objects.load, Objects.store, Objects.ret.
  unfold mbind, Objects.Run_bind. heap_step.
  destruct attribute; heap_step; reflexivity.
Qed.

(** A loop whose turns act on the result as [step] acts on its value. *)
Lemma for_each_run {A : Type} (items : list A) (body : A → Objects.Run unit)
    (step : ExtractedEntities → A → ExtractedEntities) :
  (∀ v x, body x (h ++ result_objects n v)
          = Some (tt, h ++ result_objects n (step v x))) →
  ∀ v, Objects.for_each items body (h ++ result_objects n v)
       = Some (tt, h ++ result_objects n (fold_left step items v)).
Proof.
  intros Hbody. induction items as [|x items IH]; intros v; [reflexivity|].
  cbn [Objects.for_each fold_left]. unfold mbind, Objects.Run_bind. rewrite Hbody. apply IH.
Qed.

Lemma context_check_run (table : Objects.Address) (kws keywords : list string)
    (t : EntityType) (query_lower : string) (v : ExtractedEntities) :
  h !! table = Some (Objects.StrSetObject kws) → kws ≡ₚ keywords →
  Objects.context_check table t query_lower entities (h ++ result_objects n v)
  = Some (tt, h ++ result_objects n (context_step keywords t query_lower v)).
Proof.
  intros H Hperm. unfold Objects.context_check, context_step. unfold mbind, Objects.Run_bind.
  rewrite (any_keyword_old _ _ _ _ _ _ H Hperm).
  destruct (PyStr.any_in keywords query_lower); [apply add_query_type_run | reflexivity].
Qed.

Lemma gazetteer_loop_run (table : Objects.Address) (terms : list string)
    (attribute : Objects.ListAttribute) (t : EntityType) (query_lower : string)
    (v : ExtractedEntities) :
  h !! table = Some (Objects.StrSetObject terms) →
  Objects.gazetteer_loop table attribute t query_lower entities (h ++ result_objects n v)
  = Some (tt, h ++ result_objects n
                (fold_left (gazetteer_step (append_of attribute) t query_lower) terms v)).
Proof.
  intros H. unfold Objects.gazetteer_loop. unfold mbind, Objects.Run_bind.
  rewrite (enumerate_old _ _ _ _ H). apply for_each_run.
  intros v' term. unfold gazetteer_step.
  destruct (PyStr.str_in term query_lower); [|reflexivity].
  unfold mbind, Objects.Run_bind. rewrite append_to_run. apply add_query_type_run.
Qed.

Lemma company_loop_run (self : Objects.GraphRetrieverObject) (tables : GraphRetriever)
    (keywords : list string) (v : ExtractedEntities) :
  h !! Objects.KNOWN_INVESTORS_ref self = Some (Objects.StrSetObject (KNOWN_INVESTORS tables)) →
  h !! Objects.KNOWN_SECTORS_ref self = Some (Objects.StrSetObject (KNOWN_SECTORS tables)) →
  h !! Objects.KNOWN_LOCATIONS_ref self = Some (Objects.StrSetObject (KNOWN_LOCATIONS tables)) →
  Objects.company_loop self keywords entities (h ++ result_objects n v)
  = Some (tt, h ++ result_objects n (fold_left (company_step tables) keywords v)).
Proof.
  intros HI HS HL. unfold Objects.company_loop. apply for_each_run.
  intros v' word. unfold company_step, is_company_candidate. cbv zeta.
  destruct (first_isupper word); [|reflexivity].
  unfold mbind, Objects.Run_bind; cbn [andb]. rewrite (contains_old _ _ _ _ _ HI).
  destruct (PyStr.member (PyStr.lower word) (KNOWN_INVESTORS tables)); [reflexivity|].
  unfold mbind, Objects.Run_bind; cbn [andb negb]. rewrite (contains_old _ _ _ _ _ HS).
  destruct (PyStr.member (PyStr.lower word) (KNOWN_SECTORS tables)); [reflexivity|].
  unfold mbind, Objects.Run_bind; cbn [andb negb]. rewrite (contains_old _ _ _ _ _ HL).
  destruct (PyStr.member (PyStr.lower word) (KNOWN_LOCATIONS tables)); [reflexivity|].
  cbn [andb negb].
  destruct (bool_decide (3 < PyStr.len word)); [|reflexivity].
  unfold mbind, Objects.Run_bind. rewrite (append_to_run Objects.companies_attr). apply add_query_type_run.
Qed.

(** The value of the result is read off its six objects, whatever is
    allocated later. *)
Lemma value_of_result (v : ExtractedEntities) (later : Objects.Heap) :
  Objects.value_of (h ++ result_objects n v ++ later) entities = Some v.
Proof.
  unfold Objects.value_of, Objects.read_list, Objects.read_types.
  unfold result_objects. heap_step. cbn [app]. heap_step.
  cbn [mbind option_bind]. by destruct v.
Qed.

End OneResult.

(** One call: the method allocates the six objects of its result behind
    the heap it finds, leaves that heap as it is, and the value of the
    result is the one [extract_entities] computes from the tables. *)
Lemma extract_entities_run (self : Objects.GraphRetrieverObject) (tables : GraphRetriever)
    (h : Objects.Heap) (query : string) :
  class_loaded self tables h →
  Objects.extract_entities self query h
  = Some (length h + 5,
          h ++ result_objects (length h) (extract_entities tables query)).
Proof.
  intros (HI & HS & HL & (kc & Hc & Pc) & (ka & Ha & Pa) & (kt & Ht & Pt)
          & (ki & Hi & Pi) & (ks & Hs & Ps) & (kl & Hl & Pl)).
  unfold Objects.extract_entities. cbv zeta. unfold mbind, Objects.Run_bind.
  rewrite ExtractedEntities_init_run.
  rewrite (any_keyword_old _ _ _ _ _ _ Hc Pc), setattr_flag_run.
  rewrite (any_keyword_old _ _ _ _ _ _ Ha Pa), setattr_flag_run.
  rewrite (any_keyword_old _ _ _ _ _ _ Ht Pt), setattr_flag_run.
  rewrite (context_check_run h _ _ _ _ _ _ Hi Pi).
  rewrite (context_check_run h _ _ _ _ _ _ Hs Ps).
  rewrite (context_check_run h _ _ _ _ _ _ Hl Pl).
  rewrite (gazetteer_loop_run h _ _ Objects.investors_attr _ _ _ HI).
  rewrite (gazetteer_loop_run h _ _ Objects.sectors_attr _ _ _ HS).
  rewrite (gazetteer_loop_run h _ _ Objects.locations_attr _ _ _ HL).
  rewrite (company_loop_run h self tables _ _ HI HS HL).
  reflexivity.
Qed.

(** The class stays loaded when objects are allocated behind it. *)
Lemma class_loaded_extend (self : Objects.GraphRetrieverObject) (tables : GraphRetriever)
    (h later : Objects.Heap) :
  class_loaded self tables h → class_loaded self tables (h ++ later).
Proof.
  intros (HI & HS & HL & (kc & Hc & Pc) & (ka & Ha & Pa) & (kt & Ht & Pt)
          & (ki & Hi & Pi) & (ks & Hs & Ps) & (kl & Hl & Pl)).
  unfold class_loaded.
  rewrite !(lookup_app_l_Some _ _ _ _ HI), !(lookup_app_l_Some _ _ _ _ HS),
    !(lookup_app_l_Some _ _ _ _ HL).
  repeat split; try done.
  - exists kc. by rewrite (lookup_app_l_Some _ _ _ _ Hc).
  - exists ka. by rewrite (lookup_app_l_Some _ _ _ _ Ha).
  - exists kt. by rewrite (lookup_app_l_Some _ _ _ _ Ht).
  - exists ki. by rewrite (lookup_app_l_Some _ _ _ _ Hi).
  - exists ks. by rewrite (lookup_app_l_Some _ _ _ _ Hs).
  - exists kl. by rewrite (lookup_app_l_Some _ _ _ _ Hl).
Qed.

(** Any number of calls only Objects.allocate behind the heap they find. *)
Lemma call_all_run (self : Objects.GraphRetrieverObject) (tables : GraphRetriever)
    (queries : list string) (h : Objects.Heap) :
  class_loaded self tables h →
  ∃ results later, Objects.call_all self queries h = Some (results, h ++ later).
Proof.
  revert h. induction queries as [|query rest IH]; intros h Hclass.
  - exists [], []. by rewrite app_nil_r.
  - cbn [Objects.call_all]. unfold mbind, Objects.Run_bind.
    rewrite (extract_entities_run self tables h query Hclass).
    destruct (IH (h ++ result_objects (length h) (extract_entities tables query))
                (class_loaded_extend self tables h _ Hclass))
      as (results & later & ->).
    eexists _, _. by rewrite <- app_assoc.
Qed.

End ObjectsFacts.

(** ** The same tables, enumerated in another order *)

Section EnumerationOrder.

Variables t1 t2 : GraphRetriever.
Hypothesis Hsame : same_tables t1 t2.

Lemma gazetteer_hits_Permutation (table1 table2 : list string) (query : string) :
  table1 ≡ₚ table2 → gazetteer_hits table1 query ≡ₚ gazetteer_hits table2 query.
Proof.
  intros Hperm. unfold gazetteer_hits. apply Permutation_map. by rewrite Hperm.
Qed.

Lemma contains_any_Permutation (table1 table2 : list string) (query : string) :
  table1 ≡ₚ table2 → contains_any table1 query ↔ contains_any table2 query.
Proof.
  intros Hperm. unfold contains_any.
  split; intros (kw & pre & post & Hin & H); exists kw, pre, post; split; try done.
  - by rewrite <- Hperm.
  - by rewrite Hperm.
Qed.

Lemma spec_candidate_same_tables (w : string) :
  spec_candidate t1 w ↔ spec_candidate t2 w.
Proof.
  destruct Hsame as (HI & HS & HL). unfold spec_candidate.
  by rewrite HI, HS, HL.
Qed.

Lemma is_company_candidate_same_tables (w : string) :
  is_company_candidate t1 w = is_company_candidate t2 w.
Proof.
  apply eq_true_iff_eq. rewrite !is_company_candidate_spec.
  apply spec_candidate_same_tables.
Qed.

Lemma extract_entities_up_to_order (query : string) :
  same_up_to_order (extract_entities t1 query) (extract_entities t2 query)
  ∧ get_query_intent (extract_entities t1 query)
    = get_query_intent (extract_entities t2 query).
Proof.
  pose proof Hsame as (HI & HS & HL).
  destruct (extract_entities_lists t1 query) as (LI1 & LS1 & LL1).
  destruct (extract_entities_lists t2 query) as (LI2 & LS2 & LL2).
  cbv zeta in LI1, LS1, LL1, LI2, LS2, LL2.
  destruct (extract_entities_flags t1 query) as (FC1 & FA1 & FT1).
  destruct (extract_entities_flags t2 query) as (FC2 & FA2 & FT2).
  cbv zeta in FC1, FA1, FT1, FC2, FA2, FT2.
  assert (Htypes : query_types (extract_entities t1 query)
                   = query_types (extract_entities t2 query)).
  { destruct (extract_entities_tags t1 query) as (I1 & S1 & L1 & C1 & V1 & K1).
    destruct (extract_entities_tags t2 query) as (I2 & S2 & L2 & C2 & V2 & K2).
    cbv zeta in I1, S1, L1, C1, V1, K1, I2, S2, L2, C2, V2, K2.
    apply set_eq. intros [].
    - rewrite C1, C2. unfold company_signal.
      split; intros (w & Hw & Hc); exists w; split; try done;
        by apply spec_candidate_same_tables.
    - rewrite I1, I2. unfold investor_signal.
      by rewrite (contains_any_Permutation _ _ query HI).
    - rewrite S1, S2. unfold sector_signal.
      by rewrite (contains_any_Permutation _ _ query HS).
    - rewrite L1, L2. unfold location_signal.
      by rewrite (contains_any_Permutation _ _ query HL).
    - split; intros H; [by destruct (V1 H) | by destruct (V2 H)].
    - split; intros H; [by destruct (K1 H) | by destruct (K2 H)]. }
  assert (Hflags : is_comparison (extract_entities t1 query)
                   = is_comparison (extract_entities t2 query)
                   ∧ is_aggregation (extract_entities t1 query)
                     = is_aggregation (extract_entities t2 query)
                   ∧ is_top_query (extract_entities t1 query)
                     = is_top_query (extract_entities t2 query)).
  { by rewrite FC1, FC2, FA1, FA2, FT1, FT2. }
  destruct Hflags as (HC & HA & HT).
  split.
  - unfold same_up_to_order. repeat split; try done.
    + rewrite !extract_entities_companies. apply list_filter_iff.
      intros w. by rewrite is_company_candidate_same_tables.
    + rewrite LI1, LI2. by apply gazetteer_hits_Permutation.
    + rewrite LS1, LS2. by apply gazetteer_hits_Permutation.
    + rewrite LL1, LL2. by apply gazetteer_hits_Permutation.
  - rewrite !get_query_intent_cascade. by rewrite Htypes, HC, HA, HT.
Qed.

End EnumerationOrder.

(** ** Two calls on the same string *)

(** As first stated, C7 fails: the result of the extractor is not a
    function of the query and of the members of the gazetteers alone.  The
    investors, the sectors and the locations come out in the order in which
    the process enumerates the class sets, and Python fixes that order by
    the hashes of the strings, which differ from one process to the next.
    Two processes with the same gazetteers that enumerate the investors in
    different orders return different investor lists for the same query. *)
Lemma extraction_depends_on_the_enumeration_order :
  same_tables Processes.tables_a Processes.tables_b
  ∧ class_loaded Processes.GraphRetriever_object Processes.tables_a Processes.process_a
  ∧ class_loaded Processes.GraphRetriever_object Processes.tables_b Processes.process_b
  ∧ (∃ entities h,
       Objects.extract_entities Processes.GraphRetriever_object
         "what did tiger global and softbank fund" Processes.process_a
       = Some (entities, h)
       ∧ investors <$> Objects.value_of h entities
         = Some ["Tiger Global"; "Softbank"])
  ∧ (∃ entities h,
       Objects.extract_entities Processes.GraphRetriever_object
         "what did tiger global and softbank fund" Processes.process_b
       = Some (entities, h)
       ∧ investors <$> Objects.value_of h entities
         = Some ["Softbank"; "Tiger Global"]).
Proof.
  assert (Ha : class_loaded Processes.GraphRetriever_object Processes.tables_a
                 Processes.process_a).
  { unfold class_loaded. repeat split; try reflexivity; by eexists. }
  assert (Hb : class_loaded Processes.GraphRetriever_object Processes.tables_b
                 Processes.process_b).
  { unfold class_loaded. repeat split; try reflexivity; by eexists. }
  split; [|split; [exact Ha | split; [exact Hb | split]]].
  - unfold same_tables. split; [|split; reflexivity]. apply perm_swap.
  - eexists _, _. split.
    + exact (ObjectsFacts.extract_entities_run _ _ _ _ Ha).
    + vm_compute. reflexivity.
  - eexists _, _. split.
    + exact (ObjectsFacts.extract_entities_run _ _ _ _ Hb).
    + vm_compute. reflexivity.
Qed.

(** C7, amended.  In a process that has created the class, two calls of
    the extractor on the same string, with any other calls before and
    between them, both return; they return two different instances with the
    same value, the one that [extract_entities] computes from the tables as
    this process enumerates them; the second call leaves the result of the
    first as it was; and no object that existed before the calls, the sets
    of the class among them, is changed (the method writes only to the
    objects it has allocated itself).  In another process, which holds the
    same gazetteers but may enumerate them in another order, the call
    returns the same companies, tags and flags, hence the same intent, and
    the same investors, sectors and locations up to their order. *)
Theorem extract_entities_is_repeatable
    (self : Objects.GraphRetrieverObject) (tables : GraphRetriever)
    (h0 : Objects.Heap) (before between : list string) (query : string) :
  class_loaded self tables h0 →
  (∃ results0 h1 first h2 results2 h3 second h4,
      Objects.call_all self before h0 = Some (results0, h1)
      ∧ Objects.extract_entities self query h1 = Some (first, h2)
      ∧ Objects.call_all self between h2 = Some (results2, h3)
      ∧ Objects.extract_entities self query h3 = Some (second, h4)
      ∧ first ≠ second
      ∧ Objects.value_of h2 first = Some (extract_entities tables query)
      ∧ Objects.value_of h4 first = Some (extract_entities tables query)
      ∧ Objects.value_of h4 second = Some (extract_entities tables query)
      ∧ h0 `prefix_of` h4
      ∧ h2 `prefix_of` h4)
  ∧ (∀ (self' : Objects.GraphRetrieverObject) (tables' : GraphRetriever)
       (h' : Objects.Heap),
       class_loaded self' tables' h' →
       same_tables tables tables' →
       ∃ entities h'' value,
         Objects.extract_entities self' query h' = Some (entities, h'')
         ∧ Objects.value_of h'' entities = Some value
         ∧ same_up_to_order (extract_entities tables query) value
         ∧ get_query_intent (extract_entities tables query) = get_query_intent value).
Proof.
  intros Hclass. split.
  - destruct (ObjectsFacts.call_all_run self tables before h0 Hclass)
      as (results0 & later0 & Hrun0).
    set (h1 := h0 ++ later0) in *.
    assert (Hclass1 : class_loaded self tables h1)
      by by apply ObjectsFacts.class_loaded_extend.
    set (value := extract_entities tables query).
    set (h2 := h1 ++ result_objects (length h1) value).
    assert (Hclass2 : class_loaded self tables h2)
      by by apply ObjectsFacts.class_loaded_extend.
    destruct (ObjectsFacts.call_all_run self tables between h2 Hclass2)
      as (results2 & later2 & Hrun2).
    set (h3 := h2 ++ later2) in *.
    assert (Hclass3 : class_loaded self tables h3)
      by by apply ObjectsFacts.class_loaded_extend.
    set (h4 := h3 ++ result_objects (length h3) value).
    exists results0, h1, (length h1 + 5), h2, results2, h3, (length h3 + 5), h4.
    split; [exact Hrun0|].
    split; [exact (ObjectsFacts.extract_entities_run self tables h1 query Hclass1)|].
    split; [exact Hrun2|].
    split; [exact (ObjectsFacts.extract_entities_run self tables h3 query Hclass3)|].
    split.
    { unfold h3, h2. rewrite !length_app. cbn [length result_objects]. lia. }
    split.
    { unfold h2. rewrite <- (app_nil_r (result_objects (length h1) value)).
      apply ObjectsFacts.value_of_result. }
    split.
    { unfold h4, h3, h2. rewrite <- !app_assoc.
      apply ObjectsFacts.value_of_result. }
    split.
    { unfold h4. rewrite <- (app_nil_r (result_objects (length h3) value)).
      apply ObjectsFacts.value_of_result. }
    split.
    { unfold h4, h3, h2, h1. rewrite <- !app_assoc. by eexists. }
    unfold h4, h3. rewrite <- !app_assoc. by eexists.
  - intros self' tables' h' Hclass' Hsame.
    destruct (extract_entities_up_to_order tables tables' Hsame query)
      as [Horder Hintent].
    exists (length h' + 5),
      (h' ++ result_objects (length h') (extract_entities tables' query)),
      (extract_entities tables' query).
    split; [exact (ObjectsFacts.extract_entities_run self' tables' h' query Hclass')|].
    split; [|by split].
    rewrite <- (app_nil_r (result_objects (length h') _)).
    apply ObjectsFacts.value_of_result.
Qed.

Lemma extract_entities_is_repeatable_witness :
  ∃ results0 h1 first h2 results2 h3 second h4,
    Objects.call_all Processes.GraphRetriever_object
      ["top investors"] Processes.process_a = Some (results0, h1)
    ∧ Objects.extract_entities Processes.GraphRetriever_object
        "what did tiger global and softbank fund" h1 = Some (first, h2)
    ∧ Objects.call_all Processes.GraphRetriever_object
        ["compare Zomato and Swiggy"; "startups in Pune"] h2 = Some (results2, h3)
    ∧ Objects.extract_entities Processes.GraphRetriever_object
        "what did tiger global and softbank fund" h3 = Some (second, h4)
    ∧ first ≠ second
    ∧ Objects.value_of h4 first = Objects.value_of h4 second
    ∧ Processes.process_a `prefix_of` h4.
Proof.
  destruct (extract_entities_is_repeatable Processes.GraphRetriever_object
              Processes.tables_a Processes.process_a
              ["top investors"] ["compare Zomato and Swiggy"; "startups in Pune"]
              "what did tiger global and softbank fund")
    as ((results0 & h1 & first & h2 & results2 & h3 & second & h4
         & H0 & H1 & H2 & H3 & Hne & _ & Hfirst & Hsecond & Hprefix & _) & _).
  { unfold class_loaded. repeat split; try reflexivity; by eexists. }
  exists results0, h1, first, h2, results2, h3, second, h4.
  repeat split; try done. by rewrite Hfirst, Hsecond.
Defined.
